(* ===== verification/_CoqProject ===== *)
-Q . S2P
Prelude.v
Json.v
Records.v
Store.v
Status.v
Coerce.v
Web.v
Auth.v
InventoryApi.v
ProductionApi.v
SalesApi.v
AlertsApi.v
App.v
Invariants.v
Responses.v
Clients.v
Threads.v
