(* ===== verification/Prelude.v ===== *)
(** * A verification development of the Cosmetic Production Management System

    The program is [src/main.py]: a Flask application keeping four
    in-memory collections (inventory items, production lines, sales
    orders, security alerts), a static table of four user accounts, and
    JSON handlers that read and mutate the collections behind per-role
    checks on the session's role.  All state lives in module-level
    Python lists.  The serial model handles a request completely before
    the next one; [Threads.v] splits the handlers whose read and write of
    a list are apart, for the threaded server [app.run] starts.

    ** How the program is modelled

    Python values are modelled as they occur at run time:
    - JSON request bodies (the result of [request.get_json()]) and
      response bodies are the inductive [Json.json]; Python [int] is [Z]
      (unbounded, as in Python), Python [float] is the primitive IEEE
      binary64 [float] of Rocq, Python [str] is [string] (ASCII
      characters; code points beyond ASCII are not modelled).
    - A Python exception is a value of [Prelude.exc]; a computation that
      may raise returns [Prelude.res].  A handler that reads and writes
      the global lists is a computation of the state-and-exception monad
      [Prelude.PyM]: when it raises, the state it has reached so far is
      kept (Python does not roll mutations back), and Flask turns the
      exception into an HTTP 500 response ([Web.run_view]).
    - A record (a Python [dict] with a fixed set of keys) is a Rocq
      [Record] per kind, in [Records.v]; a field the handlers copy from
      the request without conversion ([data['sku']]) keeps the JSON
      value it was given, a field converted with [int(...)] is a [Z],
      one converted with [float(...)] is a [float].
    - The four global lists are the [Store.Store] record; [item.update]
      on the first element with a given id is [Store.update_by_id], the
      list comprehension of [delete_inventory] is [Store.remove_by_id],
      the [max(...) + 1 if ... else 1] id policy is [Store.next_id].
    - The session cookie is an [option Web.session_user] per client.
    - Where CPython's behaviour depends on its version, the class
      [Json.Interpreter] carries the minor version ([python_minor]): the
      [sum()] of floats in [calculate_dashboard_stats] adds left to right
      on 3.8-3.11 ([Json.sum_naive]) and with Neumaier's compensation on
      3.12 and later ([Json.sum_neumaier]).  The views that reach [sum()]
      take the class as an argument; the theorems hold for every
      version unless they name one.

    ** Files (in dependency order)
    - [Prelude.v]   exceptions, the result type and the [PyM] monad with
                    its notation, Python's [next(...)] and first-match
                    update on lists, shared lemmas and the [py] hints.
    - [Json.v]      JSON values, [d[k]] and [d.get(k, default)], string
                    comparison of JSON values, Python numbers, the
                    class [Interpreter] and [sum] per version.
    - [Coerce.v]    [int(x)] and [float(x)] on JSON values, with the
                    decimal string grammar of CPython (whitespace, sign,
                    underscores, [inf]/[nan]), the 4300-digit limit of
                    [int()] on strings, and IEEE round-to-nearest.
    - [Records.v]   the four record kinds, their JSON encodings and the
                    fixture data of lines 23-221.
    - [Store.v]     the Record Store: ids, [next_id], lookup, update and
                    removal by id, through the class [HasId].
    - [Status.v]    [get_inventory_status] and [calculate_dashboard_stats].
    - [Web.v]       the Flask shell: responses, sessions, the
                    [login_required] and [admin_required] decorators.
    - [Auth.v]      [USERS], [login], [logout], and the Permission Gate
                    (the abstract table of spec 4.3) with its refinement
                    by the checks written in the handlers.
    - [InventoryApi.v], [ProductionApi.v], [SalesApi.v], [AlertsApi.v]:
                    the JSON handlers of lines 346-566.
    - [App.v]       the page views, the routes (one constructor of
                    [request] per URL and method), [handle], the step
                    relation of a client issuing requests,
                    reachability from the start-up state, and a browser
                    following redirects ([browse]).
    - [Invariants.v] the class [StoreSafe] (which changes a view may
                    make to each list) with an instance per view, the
                    invariant [world_inv] of reachable worlds, the
                    monotonicity of resolved alerts and the gate at the
                    level of routes ([route_gate]).
    - [Responses.v] the shape of every answer (status and body), as the
                    class [ResponseTyped] with an instance per view.
    - [Clients.v]   several clients over one store: the sessions as a
                    stdpp [gmap] from client to session and [serve],
                    which states Flask's routing of a request to its
                    client's session (framework behaviour, not code of
                    src/main.py) to run [App.handle] for several clients.
    - [Threads.v]   the threaded development server started by
                    [app.run(debug=True)] (line 587): the three creates
                    and the inventory delete split at their read and
                    their write, and schedules interleaving the threads.

    ** What the theorems show (by group)
    - Derived status: [get_inventory_status] is total and equals the
      abstract three-way classification; the dashboard counts recompute
      from the store; after a sales order the revenue is [sum()] of all
      amounts on every version, and on 3.8-3.11 the previous revenue
      plus the new amount.
    - Record Store: [next_id] is fresh (above every id), ids of a
      sequence of creations are 1..N, removal removes every copy and
      is idempotent, update by id changes only the first match.
    - Permission Gate: every handler answers 403 and leaves the store
      unchanged exactly when the abstract table denies the operation.
    - Handlers: the functional behaviour of each branch (success,
      404, 403, exceptions as 500) and atomicity (a handler that raises
      leaves the store unchanged).
    - Application: ids stay unique and positive in every reachable
      state, alerts only move from Active to Resolved, the session role
      is always one of the four account roles.
    - Round trips: a PUT of the JSON a listing gave for a record leaves
      the store unchanged (inventory, sales; production only when the
      efficiency is already a float); [int(str(n)) = n] with any
      whitespace around for [n] of at most 4300 digits, and
      [ValueError] beyond.
    - Coercions: [float(str(n))] equals [float(n)] whenever the latter
      returns; for every [n] where [float(n)] overflows, the string
      gives the infinity of [n]'s sign instead.
    - Responses: every answer to a decoded body has one of the
      program's shapes.
    - Pages: every page settles on a template within three redirects
      without changing the state; a non-admin's [/alerts] ends on the
      inventory page through the dashboard.
    - Clients: whatever the other clients did, any client can bring
      every alert to Resolved with four requests.
    - Threads: a thread run alone is the atomic handler (a lemma), and
      two interleavings break the store: two creates taking one id, in
      each of the three collections (possible on every CPython); a
      delete discarding a concurrent create (possible on CPython
      3.8-3.10 and free-threaded builds, not on the GIL build of 3.11+).

    ** Bounds and fuel
    Every recursion is structural on a list, a string or a schedule.
    The only fuel is that of [Coerce.digits_rev], which prints the
    decimal digits of [n] with [log2 n + 1] steps; [Coerce.digit_fuel_bound]
    shows this is at least the number of digits.  [App.browse] follows at
    most three redirects; the longest chain of the program has two
    ([/] or [/alerts] to [/dashboard], then to [/inventory]).  Python integers are
    unbounded, so [Z] without wrap-around is exact.  [int()] of a string
    of more than [Coerce.int_max_str_digits] = 4300 digits raises
    [ValueError], the default limit of CPython 3.11+ and of 3.8.14,
    3.9.14 and 3.10.7 onward (earlier patch releases have no limit).

    ** Not modelled
    HTML rendering (the templates are named, not rendered), the Werkzeug
    router beyond the routes listed in [App.v], cookie signing, the
    process banner of lines 572-585, non-ASCII characters in strings
    (Unicode whitespace and digits accepted by [int()] and [float()]),
    and, of the threaded server, the interleaving of the updates:
    [item.update(...)] mutates the dict [next(...)] returned, which a
    concurrent delete may have dropped from the list already; modelling
    it needs object identity (a heap of dicts) where [Store] holds lists
    of values.  The bodies Flask cannot decode as JSON ([get_json]'s
    answer depends on the Flask version) are not modelled: a request
    body is a decoded [json].  The theorems on [sum()] cover 3.8-3.11
    exactly and 3.12+ through [Json.sum_neumaier].
*)

From Stdlib Require Import ZArith String List Floats.
From stdpp Require Import base list strings.
Import ListNotations.

(** ** Python exceptions and fallible results *)

Inductive exc :=
| KeyError (key : string)    (** [d[k]] on a dict without [k] *)
| TypeError                  (** a subscript or conversion on the wrong type *)
| ValueError                 (** [int('x')], [float('x')], [int(nan)] *)
| OverflowError              (** [int(inf)], [float(10**400)] *)
| AttributeError.            (** [.get] on a value that is not a dict *)

Inductive res (A : Type) :=
| Ok (a : A)
| Raise (e : exc).
Arguments Ok {A} a.
Arguments Raise {A} e.

#[export] Instance res_ret : MRet res := fun _ x => Ok x.
#[export] Instance res_bind : MBind res :=
  fun _ _ f r => match r with Ok x => f x | Raise e => Raise e end.

(** ** The state-and-exception monad of a Python handler

    [PyM S A] runs on the global state [S]; the state is returned also
    when the computation raises, as Python keeps every mutation done
    before the [raise]. *)

Definition PyM (S A : Type) : Type := S -> res A * S.

Definition py_ret {S A} (x : A) : PyM S A := fun s => (Ok x, s).
Definition py_bind {S A B} (m : PyM S A) (f : A -> PyM S B) : PyM S B :=
  fun s => match m s with
           | (Ok x, s') => f x s'
           | (Raise e, s') => (Raise e, s')
           end.

#[export] Instance PyM_ret {S} : MRet (PyM S) := fun _ x => py_ret x.
#[export] Instance PyM_bind {S} : MBind (PyM S) := fun _ _ f m => py_bind m f.

Definition py_get {S} : PyM S S := fun s => (Ok s, s).
Definition py_put {S} (s : S) : PyM S unit := fun _ => (Ok tt, s).
Definition py_raise {S A} (e : exc) : PyM S A := fun s => (Raise e, s).
(** A pure computation that may raise, run inside a handler. *)
Definition py_lift {S A} (r : res A) : PyM S A :=
  fun s => match r with Ok x => (Ok x, s) | Raise e => (Raise e, s) end.

Declare Scope py_scope.
Delimit Scope py_scope with py.
Notation "'let*' x ':=' m 'in' k" := (mbind (fun x => k) m)
  (at level 10, x name, m at level 100, k at level 200) : py_scope.

(** ** Python's [next(x for x in l if p(x)), None)] and in-place update *)

Section ListOps.
  Context {A : Type}.

  (** [next((x for x in l if p(x)), None)]: the first match. *)
Definition py_next (p : A -> bool) (l : list A) : option A := List.find p l.

  (** [x = next(...); x.update(...)]: the first element satisfying [p]
      is replaced by [f] of it; the list is unchanged when none does. *)
Fixpoint update_first (p : A -> bool) (f : A -> A) (l : list A) : list A :=
    match l with
    | [] => []
    | x :: xs => if p x then f x :: xs else x :: update_first p f xs
    end.

Lemma update_first_none (p : A -> bool) f l :
    py_next p l = None -> update_first p f l = l.
  Proof.
    unfold py_next. induction l as [|x xs IH]; simpl; [done|].
    destruct (p x); [discriminate|]. intros H. by rewrite IH.
  Qed.

Lemma update_first_length (p : A -> bool) f l :
    length (update_first p f l) = length l.
  Proof. induction l as [|x xs IH]; simpl; [done|]. destruct (p x); simpl; auto. Qed.

  (** Every element of the updated list is an element of the old list
      or the image of the first match. *)
Lemma update_first_elem (p : A -> bool) f l y :
    In y (update_first p f l) ->
    In y l \/ exists x, py_next p l = Some x /\ y = f x.
  Proof.
    unfold py_next. induction l as [|x xs IH]; simpl; [tauto|].
    destruct (p x) eqn:Hp; simpl.
    - intros [<-|Hy]; [right; eauto | left; auto].
    - intros [<-|Hy]; [left; auto|]. destruct (IH Hy) as [?|[z [Hz ->]]]; [left; auto|].
      right. eauto.
  Qed.

Lemma update_first_Forall (P : A -> Prop) (p : A -> bool) f l :
    Forall P l -> (forall x, p x = true -> P x -> P (f x)) ->
    Forall P (update_first p f l).
  Proof.
    intros Hl Hf. induction Hl as [|x xs Hx Hxs IH]; simpl; [constructor|].
    destruct (p x) eqn:Hp; constructor; auto.
  Qed.

Lemma update_first_map {B} (g : A -> B) (p : A -> bool) f l :
    (forall x, p x = true -> g (f x) = g x) ->
    map g (update_first p f l) = map g l.
  Proof.
    intros Hg. induction l as [|x xs IH]; simpl; [done|].
    destruct (p x) eqn:Hp; simpl; [by rewrite Hg | by rewrite IH].
  Qed.

  (** Updating the first match with a function that leaves it as it
      was leaves the list as it was. *)
Lemma update_first_fixed (p : A -> bool) f l x :
    py_next p l = Some x -> f x = x -> update_first p f l = l.
  Proof.
    unfold py_next. intros Hx Hf. induction l as [|y ys IH]; simpl in *; [done|].
    destruct (p y); [injection Hx as ->; by rewrite Hf | by rewrite IH].
  Qed.

Lemma py_next_Some (p : A -> bool) l x :
    py_next p l = Some x -> In x l /\ p x = true.
  Proof. unfold py_next. intros H. split; [eapply find_some | eapply find_some]; eauto. Qed.

Lemma py_next_None (p : A -> bool) l x :
    py_next p l = None -> In x l -> p x = false.
  Proof. unfold py_next. intros H Hx. eapply find_none; eauto. Qed.
End ListOps.

(** ** Monad laws used to compute handlers symbolically *)

Lemma py_bind_ok {S A B} (m : PyM S A) (f : A -> PyM S B) s x s' :
  m s = (Ok x, s') -> py_bind m f s = f x s'.
Proof. unfold py_bind. by intros ->. Qed.

Lemma py_bind_raise {S A B} (m : PyM S A) (f : A -> PyM S B) s e s' :
  m s = (Raise e, s') -> py_bind m f s = (Raise e, s').
Proof. unfold py_bind. by intros ->. Qed.

Arguments py_next {A} p l : simpl never.

Create HintDb py.
Create Rewrite HintDb py_rw.
#[export] Hint Resolve update_first_Forall update_first_length : py.
#[export] Hint Rewrite @update_first_length : py_rw.

(** Unfold the monad plumbing of a handler so that its branches appear. *)
Ltac py_unfold :=
  unfold mbind, mret, PyM_bind, PyM_ret, res_bind, res_ret,
    py_bind, py_ret, py_get, py_put, py_raise, py_lift in *.

Ltac py_simpl := py_unfold; simpl in *.
