(* ===== verification/Json.v ===== *)
(** * JSON values and Python dictionary access

    The values [request.get_json()] hands to a handler and the bodies
    [jsonify] sends back, the subscription [data['k']] and the method
    [data.get('k', default)] the handlers apply to them, the comparison
    of a JSON value with a Python string, and Python's [sum] over the
    floats of a collection, which depends on the interpreter's version
    (the class [Interpreter]): left to right on CPython 3.8-3.11,
    Neumaier-compensated on 3.12+. *)

From Stdlib Require Import ZArith String List Floats.
From stdpp Require Import base list strings.
From S2P Require Import Prelude.
Import ListNotations.

(** A decoded JSON document.  An object keeps its members in the order
    of the text; [json.loads] builds a [dict] from them, so a later
    member with the same key wins (see [dict_lookup]). *)
#[warnings="-register-all"]
Inductive json :=
| JNull
| JBool (b : bool)
| JInt (n : Z)
| JFloat (f : float)
| JStr (s : string)
| JArr (l : list json)
| JObj (kvs : list (string * json)).

(** A Python number that is an [int] or a [float]. *)
Inductive pynum :=
| PInt (n : Z)
| PFloat (f : float).

Definition pynum_to_json (n : pynum) : json :=
  match n with PInt z => JInt z | PFloat f => JFloat f end.

(** [dict(pairs)[k]] for the members of a JSON object: the last member
    named [k]. *)
Definition dict_lookup (kvs : list (string * json)) (k : string) : option json :=
  fold_left (fun acc kv => if String.eqb kv.1 k then Some kv.2 else acc) kvs None.

(** [d[k]]: [KeyError k] on a dict without [k]; [None], a list, a string,
    a number or a boolean is not subscriptable by a string and raises
    [TypeError]. *)
Definition getitem (d : json) (k : string) : res json :=
  match d with
  | JObj kvs => match dict_lookup kvs k with
                | Some v => Ok v
                | None => Raise (KeyError k)
                end
  | _ => Raise TypeError
  end.

(** [d.get(k, default)]: only a [dict] has the method [get]. *)
Definition dict_get (d : json) (k : string) (default : json) : res json :=
  match d with
  | JObj kvs => match dict_lookup kvs k with
                | Some v => Ok v
                | None => Ok default
                end
  | _ => Raise AttributeError
  end.

(** Python's [v == s] between a JSON value and a string literal: only a
    string with the same characters is equal. *)
Definition py_eq_str (v : json) (s : string) : bool :=
  match v with JStr s' => String.eqb s' s | _ => false end.

(** [s in [s1, ..., sn]] on strings. *)
Definition py_in_str (s : string) (l : list string) : bool :=
  existsb (String.eqb s) l.

(** The CPython release the process runs on.  The source asks for
    Python 3.8+ (line 7); of what the program does, only [sum()] of
    floats differs between the releases of that range. *)
Class Interpreter := { python_minor : nat }.

(** Two releases, for the concrete runs of the witnesses. *)
Definition cpython311 : Interpreter := {| python_minor := 11 |}.
Definition cpython312 : Interpreter := {| python_minor := 12 |}.

(** [sum(x for x in l)] over floats ([Python/bltinmodule.c],
    [builtin_sum_impl]).  [sum] starts from the [int] [0]: an empty sum
    is the integer [0], and the first item is added by [0 + x], which
    converts [0] to [0.0].  The float loop then differs:
    - CPython 3.8-3.11 adds each item: [f_result += x];
    - CPython 3.12 and later use Neumaier's compensated summation:
      [t = f_result + x]; the rounding error of that addition,
      [(f_result - t) + x] when [fabs(f_result) >= fabs(x)] and
      [(x - t) + f_result] otherwise, is accumulated in [c]; at the end
      [c] is added when it is non-zero and finite. *)
Definition sum_naive (s : float) (xs : list float) : float := fold_left PrimFloat.add xs s.

Definition neumaier_step (acc : float * float) (x : float) : float * float :=
  let '(s, c) := acc in
  let t := PrimFloat.add s x in
  (t, if PrimFloat.leb (PrimFloat.abs x) (PrimFloat.abs s)
      then PrimFloat.add c (PrimFloat.add (PrimFloat.sub s t) x)
      else PrimFloat.add c (PrimFloat.add (PrimFloat.sub x t) s)).

Definition sum_neumaier (s : float) (xs : list float) : float :=
  let '(s', c) := fold_left neumaier_step xs (s, 0%float) in
  if negb (PrimFloat.eqb c 0%float) && PrimFloat.is_finite c then PrimFloat.add s' c else s'.

Definition py_sum_float `{Interpreter} (l : list float) : pynum :=
  match l with
  | [] => PInt 0
  | x :: xs =>
      PFloat ((if (12 <=? python_minor)%nat then sum_neumaier else sum_naive)
                (PrimFloat.add 0%float x) xs)
  end.

(** [sum(1 for x in l if p(x))]. *)
Definition py_count {A} (p : A -> bool) (l : list A) : Z :=
  Z.of_nat (length (List.filter p l)).

(** ** Lemmas *)

Lemma dict_lookup_app kvs k v :
  dict_lookup (kvs ++ [(k, v)]) k = Some v.
Proof. unfold dict_lookup. rewrite fold_left_app. simpl. by rewrite String.eqb_refl. Qed.

Lemma dict_lookup_cons_other kvs k k' v :
  k' <> k -> dict_lookup kvs k = None -> dict_lookup ((k', v) :: kvs) k = None.
Proof.
  unfold dict_lookup. simpl. intros Hne Hk.
  apply String.eqb_neq in Hne. by rewrite Hne.
Qed.

Lemma getitem_obj_Some kvs k v :
  dict_lookup kvs k = Some v -> getitem (JObj kvs) k = Ok v.
Proof. simpl. by intros ->. Qed.

Lemma getitem_obj_None kvs k :
  dict_lookup kvs k = None -> getitem (JObj kvs) k = Raise (KeyError k).
Proof. simpl. by intros ->. Qed.

Lemma py_eq_str_true v s : py_eq_str v s = true <-> v = JStr s.
Proof.
  destruct v; simpl; split; try discriminate; intros H.
  - apply String.eqb_eq in H. by subst.
  - injection H as ->. apply String.eqb_refl.
Qed.

Lemma py_in_str_spec s l : py_in_str s l = true <-> In s l.
Proof.
  unfold py_in_str. rewrite existsb_exists. split.
  - intros [x [Hx Hs]]. apply String.eqb_eq in Hs. by subst.
  - intros H. exists s. split; [done | apply String.eqb_refl].
Qed.

(** Up to CPython 3.11, appending one float to the summed list adds it
    to the sum: the revenue recomputed after a new order is the old one
    plus its amount, in floating-point arithmetic. *)
Lemma py_sum_float_snoc `{Interpreter} l x :
  (python_minor < 12)%nat ->
  py_sum_float (l ++ [x]) =
  match py_sum_float l with
  | PInt _ => PFloat (PrimFloat.add 0%float x)
  | PFloat s => PFloat (PrimFloat.add s x)
  end.
Proof.
  intros Hv. unfold py_sum_float.
  replace (12 <=? python_minor)%nat with false by (symmetry; apply Nat.leb_gt; lia).
  destruct l as [|y ys]; simpl; [done|]. unfold sum_naive. by rewrite fold_left_app.
Qed.

Lemma py_count_app {A} (p : A -> bool) l1 l2 :
  py_count p (l1 ++ l2) = (py_count p l1 + py_count p l2)%Z.
Proof. unfold py_count. rewrite List.filter_app, length_app. lia. Qed.

Lemma py_count_bounds {A} (p : A -> bool) l :
  (0 <= py_count p l <= Z.of_nat (length l))%Z.
Proof. unfold py_count. pose proof (List.filter_length_le p l). lia. Qed.

#[export] Hint Rewrite @py_count_app : py_rw.
