(* ===== verification/Records.v ===== *)
(** * The four record kinds and the fixture data

    Each Python dict of the four global lists (src/main.py lines 30-221)
    has a fixed set of keys; it is a Rocq record here, one [Module] per
    kind so that field names such as [name] and [status] can repeat.
    A field the handlers copy from the request body unchanged is a
    [json]; a field produced by [int(...)] is a [Z]; one produced by
    [float(...)] is a [float].  [to_json] is the dict [jsonify]
    serialises, with the keys in the order the code writes them. *)

From Stdlib Require Import ZArith String List Floats.
From stdpp Require Import base list strings.
From S2P Require Import Prelude Json.
Import ListNotations.
Local Open Scope string_scope.
Set Warnings "-inexact-float".

Module Inventory.
Record item := mk_item {
    id : Z;
    sku : json;
    name : json;
    category : json;
    quantity : Z;
    min_quantity : Z;
    price : float;
    supplier : json;
    expiry_date : json;
    total_sold : Z
  }.

Definition to_kvs (i : item) : list (string * json) :=
    [("id", JInt i.(id)); ("sku", i.(sku)); ("name", i.(name));
          ("category", i.(category)); ("quantity", JInt i.(quantity));
          ("min_quantity", JInt i.(min_quantity)); ("price", JFloat i.(price));
          ("supplier", i.(supplier)); ("expiry_date", i.(expiry_date));
          ("total_sold", JInt i.(total_sold))].

Definition to_json (i : item) : json := JObj (to_kvs i).

  (** Lines 31-92. *)
Definition initial : list item := [
    mk_item 1 (JStr "SHP-001") (JStr "Lavender Dreams Shampoo") (JStr "Shampoos")
      850 500 24.99 (JStr "Botanical Supplies Co") (JStr "2026-08-15") 2450;
    mk_item 2 (JStr "PRF-102") (JStr "Rose Garden Perfume") (JStr "Perfumes")
      320 200 89.99 (JStr "Essence International") (JStr "2027-12-31") 1850;
    mk_item 3 (JStr "CRM-203") (JStr "Vitamin C Face Cream") (JStr "Creams")
      0 300 45.99 (JStr "Derma Solutions Ltd") (JStr "2026-03-20") 3200;
    mk_item 4 (JStr "LOT-304") (JStr "Hydrating Body Lotion") (JStr "Lotions")
      1250 600 18.99 (JStr "Natural Ingredients Inc") (JStr "2026-06-10") 4100;
    mk_item 5 (JStr "SER-405") (JStr "Anti-Aging Serum") (JStr "Serums")
      180 150 125.99 (JStr "Premium Beauty Supply") (JStr "2026-02-28") 1680
  ].
End Inventory.

Module Production.
Record line := mk_line {
    id : Z;
    name : json;
    product : json;
    materials : json;
    output_rate : Z;
    output_unit : json;
    status : json;
    efficiency : pynum;
    today_produced : Z;
    target_production : Z
  }.

Definition to_kvs (l : line) : list (string * json) :=
    [("id", JInt l.(id)); ("name", l.(name)); ("product", l.(product));
          ("materials", l.(materials)); ("output_rate", JInt l.(output_rate));
          ("output_unit", l.(output_unit)); ("status", l.(status));
          ("efficiency", pynum_to_json l.(efficiency));
          ("today_produced", JInt l.(today_produced));
          ("target_production", JInt l.(target_production))].

Definition to_json (l : line) : json := JObj (to_kvs l).

Definition material (n : string) (q : Z) (u : string) : json :=
    JObj [("name", JStr n); ("quantity", JInt q); ("unit", JStr u)].

  (** Lines 95-143; the third line's efficiency is the [int] [0]. *)
Definition initial : list line := [
    mk_line 1 (JStr "Shampoo Production Line") (JStr "Lavender Dreams Shampoo")
      (JArr [material "Lavender Extract" 50 "ml"; material "Surfactant Base" 200 "ml";
             material "Preservatives" 5 "ml"])
      450 (JStr "bottles") (JStr "active") (PFloat 92.5) 3325 3600;
    mk_line 2 (JStr "Perfume Blending Line") (JStr "Rose Garden Perfume")
      (JArr [material "Rose Essence" 30 "ml"; material "Alcohol Base" 40 "ml";
             material "Fixative" 5 "ml"])
      180 (JStr "bottles") (JStr "active") (PFloat 88.7) 1276 1440;
    mk_line 3 (JStr "Cream Manufacturing Line") (JStr "Vitamin C Face Cream")
      (JArr [material "Vitamin C Powder" 10 "g"; material "Emulsion Base" 45 "ml"])
      300 (JStr "jars") (JStr "maintenance") (PInt 0) 0 2400
  ].
End Production.

Module Sales.
Record order := mk_order {
    id : Z;
    order_number : json;
    client : json;
    products : json;
    total_amount : float;
    order_date : json;
    due_date : json;
    payment_status : json;
    delivery_status : json
  }.

Definition to_kvs (o : order) : list (string * json) :=
    [("id", JInt o.(id)); ("order_number", o.(order_number));
          ("client", o.(client)); ("products", o.(products));
          ("total_amount", JFloat o.(total_amount));
          ("order_date", o.(order_date)); ("due_date", o.(due_date));
          ("payment_status", o.(payment_status));
          ("delivery_status", o.(delivery_status))].

Definition to_json (o : order) : json := JObj (to_kvs o).

Definition product (n : string) (q : Z) (p : float) : json :=
    JObj [("name", JStr n); ("quantity", JInt q); ("price", JFloat p)].

  (** Lines 146-187. *)
Definition initial : list order := [
    mk_order 1 (JStr "ORD-2025-001") (JStr "BeautyMart Retail Chain")
      (JArr [product "Lavender Dreams Shampoo" 500 24.99;
             product "Coconut Oil Conditioner" 500 28.99])
      26990.00 (JStr "2025-10-15") (JStr "2025-10-30") (JStr "Paid") (JStr "Delivered");
    mk_order 2 (JStr "ORD-2025-002") (JStr "Luxury Spa International")
      (JArr [product "Rose Garden Perfume" 200 89.99])
      17998.00 (JStr "2025-10-18") (JStr "2025-11-05") (JStr "Pending") (JStr "Processing");
    mk_order 3 (JStr "ORD-2025-003") (JStr "Online Beauty Store")
      (JArr [product "Anti-Aging Serum" 150 125.99])
      18898.50 (JStr "2025-10-10") (JStr "2025-10-25") (JStr "Overdue") (JStr "Shipped")
  ].
End Sales.

Module Alerts.
  (** Alerts are never created by a handler: every field is one of the
      string literals of lines 190-221, or the ISO timestamp computed
      when the module is imported. *)
Record alert := mk_alert {
    id : Z;
    title : string;
    description : string;
    severity : string;
    category : string;
    location : string;
    timestamp : string;
    status : string
  }.

Definition to_kvs (a : alert) : list (string * json) :=
    [("id", JInt a.(id)); ("title", JStr a.(title));
          ("description", JStr a.(description)); ("severity", JStr a.(severity));
          ("category", JStr a.(category)); ("location", JStr a.(location));
          ("timestamp", JStr a.(timestamp)); ("status", JStr a.(status))].

Definition to_json (a : alert) : json := JObj (to_kvs a).

  (** Lines 190-221: [t2h], [t1h] and [t1d] are the values of
      [(datetime.now() - timedelta(...)).isoformat()] at import time. *)
Definition initial (t2h t1h t1d : string) : list alert := [
    mk_alert 1 "Unauthorized Access Detected"
      "Security cameras detected unauthorized personnel attempting to access Warehouse Section C."
      "Critical" "Theft" "Warehouse - Section C" t2h "Active";
    mk_alert 2 "Fire Alarm Activated"
      "Smoke detected in Production Line 3 area. Automatic sprinkler system activated."
      "Critical" "Fire" "Production Floor - Line 3" t1h "Active";
    mk_alert 3 "Shipment Discrepancy Alert"
      "Loading dock reported shipment leaving facility without matching order documentation."
      "Warning" "UnauthorizedShipment" "Loading Dock - Bay 2" t1d "Resolved"
  ].
End Alerts.
