(* ===== verification/Store.v ===== *)
(** * The Record Store: the four global lists and their id operations

    The store is the four module-level lists of src/main.py.  The
    handlers address a record by its integer ['id'] in four ways, the
    same for every kind, so they are written once over the class
    [HasId] and instantiated for the four record kinds:
    - [next_id]: [max([x['id'] for x in l]) + 1 if l else 1]
      (lines 365, 438, 500);
    - [find_by_id]: [next((x for x in l if x['id'] == k), None)]
      (lines 391, 464, 525, 561);
    - [update_by_id]: [x.update(...)] on that first match, which
      mutates the dict inside the list (lines 396, 469, 530, 563);
    - [remove_by_id]: [[x for x in l if x['id'] != k]] (line 417). *)

From Stdlib Require Import ZArith String List Floats Lia.
From stdpp Require Import base list strings.
From S2P Require Import Prelude Json Records.
Import ListNotations.
Local Open Scope Z_scope.

Class HasId (A : Type) := get_id : A -> Z.

#[export] Instance inventory_id : HasId Inventory.item := Inventory.id.
#[export] Instance production_id : HasId Production.line := Production.id.
#[export] Instance sales_id : HasId Sales.order := Sales.id.
#[export] Instance alerts_id : HasId Alerts.alert := Alerts.id.

Section Ids.
  Context {A : Type} `{HasId A}.

Definition ids (l : list A) : list Z := map get_id l.

  (** [max(ids) + 1 if l else 1]; Python's [max] scans left to right. *)
Definition next_id (l : list A) : Z :=
    match l with
    | [] => 1
    | x :: xs => fold_left Z.max (ids xs) (get_id x) + 1
    end.

Definition has_id (k : Z) (x : A) : bool := Z.eqb (get_id x) k.

Definition find_by_id (k : Z) (l : list A) : option A := py_next (has_id k) l.

Definition update_by_id (k : Z) (f : A -> A) (l : list A) : list A :=
    update_first (has_id k) f l.

Definition remove_by_id (k : Z) (l : list A) : list A :=
    List.filter (fun x => negb (Z.eqb (get_id x) k)) l.

  (** Ids are unique: the invariant every reachable state keeps. *)
Definition ids_unique (l : list A) : Prop := NoDup (ids l).

  (** ** [next_id] *)

Lemma fold_max_ge (zs : list Z) (z0 : Z) :
    z0 <= fold_left Z.max zs z0 /\ Forall (fun z => z <= fold_left Z.max zs z0) zs.
  Proof.
    revert z0. induction zs as [|z zs IH]; intros z0; simpl; [split; [lia | constructor]|].
    destruct (IH (Z.max z0 z)) as [H1 H2]. split; [lia|]. constructor; [lia | done].
  Qed.

Lemma fold_max_in (zs : list Z) (z0 : Z) :
    fold_left Z.max zs z0 = z0 \/ In (fold_left Z.max zs z0) zs.
  Proof.
    revert z0. induction zs as [|z zs IH]; intros z0; simpl; [by left|].
    destruct (IH (Z.max z0 z)) as [->|Hin]; [|by right; right].
    destruct (Z.max_spec z0 z) as [[_ ->]|[_ ->]]; [right; by left | by left].
  Qed.

  (** The next id is above every id of the list. *)
Lemma next_id_fresh (l : list A) x : In x l -> get_id x < next_id l.
  Proof.
    destruct l as [|y ys]; simpl; [done|]. unfold ids.
    destruct (fold_max_ge (map get_id ys) (get_id y)) as [H1 H2].
    intros [<-|Hx]; [lia|].
    rewrite List.Forall_forall in H2. specialize (H2 (get_id x) (in_map _ _ _ Hx)). lia.
  Qed.

Lemma next_id_not_in (l : list A) : ~ In (next_id l) (ids l).
  Proof.
    unfold ids. intros Hin. apply in_map_iff in Hin as [x [Hx Hin]].
    pose proof (next_id_fresh l x Hin). lia.
  Qed.

  (** On a non-empty list it is one more than the id of some element:
      the largest one. *)
Lemma next_id_max (l : list A) :
    l <> [] -> exists x, In x l /\ next_id l = get_id x + 1.
  Proof.
    destruct l as [|y ys]; [done|]. intros _. simpl. unfold ids.
    destruct (fold_max_in (map get_id ys) (get_id y)) as [->|Hin].
    - exists y. split; [by left | done].
    - apply in_map_iff in Hin as [x [Hx Hin]]. exists x. split; [by right | lia].
  Qed.

Lemma next_id_ge_1 (l : list A) :
    Forall (fun x => 0 <= get_id x) l -> 1 <= next_id l.
  Proof.
    destruct l as [|y ys]; simpl; [lia|]. intros Hf. inversion Hf; subst.
    destruct (fold_max_ge (ids ys) (get_id y)). lia.
  Qed.

  (** Appending a record numbered [next_id l] keeps ids unique. *)
Lemma ids_unique_snoc (l : list A) x :
    ids_unique l -> get_id x = next_id l -> ids_unique (l ++ [x]).
  Proof.
    unfold ids_unique, ids. intros Hnd Hx. rewrite map_app. simpl.
    apply NoDup_app. split; [done|]. split; [|apply NoDup_singleton].
    intros z Hz Hz'. apply list_elem_of_In in Hz'. simpl in Hz'. destruct Hz' as [<-|[]].
    apply (next_id_not_in l). rewrite <- Hx. by apply list_elem_of_In.
  Qed.

  (** ** [find_by_id], [update_by_id], [remove_by_id] *)

Lemma find_by_id_Some k (l : list A) x :
    find_by_id k l = Some x -> In x l /\ get_id x = k.
  Proof.
    unfold find_by_id. intros Hf. apply py_next_Some in Hf as [Hin Hp].
    unfold has_id in Hp. apply Z.eqb_eq in Hp. done.
  Qed.

Lemma find_by_id_None k (l : list A) :
    find_by_id k l = None <-> ~ In k (ids l).
  Proof.
    unfold find_by_id, py_next, ids. split.
    - intros Hn Hin. apply in_map_iff in Hin as [x [Hx Hin]].
      pose proof (find_none _ _ Hn x Hin) as Hp. unfold has_id in Hp.
      apply Z.eqb_neq in Hp. done.
    - intros Hnin. destruct (List.find (has_id k) l) as [x|] eqn:Hf; [|done].
      apply find_some in Hf as [Hin Hp]. unfold has_id in Hp. apply Z.eqb_eq in Hp.
      exfalso. apply Hnin. apply in_map_iff. eauto.
  Qed.

Lemma update_by_id_ids k f (l : list A) :
    (forall x, get_id (f x) = get_id x) -> ids (update_by_id k f l) = ids l.
  Proof. intros Hf. unfold ids, update_by_id. apply update_first_map. auto. Qed.

Lemma update_by_id_absent k f (l : list A) :
    find_by_id k l = None -> update_by_id k f l = l.
  Proof. apply update_first_none. Qed.

Lemma update_by_id_fixed k f (l : list A) x :
    find_by_id k l = Some x -> f x = x -> update_by_id k f l = l.
  Proof. apply update_first_fixed. Qed.

  (** With unique ids, a record is what the lookup of its id finds. *)
Lemma find_by_id_unique (l : list A) x :
    ids_unique l -> In x l -> find_by_id (get_id x) l = Some x.
  Proof.
    unfold ids_unique, ids, find_by_id, py_next. induction l as [|y ys IH]; simpl; [done|].
    intros Hnd [<-|Hx]; unfold has_id; [by rewrite Z.eqb_refl|].
    apply NoDup_cons in Hnd as [Hy Hnd].
    destruct (Z.eqb_spec (get_id y) (get_id x)) as [Heq|]; [|by apply IH].
    exfalso. apply Hy. rewrite Heq. apply list_elem_of_In, in_map. done.
  Qed.

  (** With unique ids, the updated record is what a later lookup finds. *)
Lemma find_update_by_id k f (l : list A) x :
    find_by_id k l = Some x -> get_id (f x) = k ->
    find_by_id k (update_by_id k f l) = Some (f x).
  Proof.
    unfold find_by_id, update_by_id, py_next. induction l as [|y ys IH]; simpl; [done|].
    destruct (has_id k y) eqn:Hy.
    - intros [= ->] Hfx. simpl. unfold has_id. rewrite Hfx, Z.eqb_refl. done.
    - intros Hf Hfx. simpl. rewrite Hy. auto.
  Qed.

  (** Records with another id keep their place and value. *)
Lemma find_update_by_id_other k k' f (l : list A) :
    k <> k' -> (forall x, get_id (f x) = get_id x) ->
    find_by_id k' (update_by_id k f l) = find_by_id k' l.
  Proof.
    unfold find_by_id, update_by_id, py_next. intros Hne Hf.
    induction l as [|y ys IH]; simpl; [done|].
    destruct (has_id k y) eqn:Hy; simpl; [|by rewrite IH].
    unfold has_id in *. rewrite Hf. apply Z.eqb_eq in Hy. rewrite Hy.
    destruct (Z.eqb_spec k k'); [done | reflexivity].
  Qed.

Lemma remove_by_id_not_in k (l : list A) : ~ In k (ids (remove_by_id k l)).
  Proof.
    unfold ids, remove_by_id. intros Hin. apply in_map_iff in Hin as [x [Hx Hin]].
    apply filter_In in Hin as [_ Hp]. rewrite Hx, Z.eqb_refl in Hp. discriminate.
  Qed.

Lemma remove_by_id_absent k (l : list A) :
    ~ In k (ids l) -> remove_by_id k l = l.
  Proof.
    unfold ids, remove_by_id. induction l as [|y ys IH]; simpl; [done|].
    intros Hn. destruct (Z.eqb_spec (get_id y) k); [tauto|]. simpl. rewrite IH; tauto.
  Qed.

  (** Removing twice is removing once: [delete] is idempotent. *)
Lemma remove_by_id_idem k (l : list A) :
    remove_by_id k (remove_by_id k l) = remove_by_id k l.
  Proof. apply remove_by_id_absent, remove_by_id_not_in. Qed.

  (** A record with another id survives the removal. *)
Lemma remove_by_id_keeps k (l : list A) x :
    In x l -> get_id x <> k -> In x (remove_by_id k l).
  Proof.
    intros Hin Hne. unfold remove_by_id. apply filter_In. split; [done|].
    destruct (Z.eqb_spec (get_id x) k); done.
  Qed.

Lemma remove_by_id_In k (l : list A) x : In x (remove_by_id k l) -> In x l.
  Proof. unfold remove_by_id. intros H1. by apply filter_In in H1 as [? _]. Qed.

Lemma ids_unique_remove k (l : list A) :
    ids_unique l -> ids_unique (remove_by_id k l).
  Proof.
    unfold ids_unique, ids. induction l as [|y ys IH]; [done|]. intros Hnd.
    simpl in Hnd. apply NoDup_cons in Hnd as [Hn Hnd].
    unfold remove_by_id in *. simpl. destruct (negb _); simpl; [|auto].
    apply NoDup_cons. split; [|auto].
    rewrite list_elem_of_In in *. intros Hin. apply Hn. apply in_map_iff in Hin as [x [Hx Hin]].
    apply in_map_iff. exists x. split; [done|]. by apply (remove_by_id_In k).
  Qed.

Lemma ids_unique_update k f (l : list A) :
    (forall x, get_id (f x) = get_id x) -> ids_unique l -> ids_unique (update_by_id k f l).
  Proof. unfold ids_unique. intros Hf. by rewrite update_by_id_ids. Qed.
End Ids.

#[export] Hint Resolve ids_unique_snoc ids_unique_remove ids_unique_update : py.

Section Sequence.
  Context {A : Type} `{HasId A}.

  (** The ids [1..n] in order. *)
Definition first_ids (n : nat) : list Z := map Z.of_nat (seq 1 n).

Lemma next_id_first_ids (l : list A) n :
    ids l = first_ids n -> next_id l = Z.of_nat n + 1.
  Proof.
    intros Hl. destruct l as [|y ys].
    - destruct n; [done | discriminate].
    - destruct (next_id_max (y :: ys)) as [x [Hin Hx]]; [done|].
      assert (Hxin : In (get_id x) (first_ids n)) by (rewrite <- Hl; by apply in_map).
      unfold first_ids in Hxin. apply in_map_iff in Hxin as [m [Hm Hin']].
      apply in_seq in Hin'.
      assert (Hn : In (Z.of_nat n) (ids (y :: ys))).
      { rewrite Hl. unfold first_ids. apply in_map. apply in_seq. destruct n; [done|lia]. }
      unfold ids in Hn. apply in_map_iff in Hn as [z [Hz Hzin]].
      pose proof (next_id_fresh _ _ Hzin). lia.
  Qed.

  (** Appending a record numbered by [next_id], as the create handlers do. *)
Definition append_new (mk : Z -> A) (l : list A) : list A := l ++ [mk (next_id l)].

Lemma append_new_first_ids (mk : Z -> A) (l : list A) n :
    (forall k, get_id (mk k) = k) ->
    ids l = first_ids n -> ids (append_new mk l) = first_ids (S n).
  Proof.
    intros Hmk Hl. unfold append_new, ids in *. rewrite map_app, Hl. simpl.
    rewrite Hmk, (next_id_first_ids l n); [|done].
    unfold first_ids. rewrite seq_S, map_app. simpl. f_equal. f_equal. lia.
  Qed.
End Sequence.

(** ** The store: the four module-level lists *)

Record Store := mk_store {
  inventory : list Inventory.item;
  production_lines : list Production.line;
  sales_orders : list Sales.order;
  alerts : list Alerts.alert
}.

Definition set_inventory (l : list Inventory.item) (st : Store) : Store :=
  mk_store l st.(production_lines) st.(sales_orders) st.(alerts).
Definition set_production_lines (l : list Production.line) (st : Store) : Store :=
  mk_store st.(inventory) l st.(sales_orders) st.(alerts).
Definition set_sales_orders (l : list Sales.order) (st : Store) : Store :=
  mk_store st.(inventory) st.(production_lines) l st.(alerts).
Definition set_alerts (l : list Alerts.alert) (st : Store) : Store :=
  mk_store st.(inventory) st.(production_lines) st.(sales_orders) l.

(** The store when the module has been imported (lines 31-221). *)
Definition initial_store (t2h t1h t1d : string) : Store :=
  mk_store Inventory.initial Production.initial Sales.initial (Alerts.initial t2h t1h t1d).

(** ** Reuse of ids after a deletion *)

Section Reuse.
  Context {A : Type} `{HasId A}.

  (** C16: the id policy reuses ids.  When the record with the largest
      id [k] is deleted and a record numbered [k - 1] remains, the next
      create is numbered [k] again. *)
Theorem next_id_reuses_deleted_max (l : list A) k :
    Forall (fun x => get_id x <= k) l -> In (k - 1) (ids l) ->
    next_id (remove_by_id k l) = k.
  Proof.
    intros Hmax Hk1. unfold ids in Hk1. apply in_map_iff in Hk1 as [y [Hy Hyin]].
    assert (Hyr : In y (remove_by_id k l)) by (apply remove_by_id_keeps; [done | lia]).
    destruct (next_id_max (remove_by_id k l)) as [x [Hx Hn]]; [by intros Hnil; rewrite Hnil in Hyr|].
    pose proof (next_id_fresh _ _ Hyr).
    assert (Hxk : get_id x <> k).
    { intros Hxk. apply (remove_by_id_not_in k l). unfold ids. apply in_map_iff. by exists x. }
    apply remove_by_id_In in Hx. rewrite List.Forall_forall in Hmax. specialize (Hmax x Hx). lia.
  Qed.
End Reuse.

Lemma next_id_reuses_deleted_max_witness :
  Forall (fun x => get_id x <= 5) Inventory.initial /\ In 4 (ids Inventory.initial) /\
  next_id (remove_by_id 5 Inventory.initial) = 5.
Proof.
  assert (Hf : Forall (fun x => get_id x <= 5) Inventory.initial)
    by (repeat constructor; cbn; lia).
  split; [exact Hf|]. split; [simpl; tauto|].
  apply next_id_reuses_deleted_max; [exact Hf | simpl; tauto].
Defined.
