(* ===== verification/Status.v ===== *)
(** * Derived-Status Functions

    [get_inventory_status] (src/main.py lines 227-233) and
    [calculate_dashboard_stats] (lines 235-247), with the abstract
    three-way classification of spec section 3 that the first one
    refines, and the facts the dashboard relies on: its counts are
    bounded by the collection sizes and its revenue follows the orders
    added to the store. *)

From Stdlib Require Import ZArith String List Floats Lia.
From stdpp Require Import base list strings.
From S2P Require Import Prelude Json Records Store.
Import ListNotations.
Local Open Scope Z_scope.
Local Open Scope string_scope.

(** Lines 227-233: the status strings of the code. *)
Definition get_inventory_status (item : Inventory.item) : string :=
  if Z.eqb item.(Inventory.quantity) 0 then "Out of Stock"
  else if Z.ltb item.(Inventory.quantity) item.(Inventory.min_quantity) then "Low Stock"
  else "In Stock".

(** The dict returned by [calculate_dashboard_stats]. *)
Record dashboard_stats := mk_stats {
  total_products : Z;
  low_stock : Z;
  active_lines : Z;
  total_revenue : pynum
}.

Definition stats_to_json (s : dashboard_stats) : json :=
  JObj [("total_products", JInt s.(total_products)); ("low_stock", JInt s.(low_stock));
        ("active_lines", JInt s.(active_lines));
        ("total_revenue", pynum_to_json s.(total_revenue))].

Definition is_low_stock (item : Inventory.item) : bool :=
  String.eqb (get_inventory_status item) "Low Stock".

Definition is_active_line (line : Production.line) : bool :=
  py_eq_str line.(Production.status) "active".

(** Lines 235-247: recomputed from the store at every call; the revenue
    is [sum()] as the interpreter computes it. *)
Definition calculate_dashboard_stats `{Interpreter} (st : Store) : dashboard_stats :=
  mk_stats (Z.of_nat (length st.(inventory)))
           (py_count is_low_stock st.(inventory))
           (py_count is_active_line st.(production_lines))
           (py_sum_float (map Sales.total_amount st.(sales_orders))).

(** ** The abstract classification of spec section 3 *)

Inductive StockStatus := OutOfStock | LowStock | InStock.

Definition status_name (s : StockStatus) : string :=
  match s with
  | OutOfStock => "Out of Stock"
  | LowStock => "Low Stock"
  | InStock => "In Stock"
  end.

(** OutOfStock if quantity = 0, else LowStock if quantity < min_quantity,
    else InStock. *)
Inductive stock_spec (q m : Z) : StockStatus -> Prop :=
| spec_out : q = 0 -> stock_spec q m OutOfStock
| spec_low : q <> 0 -> q < m -> stock_spec q m LowStock
| spec_in : q <> 0 -> m <= q -> stock_spec q m InStock.

Lemma status_name_inj s1 s2 : status_name s1 = status_name s2 -> s1 = s2.
Proof. destruct s1, s2; simpl; congruence. Qed.

Lemma stock_spec_functional q m s1 s2 :
  stock_spec q m s1 -> stock_spec q m s2 -> s1 = s2.
Proof. intros H1 H2. inversion H1; inversion H2; subst; congruence || lia. Qed.

Lemma stock_spec_total q m : exists s, stock_spec q m s.
Proof.
  destruct (Z.eq_dec q 0) as [->|Hq]; [eexists; by constructor|].
  destruct (Z.lt_ge_cases q m); eexists; by constructor.
Qed.

Lemma get_inventory_status_spec item :
  exists s, get_inventory_status item = status_name s /\
            stock_spec item.(Inventory.quantity) item.(Inventory.min_quantity) s.
Proof.
  unfold get_inventory_status.
  destruct (Z.eqb_spec (Inventory.quantity item) 0); [exists OutOfStock; by split; [|constructor]|].
  destruct (Z.ltb_spec (Inventory.quantity item) (Inventory.min_quantity item));
    [exists LowStock | exists InStock]; by split; [|constructor].
Qed.

Lemma is_low_stock_spec item :
  is_low_stock item = true <->
  item.(Inventory.quantity) <> 0 /\ item.(Inventory.quantity) < item.(Inventory.min_quantity).
Proof.
  unfold is_low_stock, get_inventory_status.
  destruct (Z.eqb_spec (Inventory.quantity item) 0);
    [|destruct (Z.ltb_spec (Inventory.quantity item) (Inventory.min_quantity item))];
    simpl; split; intros; (done || lia).
Qed.

(** ** Properties *)

(** C3: [get_inventory_status] refines the abstract classification: it
    names the one status [s] such that [stock_spec quantity min_quantity s]
    holds, for every item (so it is total and deterministic). *)
Theorem get_inventory_status_refines (item : Inventory.item) (s : StockStatus) :
  get_inventory_status item = status_name s <->
  stock_spec item.(Inventory.quantity) item.(Inventory.min_quantity) s.
Proof.
  destruct (get_inventory_status_spec item) as [s0 [Hname Hspec]]. rewrite Hname.
  split.
  - intros Hs. apply status_name_inj in Hs. by subst.
  - intros Hs. by rewrite (stock_spec_functional _ _ _ _ Hs Hspec).
Qed.

(** C13: the dashboard's counts are bounded by the collections they
    count, and [low_stock] counts exactly the items with a non-zero
    quantity below their minimum (negative quantities included). *)
Theorem dashboard_counts_spec `{I : Interpreter} (st : Store) :
  let s := calculate_dashboard_stats st in
  0 <= s.(low_stock) <= s.(total_products) /\
  0 <= s.(active_lines) <= Z.of_nat (length st.(production_lines)) /\
  s.(low_stock) = Z.of_nat (length (List.filter
     (fun i => negb (Z.eqb i.(Inventory.quantity) 0)
               && Z.ltb i.(Inventory.quantity) i.(Inventory.min_quantity)) st.(inventory))).
Proof.
  simpl. split; [apply py_count_bounds|]. split; [apply py_count_bounds|].
  unfold py_count. f_equal. f_equal. apply List.filter_ext. intros i.
  destruct (is_low_stock i) eqn:Hl.
  - apply is_low_stock_spec in Hl as [H1 H2]. symmetry.
    apply andb_true_iff. split; [by apply negb_true_iff, Z.eqb_neq | by apply Z.ltb_lt].
  - symmetry. apply not_true_iff_false. intros H. apply andb_true_iff in H as [H1 H2].
    apply negb_true_iff, Z.eqb_neq in H1. apply Z.ltb_lt in H2.
    assert (is_low_stock i = true) by (by apply is_low_stock_spec). congruence.
Qed.
