(* ===== verification/Coerce.v ===== *)
(** * Python's [int(x)] and [float(x)] on decoded JSON values

    The create and update handlers convert request fields with
    [int(data['quantity'])] and [float(data['price'])] (src/main.py lines
    372-374, 400-402, 445-450, 472-477, 507, 533).  The field is any
    decoded JSON value, so the conversion is that of CPython on a
    [bool], [int], [float], [str], [None], [list] or [dict]:
    - [int(b)] is [0] or [1]; [int(n)] is [n]; [int(f)] truncates toward
      zero and raises [ValueError] on a NaN, [OverflowError] on an
      infinity; [int(s)] parses an optionally signed decimal numeral
      with single underscores between digits, surrounded by whitespace,
      and raises [ValueError] when it has more than 4300 digits
      ([sys.get_int_max_str_digits()] by default, CPython 3.11+ and
      3.8.14, 3.9.14, 3.10.7 onward);
    - [float(n)] rounds to nearest-even and raises [OverflowError] when
      the result is infinite; [float(s)] accepts the same whitespace,
      a sign, [inf], [infinity] or [nan] in any case, or a decimal
      numeral with an optional fraction and exponent, underscores being
      allowed between two digits only; it rounds to nearest-even (an
      out-of-range numeral gives an infinity, not an error);
    - [None], a list and a dict raise [TypeError].
    Rounding uses the binary64 rounding of [SpecFloat] (the one the
    primitive floats are specified by).  Strings are ASCII: the Unicode
    digits and spaces CPython also accepts are not modelled.

    The second half prints an [int] as Python's [str] does ([py_str])
    and proves that [int()] reads it back up to the digit limit, that
    [float()] of the string agrees with [float()] of the integer, and
    that where [float()] of the integer overflows the string gives an
    infinity. *)

From Stdlib Require Import ZArith String Ascii List Floats Lia.
From stdpp Require Import base list strings.
From S2P Require Import Prelude Json.
Import ListNotations.
Local Open Scope Z_scope.

(** ** Characters *)

(** [str.isspace] on ASCII: [\t \n \v \f \r], the separators
    [\x1c]-[\x1f], and the space. *)
Definition is_py_space (c : ascii) : bool :=
  let n := nat_of_ascii c in
  ((9 <=? n) && (n <=? 13))%nat || ((28 <=? n) && (n <=? 32))%nat.

Definition digit_value (c : ascii) : option Z :=
  let n := nat_of_ascii c in
  if ((48 <=? n) && (n <=? 57))%nat then Some (Z.of_nat n - 48) else None.

Definition is_digit (c : ascii) : bool :=
  match digit_value c with Some _ => true | None => false end.

Fixpoint lstrip (cs : list ascii) : list ascii :=
  match cs with
  | c :: r => if is_py_space c then lstrip r else cs
  | [] => []
  end.

(** [s.strip()]. *)
Definition strip (cs : list ascii) : list ascii := rev (lstrip (rev (lstrip cs))).

(** An optional sign: [true] for [-]. *)
Definition take_sign (cs : list ascii) : bool * list ascii :=
  match cs with
  | c :: r => if Ascii.eqb c "-"%char then (true, r)
              else if Ascii.eqb c "+"%char then (false, r) else (false, cs)
  | [] => (false, [])
  end.

(** ** [int(str)] *)

(** [digit ('_'? digit)*] in base 10, accumulated into [acc]; [need]
    says that a digit must come next (at the start, after [_]). *)
Fixpoint int_digits (need : bool) (acc : Z) (cs : list ascii) : option Z :=
  match cs with
  | [] => if need then None else Some acc
  | c :: r =>
      match digit_value c with
      | Some d => int_digits false (acc * 10 + d) r
      | None => if Ascii.eqb c "_"%char && negb need then int_digits true acc r else None
      end
  end.

(** [sys.get_int_max_str_digits()]: since CPython 3.11, and the
    security releases 3.8.14, 3.9.14 and 3.10.7, [int()] of a string of
    more than 4300 digits (the default; [PYTHONINTMAXSTRDIGITS] or
    [sys.set_int_max_str_digits] change it) raises [ValueError]
    ([Objects/longobject.c], [_PyLong_FromString]: the digits are
    counted, underscores not, after the literal is scanned). *)
Definition int_max_str_digits : nat := 4300.

Definition int_of_string (s : string) : res Z :=
  let '(neg, r) := take_sign (strip (list_ascii_of_string s)) in
  match int_digits true 0 r with
  | Some n =>
      if (int_max_str_digits <? length (List.filter is_digit r))%nat then Raise ValueError
      else Ok (if neg then - n else n)
  | None => Raise ValueError
  end.

(** ** [int(float)]: truncation toward zero *)

Definition int_of_float (f : float) : res Z :=
  match Prim2SF f with
  | S754_zero _ => Ok 0
  | S754_infinity _ => Raise OverflowError
  | S754_nan => Raise ValueError
  | S754_finite neg m e =>
      let v := Z.shiftl (Z.pos m) e in   (* [m * 2^e], floored when [e < 0] *)
      Ok (if neg then - v else v)
  end.

Definition py_int (v : json) : res Z :=
  match v with
  | JBool b => Ok (if b then 1 else 0)
  | JInt n => Ok n
  | JFloat f => int_of_float f
  | JStr s => int_of_string s
  | JNull | JArr _ | JObj _ => Raise TypeError
  end.

(** ** [float(int)] *)

Definition float_of_Z (n : Z) : res float :=
  match SpecFloat.binary_normalize FloatOps.prec FloatOps.emax n 0 false with
  | S754_infinity _ => Raise OverflowError
  | sf => Ok (SF2Prim sf)
  end.

(** ** [float(str)] *)

(** Underscores are allowed only between two digits; they are then
    dropped (CPython's [_Py_string_to_number_with_underscores]). *)
Fixpoint drop_underscores (prev_digit : bool) (cs : list ascii) : option (list ascii) :=
  match cs with
  | [] => Some []
  | c :: r =>
      if Ascii.eqb c "_"%char then
        match r with
        | d :: _ => if prev_digit && is_digit d then drop_underscores false r else None
        | [] => None
        end
      else option_map (cons c) (drop_underscores (is_digit c) r)
  end.

(** The longest run of digits: its value, its length and what follows. *)
Fixpoint take_digits (acc : Z) (n : Z) (cs : list ascii) : Z * Z * list ascii :=
  match cs with
  | c :: r => match digit_value c with
              | Some d => take_digits (acc * 10 + d) (n + 1) r
              | None => (acc, n, cs)
              end
  | [] => (acc, n, [])
  end.

(** [digits ['.' digits] [('e'|'E') [sign] digits]] with at least one
    mantissa digit, read as [(m, k, e)]: the value [m * 10^e] written
    with [k] mantissa digits. *)
Definition parse_decimal (cs : list ascii) : option (Z * Z * Z) :=
  let '(m1, n1, r1) := take_digits 0 0 cs in
  let '(m, n2, r2) :=
    match r1 with
    | c :: r => if Ascii.eqb c "."%char then take_digits m1 0 r else (m1, 0, r1)
    | [] => (m1, 0, r1)
    end in
  if n1 + n2 =? 0 then None else
  match r2 with
  | [] => Some (m, n1 + n2, - n2)
  | c :: r3 =>
      if Ascii.eqb c "e"%char || Ascii.eqb c "E"%char then
        let '(eneg, r4) := take_sign r3 in
        let '(x, nx, r5) := take_digits 0 0 r4 in
        match r5 with
        | [] => if nx =? 0 then None
                else Some (m, n1 + n2, (if eneg then - x else x) - n2)
        | _ => None
        end
      else None
  end.

Definition lower (c : ascii) : ascii :=
  let n := nat_of_ascii c in
  if ((65 <=? n) && (n <=? 90))%nat then ascii_of_nat (n + 32) else c.

Definition is_word (w : string) (cs : list ascii) : bool :=
  String.eqb (string_of_list_ascii (map lower cs)) w.

(** The correctly rounded binary64 value of [(-1)^neg * m * 10^e] with
    [m > 0] written with [k] digits.  When [e >= 309] the value is at
    least [10^309 > 2^1024]: it rounds to an infinity.  When
    [k + e <= -324] it is below [10^-324], less than half the smallest
    subnormal [2^-1074]: it rounds to zero.  Otherwise it is the integer
    [m * 10^e] rounded, or the quotient [m / 10^-e] rounded as [SFdiv]
    rounds a quotient. *)
Definition round_decimal (neg : bool) (m k e : Z) : float :=
  if 309 <=? e then (if neg then neg_infinity else infinity)
  else if k + e <=? -324 then (if neg then neg_zero else zero)
  else if 0 <=? e then
    SF2Prim (SpecFloat.binary_normalize FloatOps.prec FloatOps.emax
               ((if neg then - m else m) * 10 ^ e) 0 false)
  else
    let '(q, e', loc) :=
      SpecFloat.SFdiv_core_binary FloatOps.prec FloatOps.emax m 0 (10 ^ (- e)) 0 in
    SF2Prim (SpecFloat.binary_round_aux FloatOps.prec FloatOps.emax neg q e' loc).

Definition float_of_string (s : string) : res float :=
  match drop_underscores false (list_ascii_of_string s) with
  | None => Raise ValueError
  | Some cs =>
      let '(neg, r) := take_sign (strip cs) in
      if is_word "inf" r || is_word "infinity" r then
        Ok (if neg then neg_infinity else infinity)
      else if is_word "nan" r then Ok nan
      else match parse_decimal r with
           | None => Raise ValueError
           | Some (m, k, e) =>
               if m =? 0 then Ok (if neg then neg_zero else zero)
               else Ok (round_decimal neg m k e)
           end
  end.

Definition py_float (v : json) : res float :=
  match v with
  | JBool b => Ok (if b then 1%float else 0%float)
  | JInt n => float_of_Z n
  | JFloat f => Ok f
  | JStr s => float_of_string s
  | JNull | JArr _ | JObj _ => Raise TypeError
  end.

(** ** [str(n)] for an [int], the text a client sends back

    Python prints an [int] as an optional [-] and the decimal digits of
    its absolute value, most significant first, without leading zeros.
    [digits_rev] peels the digits off with [mod 10] and [/ 10]; the fuel
    [log2 n + 1] is at least the number of decimal digits of [n]. *)

Definition digit_char (d : Z) : ascii := ascii_of_nat (48 + Z.to_nat d).

Fixpoint digits_rev (fuel : nat) (n : Z) : list ascii :=
  match fuel with
  | O => []
  | S f => digit_char (n mod 10) :: (if n <? 10 then [] else digits_rev f (n / 10))
  end.

Definition digit_fuel (n : Z) : nat := S (Z.to_nat (Z.log2 n)).

Definition decimal_digits (n : Z) : list ascii := rev (digits_rev (digit_fuel n) n).

Definition py_str (n : Z) : string :=
  string_of_list_ascii ((if n <? 0 then ["-"%char] else []) ++ decimal_digits (Z.abs n)).

(** The value of a run of digits read left to right onto [acc]. *)
Definition horner (acc : Z) (cs : list ascii) : Z :=
  fold_left (fun a c => a * 10 + match digit_value c with Some d => d | None => 0 end) cs acc.

Definition digit_chars : list ascii :=
  ["0"; "1"; "2"; "3"; "4"; "5"; "6"; "7"; "8"; "9"]%char.

(** ** Properties of the conversions *)

Lemma digit_char_value d : 0 <= d < 10 -> digit_value (digit_char d) = Some d.
Proof.
  intros Hd. assert (d = 0 \/ d = 1 \/ d = 2 \/ d = 3 \/ d = 4 \/ d = 5 \/ d = 6 \/ d = 7 \/
                     d = 8 \/ d = 9) as Hc by lia.
  intuition subst; reflexivity.
Qed.

Lemma digit_char_in d : 0 <= d < 10 -> In (digit_char d) digit_chars.
Proof.
  intros Hd. assert (d = 0 \/ d = 1 \/ d = 2 \/ d = 3 \/ d = 4 \/ d = 5 \/ d = 6 \/ d = 7 \/
                     d = 8 \/ d = 9) as Hc by lia.
  simpl. intuition subst; simpl; tauto.
Qed.

(** What the ten digit characters are not. *)
Lemma digit_chars_props c :
  In c digit_chars ->
  is_digit c = true /\ is_py_space c = false /\ Ascii.eqb c "_" = false /\
  Ascii.eqb c "-" = false /\ Ascii.eqb c "+" = false /\ Ascii.eqb c "." = false /\
  Ascii.eqb c "e" = false /\ Ascii.eqb c "E" = false /\ lower c = c.
Proof. intros H. simpl in H. intuition subst; reflexivity. Qed.

Lemma digits_rev_chars fuel n :
  0 <= n -> Forall (fun c => In c digit_chars) (digits_rev fuel n).
Proof.
  revert n. induction fuel as [|f IH]; intros n Hn; simpl; [constructor|].
  constructor; [apply digit_char_in; apply Z.mod_pos_bound; lia|].
  destruct (n <? 10); [constructor | apply IH; apply Z.div_pos; lia].
Qed.

Lemma decimal_digits_chars n :
  0 <= n -> Forall (fun c => In c digit_chars) (decimal_digits n).
Proof. intros Hn. apply Forall_rev. by apply digits_rev_chars. Qed.

Lemma decimal_digits_nonempty n : decimal_digits n <> [].
Proof. unfold decimal_digits, digit_fuel. simpl. intros H. by apply app_eq_nil in H as [_ ?]. Qed.

Lemma horner_snoc acc cs c :
  horner acc (cs ++ [c]) = horner acc cs * 10 + match digit_value c with Some d => d | None => 0 end.
Proof. unfold horner. by rewrite fold_left_app. Qed.

Lemma horner_digit n : 0 <= n -> horner 0 [digit_char (n mod 10)] = n mod 10.
Proof.
  intros Hn. change (horner 0 [digit_char (n mod 10)]) with
    (0 * 10 + match digit_value (digit_char (n mod 10)) with Some d => d | None => 0 end).
  rewrite digit_char_value by (apply Z.mod_pos_bound; lia). lia.
Qed.

Lemma digits_rev_S f n :
  digits_rev (S f) n = digit_char (n mod 10) :: (if n <? 10 then [] else digits_rev f (n / 10)).
Proof. reflexivity. Qed.

Lemma horner_digits_rev f n :
  0 <= n < 10 ^ Z.of_nat (S f) -> horner 0 (rev (digits_rev (S f) n)) = n.
Proof.
  revert n. induction f as [|f IH]; intros n Hn; rewrite digits_rev_S.
  - destruct (Z.ltb_spec n 10); [|change (10 ^ Z.of_nat 1) with 10 in Hn; lia].
    cbn [rev app]. rewrite horner_digit by lia. apply Z.mod_small. lia.
  - destruct (Z.ltb_spec n 10) as [Hlt|Hge].
    + cbn [rev app]. rewrite horner_digit by lia. apply Z.mod_small. lia.
    + assert (Hq : 0 <= n / 10 < 10 ^ Z.of_nat (S f)).
      { split; [apply Z.div_pos; lia|]. apply Z.div_lt_upper_bound; [lia|].
        rewrite <- Z.pow_succ_r by lia. rewrite <- Nat2Z.inj_succ. lia. }
      cbn [rev]. rewrite horner_snoc, IH by exact Hq.
      rewrite digit_char_value by (apply Z.mod_pos_bound; lia).
      pose proof (Z_div_mod_eq_full n 10). lia.
Qed.

Lemma digit_fuel_bound n : 0 <= n -> n < 10 ^ Z.of_nat (digit_fuel n).
Proof.
  intros Hn. unfold digit_fuel. rewrite Nat2Z.inj_succ, Z2Nat.id by apply Z.log2_nonneg.
  destruct (Z.eq_dec n 0) as [->|Hne]; [reflexivity|].
  apply Z.lt_le_trans with (2 ^ Z.succ (Z.log2 n)).
  - apply Z.log2_spec. lia.
  - apply Z.pow_le_mono_l. lia.
Qed.

Lemma horner_decimal_digits n : 0 <= n -> horner 0 (decimal_digits n) = n.
Proof.
  intros Hn. unfold decimal_digits. pose proof (digit_fuel_bound n Hn) as Hb.
  unfold digit_fuel in *. apply horner_digits_rev. lia.
Qed.

Lemma int_digits_horner acc cs :
  Forall (fun c => In c digit_chars) cs -> int_digits false acc cs = Some (horner acc cs).
Proof.
  revert acc. induction cs as [|c cs IH]; intros acc Hcs; [reflexivity|].
  apply Forall_cons in Hcs as [Hc Hr].
  destruct (digit_chars_props c Hc) as (Hd & _). unfold is_digit in Hd.
  destruct (digit_value c) as [d|] eqn:Hv; [|discriminate].
  cbn [int_digits]. rewrite Hv, IH by exact Hr. unfold horner. cbn [fold_left]. by rewrite Hv.
Qed.

(** A leading digit satisfies the [need] of [int_digits]. *)
Lemma int_digits_need acc c cs :
  In c digit_chars -> int_digits true acc (c :: cs) = int_digits false acc (c :: cs).
Proof.
  intros Hc. destruct (digit_chars_props c Hc) as (Hd & _). unfold is_digit in Hd.
  cbn [int_digits]. by destruct (digit_value c).
Qed.

Lemma lstrip_spaces ws cs :
  Forall (fun c => is_py_space c = true) ws -> lstrip (ws ++ cs) = lstrip cs.
Proof. induction 1 as [|w ws Hw _ IH]; [done|]. cbn [app lstrip]. by rewrite Hw. Qed.

Lemma lstrip_keep cs r :
  Forall (fun c => is_py_space c = false) cs -> cs <> [] -> lstrip (cs ++ r) = cs ++ r.
Proof. intros [|c cs' Hc _] Hne; [done|]. cbn [app lstrip]. by rewrite Hc. Qed.

(** [s.strip()] removes the whitespace around a word and nothing of it. *)
Lemma strip_pad ws cs ws' :
  Forall (fun c => is_py_space c = true) ws -> Forall (fun c => is_py_space c = true) ws' ->
  Forall (fun c => is_py_space c = false) cs -> cs <> [] ->
  strip (ws ++ cs ++ ws') = cs.
Proof.
  intros Hws Hws' Hcs Hne. unfold strip.
  rewrite lstrip_spaces, lstrip_keep by done. rewrite rev_app_distr, lstrip_spaces by by apply Forall_rev.
  rewrite <- (app_nil_r (rev cs)), lstrip_keep;
    [by rewrite app_nil_r, rev_involutive | by apply Forall_rev | intros Hr; apply Hne; rewrite <- (rev_involutive cs), Hr; reflexivity].
Qed.

(** The characters of [str(n)]. *)
Definition py_str_chars (n : Z) : list ascii :=
  (if n <? 0 then ["-"%char] else []) ++ decimal_digits (Z.abs n).

Lemma list_ascii_of_string_app s1 s2 :
  list_ascii_of_string (s1 ++ s2) = list_ascii_of_string s1 ++ list_ascii_of_string s2.
Proof. induction s1 as [|c s1 IH]; simpl; [done | by rewrite IH]. Qed.

Lemma list_ascii_of_py_str n : list_ascii_of_string (py_str n) = py_str_chars n.
Proof. apply list_ascii_of_string_of_list_ascii. Qed.

Lemma py_str_chars_nonspace n : Forall (fun c => is_py_space c = false) (py_str_chars n).
Proof.
  unfold py_str_chars. apply Forall_app. split; [destruct (n <? 0); repeat constructor|].
  eapply Forall_impl; [apply decimal_digits_chars; lia|]. intros c Hc. apply (digit_chars_props c Hc).
Qed.

Lemma py_str_chars_nonempty n : py_str_chars n <> [].
Proof. unfold py_str_chars. intros [_ H]%app_eq_nil. by apply decimal_digits_nonempty in H. Qed.

Lemma take_sign_py_str n : take_sign (py_str_chars n) = (n <? 0, decimal_digits (Z.abs n)).
Proof.
  unfold py_str_chars. destruct (n <? 0); [reflexivity|].
  pose proof (decimal_digits_chars (Z.abs n) ltac:(lia)) as Hd.
  destruct (decimal_digits (Z.abs n)) as [|c cs] eqn:He; [by apply decimal_digits_nonempty in He|].
  apply Forall_cons in Hd as [Hc _]. destruct (digit_chars_props c Hc) as (_ & _ & _ & Hm & Hp & _).
  cbn [app take_sign]. by rewrite Hm, Hp.
Qed.

Lemma filter_digits cs :
  Forall (fun c => In c digit_chars) cs -> List.filter is_digit cs = cs.
Proof.
  induction 1 as [|c cs Hc _ IH]; [done|]. cbn [List.filter].
  by rewrite (proj1 (digit_chars_props c Hc)), IH.
Qed.

(** C22: [int()] reads back what [str()] prints, with any whitespace
    around it, for every integer of at most [int_max_str_digits] (4300)
    digits; a longer one is refused with [ValueError] (HTTP 500 in the
    handlers), so [int(str(n)) = n] fails beyond the limit. *)
Theorem int_of_string_roundtrip n ws ws' :
  Forall (fun c => is_py_space c = true) (list_ascii_of_string ws) ->
  Forall (fun c => is_py_space c = true) (list_ascii_of_string ws') ->
  int_of_string (ws ++ py_str n ++ ws')%string =
    if (int_max_str_digits <? length (decimal_digits (Z.abs n)))%nat then Raise ValueError
    else Ok n.
Proof.
  intros Hws Hws'. unfold int_of_string.
  rewrite !list_ascii_of_string_app, list_ascii_of_py_str, strip_pad
    by auto using py_str_chars_nonspace, py_str_chars_nonempty.
  rewrite take_sign_py_str.
  pose proof (decimal_digits_chars (Z.abs n) ltac:(lia)) as Hd.
  pose proof (horner_decimal_digits (Z.abs n) ltac:(lia)) as Hh.
  rewrite (filter_digits _ Hd).
  destruct (decimal_digits (Z.abs n)) as [|c cs] eqn:He; [by apply decimal_digits_nonempty in He|].
  rewrite int_digits_need, int_digits_horner by (inversion Hd; auto).
  rewrite Hh. destruct (_ <? _)%nat; [done|]. destruct (Z.ltb_spec n 0); f_equal; lia.
Qed.

Lemma int_of_string_roundtrip_witness :
  Forall (fun c => is_py_space c = true) (list_ascii_of_string " ") /\
  Forall (fun c => is_py_space c = true) (list_ascii_of_string "  ") /\
  int_of_string (" " ++ py_str (-400) ++ "  ")%string = Ok (-400).
Proof.
  split; [repeat constructor|]. split; [repeat constructor|].
  rewrite int_of_string_roundtrip by repeat constructor. reflexivity.
Defined.

Lemma drop_underscores_none b cs :
  Forall (fun c => Ascii.eqb c "_" = false) cs -> drop_underscores b cs = Some cs.
Proof.
  revert b. induction cs as [|c cs IH]; intros b Hcs; [done|].
  apply Forall_cons in Hcs as [Hc Hr]. cbn [drop_underscores]. by rewrite Hc, IH.
Qed.

Lemma py_str_chars_no_underscore n : Forall (fun c => Ascii.eqb c "_" = false) (py_str_chars n).
Proof.
  unfold py_str_chars. apply Forall_app. split; [destruct (n <? 0); repeat constructor|].
  eapply Forall_impl; [apply decimal_digits_chars; lia|]. intros c Hc. apply (digit_chars_props c Hc).
Qed.

Lemma strip_py_str n : strip (py_str_chars n) = py_str_chars n.
Proof.
  rewrite <- (app_nil_r (py_str_chars n)) at 1. rewrite <- (app_nil_l (py_str_chars n ++ [])).
  apply strip_pad; auto using py_str_chars_nonspace, py_str_chars_nonempty.
Qed.

(** A numeral is not one of the words [float()] accepts. *)
Lemma is_word_digit w c cs :
  In c digit_chars -> w = "inf"%string \/ w = "infinity"%string \/ w = "nan"%string ->
  is_word w (c :: cs) = false.
Proof. intros Hc Hw. simpl in Hc. intuition subst; reflexivity. Qed.

Lemma take_digits_horner acc k cs :
  Forall (fun c => In c digit_chars) cs ->
  take_digits acc k cs = (horner acc cs, k + Z.of_nat (length cs), []).
Proof.
  revert acc k. induction cs as [|c cs IH]; intros acc k Hcs; [cbn; f_equal; f_equal; lia|].
  apply Forall_cons in Hcs as [Hc Hr].
  destruct (digit_chars_props c Hc) as (Hd & _). unfold is_digit in Hd.
  destruct (digit_value c) as [d|] eqn:Hv; [|discriminate].
  cbn [take_digits]. rewrite Hv, IH by exact Hr. unfold horner. cbn [fold_left length].
  rewrite Hv. f_equal. f_equal. lia.
Qed.

Lemma parse_decimal_digits cs :
  Forall (fun c => In c digit_chars) cs -> cs <> [] ->
  parse_decimal cs = Some (horner 0 cs, Z.of_nat (length cs), 0).
Proof.
  intros Hcs Hne. unfold parse_decimal. rewrite take_digits_horner by exact Hcs.
  destruct cs as [|c cs]; [done|]. cbn [length].
  destruct (Z.eqb_spec (0 + Z.of_nat (S (length cs)) + 0) 0); [lia|]. repeat f_equal; lia.
Qed.

(** [float()] of [str(n)], for [n] other than [0], is [n] rounded to
    binary64 as [round_decimal] rounds a numeral with exponent [0]. *)
Lemma float_of_string_py_str n :
  n <> 0 ->
  float_of_string (py_str n) =
  Ok (SF2Prim (SpecFloat.binary_normalize FloatOps.prec FloatOps.emax n 0 false)).
Proof.
  intros Hn. unfold float_of_string.
  rewrite list_ascii_of_py_str, drop_underscores_none by apply py_str_chars_no_underscore.
  rewrite strip_py_str, take_sign_py_str.
  pose proof (decimal_digits_chars (Z.abs n) ltac:(lia)) as Hd.
  pose proof (horner_decimal_digits (Z.abs n) ltac:(lia)) as Hh.
  destruct (decimal_digits (Z.abs n)) as [|c cs] eqn:He; [by apply decimal_digits_nonempty in He|].
  assert (Hc : In c digit_chars) by (inversion Hd; auto).
  rewrite !(is_word_digit _ c cs Hc) by tauto. cbv beta iota.
  rewrite parse_decimal_digits, Hh by (done || discriminate).
  destruct (Z.eqb_spec (Z.abs n) 0); [lia|].
  unfold round_decimal. change (309 <=? 0) with false. change (0 <=? 0) with true.
  destruct (Z.leb_spec (Z.of_nat (length (c :: cs)) + 0) (-324)); [lia|]. cbv beta iota.
  replace ((if n <? 0 then - Z.abs n else Z.abs n) * 10 ^ 0) with n
    by (destruct (Z.ltb_spec n 0); lia).
  reflexivity.
Qed.

(** Rounding overflows to an infinity of the sign of the integer. *)
Lemma binary_normalize_infinity_sign n s :
  SpecFloat.binary_normalize FloatOps.prec FloatOps.emax n 0 false = S754_infinity s ->
  s = (n <? 0).
Proof.
  intros H. destruct n as [|p|p]; [discriminate| |];
    unfold SpecFloat.binary_normalize, SpecFloat.binary_round, SpecFloat.binary_round_aux in H;
    repeat (case_match; try discriminate); simplify_eq; reflexivity.
Qed.

(** C23: [float()] of the string [str(n)] and [float()] of the integer
    [n] agree whenever the latter returns: both round [n] to the nearest
    binary64 value, the string through [round_decimal] with exponent
    [0], the integer through [float_of_Z]. *)
Theorem float_of_py_str_equiv n f :
  py_float (JInt n) = Ok f -> py_float (JStr (py_str n)) = Ok f.
Proof.
  cbn [py_float]. unfold float_of_Z. intros Hf.
  destruct (Z.eq_dec n 0) as [->|Hn]; [vm_compute in Hf |- *; by injection Hf as <-|].
  rewrite float_of_string_py_str by done.
  by destruct (SpecFloat.binary_normalize _ _ n 0 false); simplify_eq.
Qed.

Lemma float_of_py_str_equiv_witness :
  py_float (JInt 1500) = Ok 1500%float /\ py_float (JStr (py_str 1500)) = Ok 1500%float.
Proof.
  split; [vm_compute; reflexivity|]. apply float_of_py_str_equiv. vm_compute. reflexivity.
Defined.

(** C24: where [float(n)] overflows, the two conversions part: [float()]
    of an integer beyond the binary64 range raises [OverflowError] (a 500
    from the create handlers), while [float()] of the same number
    written as a string returns the infinity of its sign, which the
    handlers store as the price, efficiency or amount. *)
Theorem float_overflow_str_inf n :
  py_float (JInt n) = Raise OverflowError ->
  py_float (JStr (py_str n)) = Ok (if n <? 0 then neg_infinity else infinity).
Proof.
  cbn [py_float]. unfold float_of_Z. intros Hf.
  destruct (Z.eq_dec n 0) as [->|Hn]; [vm_compute in Hf; discriminate|].
  rewrite float_of_string_py_str by done.
  destruct (SpecFloat.binary_normalize _ _ n 0 false) eqn:Hb; try discriminate.
  apply binary_normalize_infinity_sign in Hb as ->. by destruct (n <? 0).
Qed.

Lemma float_overflow_str_inf_witness :
  py_float (JInt (- 10 ^ 400)) = Raise OverflowError /\
  py_float (JStr (py_str (- 10 ^ 400))) = Ok neg_infinity.
Proof.
  split; [vm_compute; reflexivity|].
  rewrite float_overflow_str_inf by (vm_compute; reflexivity). reflexivity.
Defined.
