(* ===== verification/Web.v ===== *)
(** * The Flask shell around the handlers

    What a view returns ([jsonify(...)], [jsonify(...), code],
    [redirect(url_for(...))], [render_template(...)]), the session
    entry ['user'] written by [login], the two decorators of src/main.py
    lines 249-265, and how Flask answers when a view raises (HTTP 500,
    the mutations done before the exception staying in place). *)

From Stdlib Require Import ZArith String List Floats.
From stdpp Require Import base list strings.
From S2P Require Import Prelude Json Store.
Import ListNotations.
Local Open Scope string_scope.
Local Open Scope Z_scope.

(** [session['user'] = {'username': ..., 'role': ...}] (line 289). *)
Record session_user := mk_session_user {
  username : string;
  role : string
}.

Definition session_user_to_json (u : session_user) : json :=
  JObj [("username", JStr u.(username)); ("role", JStr u.(role))].

Inductive response :=
| JsonResp (body : json) (code : Z)                (** [jsonify(body), code] *)
| RedirectResp (location : string)                 (** [redirect(location)] *)
| TemplateResp (template : string) (context : list (string * json))
                                                   (** [render_template(...)] *)
| ServerError.                                     (** Flask's HTTP 500 *)

Definition jsonify (body : json) : response := JsonResp body 200.

Definition error_json (msg : string) : json := JObj [("error", JStr msg)].

(** [url_for] on the endpoints the views redirect to. *)
Definition url_for (endpoint : string) : string :=
  if String.eqb endpoint "login" then "/login"
  else if String.eqb endpoint "dashboard" then "/dashboard"
  else if String.eqb endpoint "inventory_page" then "/inventory"
  else "/" ++ endpoint.

Definition status_code (r : response) : Z :=
  match r with
  | JsonResp _ c => c
  | RedirectResp _ => 302
  | TemplateResp _ _ => 200
  | ServerError => 500
  end.

(** A view of the application: it reads the session and runs on the store. *)
Definition view := option session_user -> PyM Store response.

(** Lines 249-256: [login_required] redirects a request without a
    session user to the login page; otherwise it calls the view with
    [session['user']]. *)
Definition login_required (f : session_user -> PyM Store response) : view :=
  fun sess => match sess with
              | None => mret (RedirectResp (url_for "login"))
              | Some u => f u
              end.

(** Lines 258-265: [admin_required] (defined but applied to no route). *)
Definition admin_required (f : session_user -> PyM Store response) : view :=
  fun sess => match sess with
              | Some u => if String.eqb u.(role) "admin" then f u
                          else mret (JsonResp (error_json "Admin access required") 403)
              | None => mret (JsonResp (error_json "Admin access required") 403)
              end.

(** Flask runs the view; an exception becomes an HTTP 500 response and
    the store keeps what the view had done before raising. *)
Definition run_view (v : view) (sess : option session_user) (st : Store) : response * Store :=
  match v sess st with
  | (Ok r, st') => (r, st')
  | (Raise _, st') => (ServerError, st')
  end.

Lemma login_required_anonymous f st :
  login_required f None st = (Ok (RedirectResp "/login"), st).
Proof. reflexivity. Qed.

(** A client issuing the views [vs] one after the other, in order,
    with the same session: the store after the last one. *)
Fixpoint run_views (vs : list view) (sess : option session_user) (st : Store) : Store :=
  match vs with
  | [] => st
  | v :: vs' => run_views vs' sess (snd (run_view v sess st))
  end.
