(* ===== verification/Auth.v ===== *)
(** * Authentication and the Permission Gate

    [USERS] (src/main.py lines 23-28), the [login], [logout] and [index]
    views (lines 271-300), which read and write the client's session,
    and the Permission Gate: the table of spec section 4.3 as an
    abstract function [allowed] of a role, a resource and an operation,
    and the class [Gated] that a view satisfies when its answer to each
    role agrees with the table (403 and no change where the table
    denies, never 403 where it allows).  The handler files prove the
    instances; [App.v] uses only the class. *)

From Stdlib Require Import ZArith String List Floats.
From stdpp Require Import base list strings.
From S2P Require Import Prelude Json Store Web.
Import ListNotations.
Local Open Scope string_scope.
Local Open Scope Z_scope.
Local Open Scope py_scope.

Record account := mk_account {
  acc_username : string;
  acc_password : string;
  acc_role : string
}.

(** Lines 23-28. *)
Definition USERS : list account := [
  mk_account "admin" "admin123" "admin";
  mk_account "sales" "sales123" "sales";
  mk_account "production" "production123" "production";
  mk_account "staff" "staff123" "staff"
].

(** The session of one client: [None] when ['user'] is not in it. *)
Definition Session := option session_user.

(** Lines 281-292, the POST branch of [login]: [data.get('username')]
    and [data.get('password')] (with the default [None]), the first
    account whose two strings are equal to them, and the session entry
    it writes. *)
Definition login_post (data : json) : PyM Session response :=
  let* username := py_lift (dict_get data "username" JNull) in
  let* password := py_lift (dict_get data "password" JNull) in
  match py_next (fun u => py_eq_str username u.(acc_username)
                          && py_eq_str password u.(acc_password)) USERS with
  | Some u =>
      let* _ := py_put (Some (mk_session_user u.(acc_username) u.(acc_role))) in
      mret (jsonify (JObj [("success", JBool true); ("role", JStr u.(acc_role))]))
  | None =>
      mret (JsonResp (JObj [("success", JBool false);
                            ("message", JStr "Invalid credentials")]) 401)
  end.

(** Lines 278-294: a GET renders the login page. *)
Definition login (is_post : bool) (data : json) : PyM Session response :=
  if is_post then login_post data else mret (TemplateResp "login.html" []).

(** Lines 296-300: [session.pop('user', None)]. *)
Definition logout : PyM Session response :=
  let* _ := py_put None in mret (RedirectResp (url_for "login")).

(** Lines 271-276. *)
Definition index : PyM Session response :=
  let* sess := py_get in
  match sess with
  | Some _ => mret (RedirectResp (url_for "dashboard"))
  | None => mret (RedirectResp (url_for "login"))
  end.

(** ** The Permission Gate of spec section 4.3 *)

Inductive Role := RAdmin | RSales | RProduction | RStaff.

Definition role_name (r : Role) : string :=
  match r with
  | RAdmin => "admin"
  | RSales => "sales"
  | RProduction => "production"
  | RStaff => "staff"
  end.

Definition all_roles : list Role := [RAdmin; RSales; RProduction; RStaff].

Inductive Resource := InventoryRes | ProductionRes | SalesRes | AlertsRes.

Inductive Op := Read | Create | Update | Delete | Resolve.

(** Read is open to every role except on alerts; create and update are
    for admin (inventory), admin and production (lines), admin and
    sales (orders); delete (inventory) and resolve (alerts) are for
    admin; an operation the table does not list is denied. *)
Definition allowed (r : Role) (rs : Resource) (op : Op) : bool :=
  match rs, op with
  | InventoryRes, Read | ProductionRes, Read | SalesRes, Read => true
  | InventoryRes, (Create | Update | Delete) =>
      match r with RAdmin => true | _ => false end
  | ProductionRes, (Create | Update) =>
      match r with RAdmin | RProduction => true | _ => false end
  | SalesRes, (Create | Update) =>
      match r with RAdmin | RSales => true | _ => false end
  | AlertsRes, (Read | Resolve) =>
      match r with RAdmin => true | _ => false end
  | _, _ => false
  end.

Definition user_of_role (name : string) (r : Role) : session_user :=
  mk_session_user name (role_name r).

(** A view agrees with the table on resource [rs] and operation [op]:
    a denied role gets a JSON 403 and the store is left as it was; an
    allowed role never gets a 403. *)
Class Gated (v : view) (rs : Resource) (op : Op) : Prop := {
  gated_deny : forall r name st,
    allowed r rs op = false ->
    exists body, v (Some (user_of_role name r)) st = (Ok (JsonResp body 403), st);
  gated_allow : forall r name st,
    allowed r rs op = true ->
    status_code (fst (run_view v (Some (user_of_role name r)) st)) <> 403
}.

(** ** Lemmas *)

Lemma role_name_inj r1 r2 : role_name r1 = role_name r2 -> r1 = r2.
Proof. destruct r1, r2; simpl; congruence. Qed.

(** Every account's role is the name of a role of the table. *)
Lemma USERS_roles u : In u USERS -> exists r, u.(acc_role) = role_name r.
Proof.
  simpl. intros [<-|[<-|[<-|[<-|[]]]]];
    [exists RAdmin | exists RSales | exists RProduction | exists RStaff]; done.
Qed.

(** The session [login_post] writes, if any, is an account's. *)
Lemma login_post_session data sess r sess' :
  login_post data sess = (r, sess') ->
  sess' = sess \/
  exists u, In u USERS /\ sess' = Some (mk_session_user u.(acc_username) u.(acc_role)).
Proof.
  unfold login_post. py_simpl.
  destruct (dict_get data "username" JNull) as [un|e]; [|intros [= _ <-]; by left].
  destruct (dict_get data "password" JNull) as [pw|e]; [|intros [= _ <-]; by left].
  destruct (py_next _ USERS) as [u|] eqn:Hu; intros [= _ <-]; [|by left].
  right. exists u. split; [|done]. by apply py_next_Some in Hu as [? _].
Qed.

Lemma role_of_user r name : (user_of_role name r).(role) = role_name r.
Proof. reflexivity. Qed.

(** A view [login_required f] whose role test is [check] satisfies the
    gate when [check] agrees with the table on the four role names, a
    failing check answers 403 without touching the store, and a passing
    one never answers 403. *)
Lemma gated_of (f : session_user -> PyM Store response) rs op (check : string -> bool) :
  (forall r, check (role_name r) = allowed r rs op) ->
  (forall u st, check u.(role) = false -> exists body, f u st = (Ok (JsonResp body 403), st)) ->
  (forall u st, check u.(role) = true ->
                status_code (fst (run_view (login_required f) (Some u) st)) <> 403) ->
  Gated (login_required f) rs op.
Proof.
  intros Hc Hd Ha. split; intros r name st Hr.
  - apply Hd. simpl. by rewrite Hc.
  - apply Ha. simpl. by rewrite Hc.
Qed.

(** C11: login succeeds exactly on the credentials of an account.  A
    body whose ['username'] and ['password'] are the strings of an
    account of [USERS] logs the client in with that account's role;
    when no account has both strings, the answer is 401 and the session
    is left as it was. *)
Theorem login_post_spec kvs sess :
  (forall acc, In acc USERS ->
     dict_lookup kvs "username" = Some (JStr acc.(acc_username)) ->
     dict_lookup kvs "password" = Some (JStr acc.(acc_password)) ->
     login_post (JObj kvs) sess =
       (Ok (jsonify (JObj [("success", JBool true); ("role", JStr acc.(acc_role))])),
        Some (mk_session_user acc.(acc_username) acc.(acc_role)))) /\
  ((forall acc, In acc USERS ->
      dict_get (JObj kvs) "username" JNull <> Ok (JStr acc.(acc_username)) \/
      dict_get (JObj kvs) "password" JNull <> Ok (JStr acc.(acc_password))) ->
   login_post (JObj kvs) sess =
     (Ok (JsonResp (JObj [("success", JBool false); ("message", JStr "Invalid credentials")]) 401),
      sess)).
Proof.
  split.
  - intros acc Hin Hu Hp. unfold login_post. py_simpl. rewrite Hu, Hp.
    simpl in Hin. by destruct Hin as [<-|[<-|[<-|[<-|[]]]]].
  - intros Hno. unfold login_post. py_simpl.
    destruct (dict_lookup kvs "username") as [un|] eqn:Hu, (dict_lookup kvs "password") as [pw|] eqn:Hp;
      destruct (py_next _ USERS) as [acc|] eqn:Hn; try done;
      apply py_next_Some in Hn as [Hin Hm]; apply andb_true_iff in Hm as [H1 H2];
      apply py_eq_str_true in H1, H2; subst;
      destruct (Hno acc Hin) as [Hc|Hc]; simpl in Hc; rewrite ?Hu, ?Hp in Hc; congruence.
Qed.

Lemma login_post_spec_witness :
  (forall acc, In acc USERS ->
     dict_lookup [("username", JStr "sales"); ("password", JStr "sales123")] "username" = Some (JStr acc.(acc_username)) ->
     dict_lookup [("username", JStr "sales"); ("password", JStr "sales123")] "password" = Some (JStr acc.(acc_password)) ->
     login_post (JObj [("username", JStr "sales"); ("password", JStr "sales123")]) None =
       (Ok (jsonify (JObj [("success", JBool true); ("role", JStr acc.(acc_role))])),
        Some (mk_session_user acc.(acc_username) acc.(acc_role)))) /\
  ((forall acc, In acc USERS ->
      dict_get (JObj [("username", JStr "sales"); ("password", JStr "sales123")]) "username" JNull <> Ok (JStr acc.(acc_username)) \/
      dict_get (JObj [("username", JStr "sales"); ("password", JStr "sales123")]) "password" JNull <> Ok (JStr acc.(acc_password))) ->
   login_post (JObj [("username", JStr "sales"); ("password", JStr "sales123")]) None =
     (Ok (JsonResp (JObj [("success", JBool false); ("message", JStr "Invalid credentials")]) 401),
      None)).
Proof. apply login_post_spec. Defined.
