(* ===== verification/InventoryApi.v ===== *)
(** * The inventory handlers (src/main.py lines 346-418)

    [get_inventory], [add_inventory], [update_inventory] and
    [delete_inventory], each run under [login_required].  The three
    writers first check [session['user']['role'] not in ['admin']];
    [add_inventory] and [update_inventory] then read the request fields
    in the order of their dict literal (so the first missing or
    malformed one decides the exception) before they mutate the store,
    which makes them atomic. *)

From Stdlib Require Import ZArith String List Floats Lia.
From stdpp Require Import base list strings.
From S2P Require Import Prelude Json Coerce Records Store Status Web Auth.
Import ListNotations.
Local Open Scope string_scope.
Local Open Scope Z_scope.
Local Open Scope py_scope.

Definition permission_denied : response := JsonResp (error_json "Permission denied") 403.

(** The fields a create or update request supplies, after conversion. *)
Record inv_fields := mk_inv_fields {
  f_sku : json;
  f_name : json;
  f_category : json;
  f_quantity : Z;
  f_min_quantity : Z;
  f_price : float;
  f_supplier : json;
  f_expiry_date : json
}.

(** Lines 397-404 (and 369-376): the values of the dict literal, left
    to right. *)
Definition read_inventory_fields (data : json) : res inv_fields :=
  sku ← getitem data "sku";
  name ← getitem data "name";
  category ← getitem data "category";
  quantity ← getitem data "quantity" ≫= py_int;
  min_quantity ← getitem data "min_quantity" ≫= py_int;
  price ← getitem data "price" ≫= py_float;
  supplier ← getitem data "supplier";
  expiry_date ← dict_get data "expiry_date" (JStr "");
  mret (mk_inv_fields sku name category quantity min_quantity price supplier expiry_date).

(** Lines 367-378: the new record, [total_sold] starting at [0]. *)
Definition new_inventory_item (new_id : Z) (f : inv_fields) : Inventory.item :=
  Inventory.mk_item new_id f.(f_sku) f.(f_name) f.(f_category) f.(f_quantity)
    f.(f_min_quantity) f.(f_price) f.(f_supplier) f.(f_expiry_date) 0.

(** Lines 396-405: [item.update(...)] keeps ['id'] and ['total_sold']. *)
Definition apply_inventory_fields (f : inv_fields) (i : Inventory.item) : Inventory.item :=
  Inventory.mk_item i.(Inventory.id) f.(f_sku) f.(f_name) f.(f_category) f.(f_quantity)
    f.(f_min_quantity) f.(f_price) f.(f_supplier) f.(f_expiry_date) i.(Inventory.total_sold).

(** Lines 351-354: a copy of the item with its derived ['status']. *)
Definition item_with_status (i : Inventory.item) : json :=
  JObj (Inventory.to_kvs i ++ [("status", JStr (get_inventory_status i))]).

(** The fields [read_inventory_fields] reads back from the JSON of an
    item: everything but ['id'] and ['total_sold']. *)
Definition inv_fields_of (i : Inventory.item) : inv_fields :=
  mk_inv_fields i.(Inventory.sku) i.(Inventory.name) i.(Inventory.category)
    i.(Inventory.quantity) i.(Inventory.min_quantity) i.(Inventory.price)
    i.(Inventory.supplier) i.(Inventory.expiry_date).

(** Lines 346-355. *)
Definition get_inventory (u : session_user) : PyM Store response :=
  let* st := py_get in
  mret (jsonify (JArr (map item_with_status st.(inventory)))).

(** Lines 357-381. *)
Definition add_inventory (data : json) (u : session_user) : PyM Store response :=
  if negb (py_in_str u.(role) ["admin"]) then mret permission_denied else
  let* st := py_get in
  let new_id := next_id st.(inventory) in
  let* f := py_lift (read_inventory_fields data) in
  let new_item := new_inventory_item new_id f in
  let* _ := py_put (set_inventory (st.(inventory) ++ [new_item]) st) in
  mret (jsonify (JObj [("success", JBool true); ("item", Inventory.to_json new_item)])).

(** Lines 383-407. *)
Definition update_inventory (item_id : Z) (data : json) (u : session_user)
  : PyM Store response :=
  if negb (py_in_str u.(role) ["admin"]) then mret permission_denied else
  let* st := py_get in
  match find_by_id item_id st.(inventory) with
  | None => mret (JsonResp (error_json "Item not found") 404)
  | Some item =>
      let* f := py_lift (read_inventory_fields data) in
      let* _ := py_put (set_inventory
                          (update_by_id item_id (apply_inventory_fields f) st.(inventory)) st) in
      mret (jsonify (JObj [("success", JBool true);
                           ("item", Inventory.to_json (apply_inventory_fields f item))]))
  end.

(** Lines 409-418. *)
Definition delete_inventory (item_id : Z) (u : session_user) : PyM Store response :=
  if negb (py_in_str u.(role) ["admin"]) then mret permission_denied else
  let* st := py_get in
  let* _ := py_put (set_inventory (remove_by_id item_id st.(inventory)) st) in
  mret (jsonify (JObj [("success", JBool true)])).

Definition get_inventory_view : view := login_required get_inventory.
Definition add_inventory_view (data : json) : view := login_required (add_inventory data).
Definition update_inventory_view (item_id : Z) (data : json) : view :=
  login_required (update_inventory item_id data).
Definition delete_inventory_view (item_id : Z) : view :=
  login_required (delete_inventory item_id).

(** ** Behaviour of each branch *)

Lemma admin_in_admin : py_in_str "admin" ["admin"] = true.
Proof. reflexivity. Qed.

Lemma role_check_admin r :
  py_in_str (role_name r) ["admin"] = match r with RAdmin => true | _ => false end.
Proof. by destruct r. Qed.

(** A create whose fields all read and convert appends the new record,
    numbered [next_id], and returns it. *)
Lemma add_inventory_ok data u st f :
  u.(role) = "admin" -> read_inventory_fields data = Ok f ->
  add_inventory data u st =
  (Ok (jsonify (JObj [("success", JBool true);
                      ("item", Inventory.to_json
                                 (new_inventory_item (next_id st.(inventory)) f))])),
   set_inventory (st.(inventory) ++ [new_inventory_item (next_id st.(inventory)) f]) st).
Proof. intros Hu Hf. unfold add_inventory. rewrite Hu, admin_in_admin. py_simpl. by rewrite Hf. Qed.

Lemma add_inventory_raise data u st e :
  u.(role) = "admin" -> read_inventory_fields data = Raise e ->
  add_inventory data u st = (Raise e, st).
Proof. intros Hu Hf. unfold add_inventory. rewrite Hu, admin_in_admin. py_simpl. by rewrite Hf. Qed.

Lemma update_inventory_found item_id data u st item f :
  u.(role) = "admin" -> find_by_id item_id st.(inventory) = Some item ->
  read_inventory_fields data = Ok f ->
  update_inventory item_id data u st =
  (Ok (jsonify (JObj [("success", JBool true);
                      ("item", Inventory.to_json (apply_inventory_fields f item))])),
   set_inventory (update_by_id item_id (apply_inventory_fields f) st.(inventory)) st).
Proof.
  intros Hu Hi Hf. unfold update_inventory. rewrite Hu, admin_in_admin. py_simpl.
  by rewrite Hi, Hf.
Qed.

Lemma update_inventory_not_found item_id data u st :
  u.(role) = "admin" -> find_by_id item_id st.(inventory) = None ->
  update_inventory item_id data u st = (Ok (JsonResp (error_json "Item not found") 404), st).
Proof. intros Hu Hi. unfold update_inventory. rewrite Hu, admin_in_admin. py_simpl. by rewrite Hi. Qed.

Lemma delete_inventory_admin item_id u st :
  u.(role) = "admin" ->
  delete_inventory item_id u st =
  (Ok (jsonify (JObj [("success", JBool true)])),
   set_inventory (remove_by_id item_id st.(inventory)) st).
Proof. intros Hu. unfold delete_inventory. rewrite Hu, admin_in_admin. reflexivity. Qed.

(** Writers called by a role other than admin answer 403 and leave the
    store as it was. *)
Lemma inventory_writers_denied u st :
  py_in_str u.(role) ["admin"] = false ->
  (forall data, add_inventory data u st = (Ok permission_denied, st)) /\
  (forall item_id data, update_inventory item_id data u st = (Ok permission_denied, st)) /\
  (forall item_id, delete_inventory item_id u st = (Ok permission_denied, st)).
Proof.
  intros Hr. unfold add_inventory, update_inventory, delete_inventory. rewrite Hr.
  repeat split.
Qed.

(** ** The inventory views against the Permission Gate *)

(** The answer of [run_view] for a role, through [login_required]. *)
Lemma run_view_login_required f u st :
  run_view (login_required f) (Some u) st =
  match f u st with (Ok r, st') => (r, st') | (Raise _, st') => (ServerError, st') end.
Proof. reflexivity. Qed.

Definition admin_check (s : string) : bool := py_in_str s ["admin"].

Lemma admin_check_allowed op r :
  In op [Create; Update; Delete] -> admin_check (role_name r) = allowed r InventoryRes op.
Proof. intros Hop. destruct r; simpl in Hop; intuition subst; done. Qed.

#[export] Instance get_inventory_gated : Gated get_inventory_view InventoryRes Read.
Proof.
  apply (gated_of _ _ _ (fun _ => true)); [intros r; by destruct r | intros; discriminate | by intros].
Qed.

#[export] Instance add_inventory_gated data : Gated (add_inventory_view data) InventoryRes Create.
Proof.
  apply (gated_of _ _ _ admin_check); [intros; apply admin_check_allowed; simpl; tauto|..].
  - intros u st Hu. eexists. unfold add_inventory. unfold admin_check in Hu. by rewrite Hu.
  - intros u st Hu. apply py_in_str_spec in Hu as [Hu|[]].
    unfold run_view, login_required. destruct (read_inventory_fields data) eqn:Hf;
      [rewrite (add_inventory_ok _ _ _ _ (eq_sym Hu) Hf)
      | rewrite (add_inventory_raise _ _ _ _ (eq_sym Hu) Hf)]; discriminate.
Qed.

#[export] Instance update_inventory_gated item_id data :
  Gated (update_inventory_view item_id data) InventoryRes Update.
Proof.
  apply (gated_of _ _ _ admin_check); [intros; apply admin_check_allowed; simpl; tauto|..].
  - intros u st Hu. eexists. unfold update_inventory. unfold admin_check in Hu. by rewrite Hu.
  - intros u st Hu. apply py_in_str_spec in Hu as [Hu|[]]. symmetry in Hu.
    unfold run_view, login_required. destruct (find_by_id item_id (inventory st)) eqn:Hi;
      [|by rewrite (update_inventory_not_found _ _ _ _ Hu Hi)].
    destruct (read_inventory_fields data) eqn:Hf;
      [by rewrite (update_inventory_found _ _ _ _ _ _ Hu Hi Hf)|].
    unfold update_inventory. rewrite Hu. py_simpl. by rewrite Hi, Hf.
Qed.

#[export] Instance delete_inventory_gated item_id :
  Gated (delete_inventory_view item_id) InventoryRes Delete.
Proof.
  apply (gated_of _ _ _ admin_check); [intros; apply admin_check_allowed; simpl; tauto|..].
  - intros u st Hu. eexists. unfold delete_inventory. unfold admin_check in Hu. by rewrite Hu.
  - intros u st Hu. apply py_in_str_spec in Hu as [Hu|[]].
    unfold run_view, login_required. by rewrite (delete_inventory_admin _ _ _ (eq_sym Hu)).
Qed.

(** ** Properties of the inventory handlers *)

Lemma run_add_inventory_ok data u st f :
  u.(role) = "admin" -> read_inventory_fields data = Ok f ->
  snd (run_view (add_inventory_view data) (Some u) st) =
  set_inventory (st.(inventory) ++ [new_inventory_item (next_id st.(inventory)) f]) st.
Proof. intros Hu Hf. unfold run_view, add_inventory_view, login_required. by rewrite (add_inventory_ok _ _ _ f Hu Hf). Qed.

Lemma new_inventory_item_id k f : get_id (new_inventory_item k f) = k.
Proof. reflexivity. Qed.

(** C5: an admin's create with well-formed fields appends one record
    numbered [max id + 1] (or [1]), with [total_sold = 0] and the
    request's fields, and answers 200 with that record. *)
Theorem add_inventory_appends data u st f :
  u.(role) = "admin" -> read_inventory_fields data = Ok f ->
  run_view (add_inventory_view data) (Some u) st =
  (jsonify (JObj [("success", JBool true);
                  ("item", Inventory.to_json (new_inventory_item (next_id st.(inventory)) f))]),
   set_inventory (st.(inventory) ++ [new_inventory_item (next_id st.(inventory)) f]) st) /\
  (new_inventory_item (next_id st.(inventory)) f).(Inventory.total_sold) = 0 /\
  Forall (fun i => i.(Inventory.id) < next_id st.(inventory)) st.(inventory).
Proof.
  intros Hu Hf. split; [|split; [done|]].
  - unfold run_view, add_inventory_view, login_required. by rewrite (add_inventory_ok _ _ _ f Hu Hf).
  - apply List.Forall_forall. intros i Hi. exact (next_id_fresh _ i Hi).
Qed.

(** C4: the inventory writers are atomic: when [add_inventory] or
    [update_inventory] fails with an exception (HTTP 500), the store is
    the one before the request. *)
Theorem inventory_writes_atomic data item_id sess st :
  (fst (run_view (add_inventory_view data) sess st) = ServerError ->
   snd (run_view (add_inventory_view data) sess st) = st) /\
  (fst (run_view (update_inventory_view item_id data) sess st) = ServerError ->
   snd (run_view (update_inventory_view item_id data) sess st) = st).
Proof.
  unfold run_view, add_inventory_view, update_inventory_view, login_required.
  destruct sess as [u|]; [|done]. unfold add_inventory, update_inventory.
  destruct (negb _); [done|]. py_simpl.
  split; [by destruct (read_inventory_fields data)|].
  destruct (find_by_id item_id _); [|done]. simpl. by destruct (read_inventory_fields data).
Qed.

(** C18: a create or update whose body lacks a required field (here
    ['sku'], the first one read) is answered with HTTP 500 by Flask:
    [data['sku']] raises [KeyError], not the ValidationError (400) of
    spec section 7; the store is unchanged. *)
Theorem add_inventory_missing_field kvs u st :
  u.(role) = "admin" -> dict_lookup kvs "sku" = None ->
  run_view (add_inventory_view (JObj kvs)) (Some u) st = (ServerError, st).
Proof.
  intros Hu Hk. unfold run_view, add_inventory_view, login_required.
  rewrite (add_inventory_raise _ _ _ (KeyError "sku") Hu); [done|].
  unfold read_inventory_fields. simpl. by rewrite Hk.
Qed.

(** C8: an update by any role but admin answers 403 and leaves the
    store, hence every record a later read returns, unchanged. *)
Theorem update_inventory_denied_unchanged r name item_id data st :
  r <> RAdmin ->
  run_view (update_inventory_view item_id data) (Some (user_of_role name r)) st =
    (JsonResp (error_json "Permission denied") 403, st) /\
  run_view get_inventory_view (Some (user_of_role name r)) st =
    (jsonify (JArr (map item_with_status st.(inventory))), st).
Proof. intros Hr. by destruct r. Qed.

(** C7: after an admin deletes id [k], a listing contains no record
    with id [k]; deleting an id that is absent succeeds and changes
    nothing. *)
Theorem delete_inventory_then_list u k st :
  u.(role) = "admin" ->
  let st' := snd (run_view (delete_inventory_view k) (Some u) st) in
  fst (run_view (delete_inventory_view k) (Some u) st) = jsonify (JObj [("success", JBool true)]) /\
  run_view get_inventory_view (Some u) st' =
    (jsonify (JArr (map item_with_status st'.(inventory))), st') /\
  ~ In k (ids st'.(inventory)) /\
  (~ In k (ids st.(inventory)) -> st' = st).
Proof.
  intros Hu st'. subst st'. unfold run_view, delete_inventory_view, login_required.
  rewrite (delete_inventory_admin _ _ _ Hu). simpl.
  split; [done|]. split; [done|]. split; [apply remove_by_id_not_in|].
  intros Hn. rewrite remove_by_id_absent; [|done]. by destruct st.
Qed.

(** C6: creating [N] records one after the other, starting from an
    inventory whose ids are [1..n] (for instance an empty one), gives
    the ids [1..n+N] in creation order. *)
Theorem add_inventory_ids_sequence u datas st n :
  u.(role) = "admin" ->
  Forall (fun d => exists f, read_inventory_fields d = Ok f) datas ->
  ids st.(inventory) = first_ids n ->
  ids (run_views (map add_inventory_view datas) (Some u) st).(inventory) =
  first_ids (n + length datas).
Proof.
  intros Hu Hds. revert st n. induction Hds as [|d ds [f Hf] Hds IH]; intros st n Hst.
  - simpl. by rewrite Nat.add_0_r.
  - simpl. rewrite (run_add_inventory_ok _ _ _ f Hu Hf).
    replace (n + S (length ds))%nat with (S n + length ds)%nat by lia.
    apply IH. apply (append_new_first_ids (fun k => new_inventory_item k f)); [done|done].
Qed.

(** Reading the fields of the listing's JSON of an item gives its
    fields back: [int] of a JSON integer and [float] of a JSON float
    are the identity, the other keys are copied. *)
Lemma read_inventory_fields_of i :
  read_inventory_fields (item_with_status i) = Ok (inv_fields_of i).
Proof. reflexivity. Qed.

Lemma apply_inventory_fields_of i : apply_inventory_fields (inv_fields_of i) i = i.
Proof. by destruct i. Qed.

(** C19: a PUT whose body is the JSON the listing gave for an item (its
    ['status'] key included) succeeds and leaves the store exactly as it
    was: decoding the listing's encoding is the identity on the fields
    the update reads. *)
Theorem update_inventory_roundtrip u k st i :
  u.(role) = "admin" -> find_by_id k st.(inventory) = Some i ->
  run_view (update_inventory_view k (item_with_status i)) (Some u) st =
  (jsonify (JObj [("success", JBool true); ("item", Inventory.to_json i)]), st).
Proof.
  intros Hu Hi. unfold update_inventory_view. rewrite run_view_login_required.
  rewrite (update_inventory_found _ _ _ _ _ _ Hu Hi (read_inventory_fields_of i)).
  rewrite apply_inventory_fields_of, (update_by_id_fixed _ _ _ i Hi); [|apply apply_inventory_fields_of].
  by destruct st.
Qed.

(** ** Witnesses at concrete requests *)

Section Witnesses.
  Local Set Warnings "-inexact-float".

Definition sample_store : Store := initial_store "t-2h" "t-1h" "t-1d".
Definition empty_store : Store := mk_store [] [] [] [].
Definition admin_user : session_user := user_of_role "admin" RAdmin.

  (** A create request whose quantity is the string ["400"]. *)
Definition sample_inv_data : json :=
    JObj [("sku", JStr "SKU-9"); ("name", JStr "Rose Soap"); ("category", JStr "Soaps");
          ("quantity", JStr "400"); ("min_quantity", JInt 300); ("price", JFloat 4.5);
          ("supplier", JStr "Acme")].

Definition sample_inv_fields : inv_fields :=
    mk_inv_fields (JStr "SKU-9") (JStr "Rose Soap") (JStr "Soaps") 400 300 4.5
      (JStr "Acme") (JStr "").

Lemma add_inventory_appends_witness :
    admin_user.(role) = "admin" /\
    read_inventory_fields sample_inv_data = Ok sample_inv_fields /\
    (run_view (add_inventory_view sample_inv_data) (Some admin_user) sample_store =
     (jsonify (JObj [("success", JBool true);
                     ("item", Inventory.to_json
                                (new_inventory_item (next_id sample_store.(inventory))
                                   sample_inv_fields))]),
      set_inventory (sample_store.(inventory) ++
                     [new_inventory_item (next_id sample_store.(inventory)) sample_inv_fields])
        sample_store) /\
     (new_inventory_item (next_id sample_store.(inventory)) sample_inv_fields).(Inventory.total_sold) = 0 /\
     Forall (fun i => i.(Inventory.id) < next_id sample_store.(inventory)) sample_store.(inventory)).
  Proof. split; [reflexivity|]. split; [reflexivity|]. apply add_inventory_appends; reflexivity. Defined.

Lemma inventory_writes_atomic_witness :
    (fst (run_view (add_inventory_view (JObj [])) (Some admin_user) sample_store) = ServerError ->
     snd (run_view (add_inventory_view (JObj [])) (Some admin_user) sample_store) = sample_store) /\
    (fst (run_view (update_inventory_view 3 (JObj [])) (Some admin_user) sample_store) = ServerError ->
     snd (run_view (update_inventory_view 3 (JObj [])) (Some admin_user) sample_store) = sample_store).
  Proof. apply inventory_writes_atomic. Defined.

Lemma add_inventory_missing_field_witness :
    admin_user.(role) = "admin" /\ dict_lookup [("name", JStr "Soap")] "sku" = None /\
    run_view (add_inventory_view (JObj [("name", JStr "Soap")])) (Some admin_user) sample_store =
    (ServerError, sample_store).
  Proof.
    split; [reflexivity|]. split; [reflexivity|].
    apply add_inventory_missing_field; reflexivity.
  Defined.

Lemma update_inventory_denied_unchanged_witness :
    RStaff <> RAdmin /\
    run_view (update_inventory_view 3 sample_inv_data) (Some (user_of_role "staff" RStaff)) sample_store =
      (JsonResp (error_json "Permission denied") 403, sample_store) /\
    run_view get_inventory_view (Some (user_of_role "staff" RStaff)) sample_store =
      (jsonify (JArr (map item_with_status sample_store.(inventory))), sample_store).
  Proof. split; [discriminate|]. apply update_inventory_denied_unchanged. discriminate. Defined.

Lemma delete_inventory_then_list_witness :
    admin_user.(role) = "admin" /\
    let st' := snd (run_view (delete_inventory_view 5) (Some admin_user) sample_store) in
    fst (run_view (delete_inventory_view 5) (Some admin_user) sample_store) =
      jsonify (JObj [("success", JBool true)]) /\
    run_view get_inventory_view (Some admin_user) st' =
      (jsonify (JArr (map item_with_status st'.(inventory))), st') /\
    ~ In 5 (ids st'.(inventory)) /\
    (~ In 5 (ids sample_store.(inventory)) -> st' = sample_store).
  Proof. split; [reflexivity|]. apply delete_inventory_then_list. reflexivity. Defined.

Lemma add_inventory_ids_sequence_witness :
    admin_user.(role) = "admin" /\
    Forall (fun d => exists f, read_inventory_fields d = Ok f) [sample_inv_data; sample_inv_data] /\
    ids empty_store.(inventory) = first_ids 0 /\
    ids (run_views (map add_inventory_view [sample_inv_data; sample_inv_data]) (Some admin_user)
           empty_store).(inventory) = first_ids (0 + 2).
  Proof.
    assert (Hd : Forall (fun d => exists f, read_inventory_fields d = Ok f)
                   [sample_inv_data; sample_inv_data])
      by (repeat constructor; exists sample_inv_fields; reflexivity).
    split; [reflexivity|]. split; [exact Hd|]. split; [reflexivity|].
    apply (add_inventory_ids_sequence admin_user [sample_inv_data; sample_inv_data] empty_store 0);
      [reflexivity | exact Hd | reflexivity].
  Defined.
  (** The third fixture item, the out-of-stock cream. *)
Definition cream_item : Inventory.item :=
    nth 2 Inventory.initial (Inventory.mk_item 0 JNull JNull JNull 0 0 0%float JNull JNull 0).

Lemma update_inventory_roundtrip_witness :
    admin_user.(role) = "admin" /\
    find_by_id 3 sample_store.(inventory) = Some cream_item /\
    run_view (update_inventory_view 3 (item_with_status cream_item)) (Some admin_user) sample_store =
    (jsonify (JObj [("success", JBool true); ("item", Inventory.to_json cream_item)]), sample_store).
  Proof. split; [reflexivity|]. split; [reflexivity|]. apply update_inventory_roundtrip; reflexivity. Defined.
End Witnesses.
