(* ===== verification/ProductionApi.v ===== *)
(** * The production-line handlers (src/main.py lines 424-480)

    [get_production], [add_production] and [update_production] under
    [login_required]; the two writers test
    [session['user']['role'] not in ['admin', 'production']].  The create
    reads ['materials'] with [data.get('materials', [])] between
    ['product'] and ['output_rate']; the update does not read it, so an
    update keeps the line's materials. *)

From Stdlib Require Import ZArith String List Floats Lia.
From stdpp Require Import base list strings.
From S2P Require Import Prelude Json Coerce Records Store Web Auth InventoryApi.
Import ListNotations.
Local Open Scope string_scope.
Local Open Scope Z_scope.
Local Open Scope py_scope.

Record line_fields := mk_line_fields {
  l_name : json;
  l_product : json;
  l_output_rate : Z;
  l_output_unit : json;
  l_status : json;
  l_efficiency : float;
  l_today_produced : Z;
  l_target_production : Z
}.

(** The values after ['product'], left to right (lines 445-450 and
    472-477). *)
Definition read_line_rest (data : json) (name product : json) : res line_fields :=
  output_rate ← getitem data "output_rate" ≫= py_int;
  output_unit ← getitem data "output_unit";
  status ← getitem data "status";
  efficiency ← getitem data "efficiency" ≫= py_float;
  today_produced ← getitem data "today_produced" ≫= py_int;
  target_production ← getitem data "target_production" ≫= py_int;
  mret (mk_line_fields name product output_rate output_unit status efficiency
          today_produced target_production).

(** Lines 469-478: the update's dict literal. *)
Definition read_line_fields (data : json) : res line_fields :=
  name ← getitem data "name";
  product ← getitem data "product";
  read_line_rest data name product.

(** Lines 440-451: the create's dict literal, with the materials. *)
Definition read_new_line (data : json) : res (line_fields * json) :=
  name ← getitem data "name";
  product ← getitem data "product";
  materials ← dict_get data "materials" (JArr []);
  f ← read_line_rest data name product;
  mret (f, materials).

Definition new_line (new_id : Z) (f : line_fields) (materials : json) : Production.line :=
  Production.mk_line new_id f.(l_name) f.(l_product) materials f.(l_output_rate)
    f.(l_output_unit) f.(l_status) (PFloat f.(l_efficiency)) f.(l_today_produced)
    f.(l_target_production).

(** [line.update(...)]: ['id'] and ['materials'] stay. *)
Definition apply_line_fields (f : line_fields) (l : Production.line) : Production.line :=
  Production.mk_line l.(Production.id) f.(l_name) f.(l_product) l.(Production.materials)
    f.(l_output_rate) f.(l_output_unit) f.(l_status) (PFloat f.(l_efficiency))
    f.(l_today_produced) f.(l_target_production).

(** The fields [read_line_fields] reads back from the JSON of a line,
    [eff] being [float] of its efficiency. *)
Definition line_fields_of (l : Production.line) (eff : float) : line_fields :=
  mk_line_fields l.(Production.name) l.(Production.product) l.(Production.output_rate)
    l.(Production.output_unit) l.(Production.status) eff l.(Production.today_produced)
    l.(Production.target_production).

Definition production_check (s : string) : bool := py_in_str s ["admin"; "production"].

(** Lines 424-428. *)
Definition get_production (u : session_user) : PyM Store response :=
  let* st := py_get in
  mret (jsonify (JArr (map Production.to_json st.(production_lines)))).

(** Lines 430-454. *)
Definition add_production (data : json) (u : session_user) : PyM Store response :=
  if negb (py_in_str u.(role) ["admin"; "production"]) then mret permission_denied else
  let* st := py_get in
  let new_id := next_id st.(production_lines) in
  let* fm := py_lift (read_new_line data) in
  let line := new_line new_id fm.1 fm.2 in
  let* _ := py_put (set_production_lines (st.(production_lines) ++ [line]) st) in
  mret (jsonify (JObj [("success", JBool true); ("line", Production.to_json line)])).

(** Lines 456-480. *)
Definition update_production (line_id : Z) (data : json) (u : session_user)
  : PyM Store response :=
  if negb (py_in_str u.(role) ["admin"; "production"]) then mret permission_denied else
  let* st := py_get in
  match find_by_id line_id st.(production_lines) with
  | None => mret (JsonResp (error_json "Line not found") 404)
  | Some line =>
      let* f := py_lift (read_line_fields data) in
      let* _ := py_put (set_production_lines
                          (update_by_id line_id (apply_line_fields f) st.(production_lines)) st) in
      mret (jsonify (JObj [("success", JBool true);
                           ("line", Production.to_json (apply_line_fields f line))]))
  end.

Definition get_production_view : view := login_required get_production.
Definition add_production_view (data : json) : view := login_required (add_production data).
Definition update_production_view (line_id : Z) (data : json) : view :=
  login_required (update_production line_id data).

(** ** Branches *)

Lemma add_production_ok data u st f m :
  production_check u.(role) = true -> read_new_line data = Ok (f, m) ->
  add_production data u st =
  (Ok (jsonify (JObj [("success", JBool true);
                      ("line", Production.to_json
                                 (new_line (next_id st.(production_lines)) f m))])),
   set_production_lines (st.(production_lines) ++ [new_line (next_id st.(production_lines)) f m]) st).
Proof. intros Hu Hf. unfold add_production. unfold production_check in Hu. rewrite Hu. py_simpl. by rewrite Hf. Qed.

Lemma add_production_raise data u st e :
  production_check u.(role) = true -> read_new_line data = Raise e ->
  add_production data u st = (Raise e, st).
Proof. intros Hu Hf. unfold add_production. unfold production_check in Hu. rewrite Hu. py_simpl. by rewrite Hf. Qed.

Lemma update_production_found line_id data u st line f :
  production_check u.(role) = true -> find_by_id line_id st.(production_lines) = Some line ->
  read_line_fields data = Ok f ->
  update_production line_id data u st =
  (Ok (jsonify (JObj [("success", JBool true);
                      ("line", Production.to_json (apply_line_fields f line))])),
   set_production_lines (update_by_id line_id (apply_line_fields f) st.(production_lines)) st).
Proof.
  intros Hu Hi Hf. unfold update_production. unfold production_check in Hu. rewrite Hu.
  py_simpl. by rewrite Hi, Hf.
Qed.

Lemma update_production_other line_id data u st :
  production_check u.(role) = true ->
  (find_by_id line_id st.(production_lines) = None ->
   update_production line_id data u st = (Ok (JsonResp (error_json "Line not found") 404), st)) /\
  (forall line e, find_by_id line_id st.(production_lines) = Some line ->
   read_line_fields data = Raise e -> update_production line_id data u st = (Raise e, st)).
Proof.
  intros Hu. unfold update_production. unfold production_check in Hu. rewrite Hu.
  py_simpl. split; [by intros -> | intros line e -> Hf; by rewrite Hf].
Qed.

Lemma production_check_allowed op r :
  In op [Create; Update] -> production_check (role_name r) = allowed r ProductionRes op.
Proof. intros Hop. destruct r; simpl in Hop; intuition subst; done. Qed.

#[export] Instance get_production_gated : Gated get_production_view ProductionRes Read.
Proof. apply (gated_of _ _ _ (fun _ => true)); [intros r; by destruct r | intros; discriminate | by intros]. Qed.

#[export] Instance add_production_gated data : Gated (add_production_view data) ProductionRes Create.
Proof.
  apply (gated_of _ _ _ production_check); [intros; apply production_check_allowed; simpl; tauto|..].
  - intros u st Hu. eexists. unfold add_production. unfold production_check in Hu. by rewrite Hu.
  - intros u st Hu. unfold run_view, login_required. destruct (read_new_line data) as [[f m]|e] eqn:Hf;
      [rewrite (add_production_ok _ _ _ _ _ Hu Hf) | rewrite (add_production_raise _ _ _ _ Hu Hf)];
      discriminate.
Qed.

#[export] Instance update_production_gated line_id data :
  Gated (update_production_view line_id data) ProductionRes Update.
Proof.
  apply (gated_of _ _ _ production_check); [intros; apply production_check_allowed; simpl; tauto|..].
  - intros u st Hu. eexists. unfold update_production. unfold production_check in Hu. by rewrite Hu.
  - intros u st Hu. destruct (update_production_other line_id data u st Hu) as [Hn Hr].
    unfold run_view, login_required. destruct (find_by_id line_id (production_lines st)) eqn:Hi;
      [|by rewrite Hn].
    destruct (read_line_fields data) eqn:Hf;
      [by rewrite (update_production_found _ _ _ _ _ _ Hu Hi Hf) | by rewrite (Hr _ _ eq_refl eq_refl)].
Qed.

(** ** Properties *)

(** C14: on a store without production lines,
    an admin's create with well-formed fields gives the line id 1; a
    create by staff that follows answers 403 and the store still holds
    exactly one line. *)
Theorem production_create_then_staff_denied data data' name st f m :
  st.(production_lines) = [] -> read_new_line data = Ok (f, m) ->
  let st1 := snd (run_view (add_production_view data) (Some (user_of_role "admin" RAdmin)) st) in
  ids st1.(production_lines) = [1] /\
  run_view (add_production_view data') (Some (user_of_role name RStaff)) st1 =
    (permission_denied, st1) /\
  length st1.(production_lines) = 1%nat.
Proof.
  intros Hst Hf st1.
  assert (H1 : st1 = set_production_lines [new_line 1 f m] st).
  { subst st1. unfold run_view, add_production_view, login_required.
    rewrite (add_production_ok _ (user_of_role "admin" RAdmin) _ _ _ eq_refl Hf).
    simpl. by rewrite Hst. }
  rewrite H1. split; [done|]. split; [reflexivity | done].
Qed.

(** C15: an update of a line that exists replaces the fields the request
    gives and keeps the line's id and its materials (which the update
    does not read: spec section 3 calls updates full replacements). *)
Theorem update_production_keeps_materials line_id data u st line f :
  production_check u.(role) = true ->
  find_by_id line_id st.(production_lines) = Some line ->
  read_line_fields data = Ok f ->
  let st' := snd (run_view (update_production_view line_id data) (Some u) st) in
  find_by_id line_id st'.(production_lines) = Some (apply_line_fields f line) /\
  (apply_line_fields f line).(Production.materials) = line.(Production.materials) /\
  (apply_line_fields f line).(Production.id) = line_id /\
  ids st'.(production_lines) = ids st.(production_lines).
Proof.
  intros Hu Hi Hf st'. subst st'. unfold run_view, update_production_view, login_required.
  rewrite (update_production_found _ _ _ _ _ _ Hu Hi Hf). simpl.
  destruct (find_by_id_Some _ _ _ Hi) as [_ Hid].
  split; [apply find_update_by_id; done|]. split; [done|]. split; [done|].
  by apply update_by_id_ids.
Qed.

Lemma read_line_fields_of l f :
  py_float (pynum_to_json l.(Production.efficiency)) = Ok f ->
  read_line_fields (Production.to_json l) = Ok (line_fields_of l f).
Proof.
  intros Hf. unfold read_line_fields, read_line_rest.
  destruct l as [? ? ? ? ? ? ? [n|x] ? ?]; cbn [Production.to_json Production.to_kvs
    Production.efficiency pynum_to_json getitem dict_lookup fold_left String.eqb] in *;
    [| injection Hf as <-]; cbn -[py_float]; [rewrite Hf|]; reflexivity.
Qed.

Lemma apply_line_fields_of l f :
  apply_line_fields (line_fields_of l f) l = l <-> l.(Production.efficiency) = PFloat f.
Proof.
  destruct l; simpl. split; [intros H; by injection H | by intros ->].
Qed.

(** C20: a PUT whose body is the JSON the listing gave for a line
    succeeds, and it leaves the store unchanged exactly when the line's
    efficiency is already a float: an [int] efficiency (the fixture's
    third line has [0]) comes back as [float(0)], so re-submitting a
    line changes its JSON from [0] to [0.0]. *)
Theorem update_production_roundtrip u k st l f :
  production_check u.(role) = true -> find_by_id k st.(production_lines) = Some l ->
  py_float (pynum_to_json l.(Production.efficiency)) = Ok f ->
  fst (run_view (update_production_view k (Production.to_json l)) (Some u) st) =
    jsonify (JObj [("success", JBool true);
                   ("line", Production.to_json (apply_line_fields (line_fields_of l f) l))]) /\
  (snd (run_view (update_production_view k (Production.to_json l)) (Some u) st) = st <->
   l.(Production.efficiency) = PFloat f).
Proof.
  intros Hu Hi Hf. unfold update_production_view. rewrite run_view_login_required.
  rewrite (update_production_found _ _ _ _ _ _ Hu Hi (read_line_fields_of _ _ Hf)). simpl.
  split; [done|]. rewrite <- apply_line_fields_of. split.
  - intros Hst%(f_equal production_lines). simpl in Hst. destruct (find_by_id_Some _ _ _ Hi) as [_ Hid].
    assert (Hfind := find_update_by_id _ (apply_line_fields (line_fields_of l f)) _ _ Hi).
    rewrite Hst, Hi in Hfind. symmetry. injection Hfind; [done | by destruct l].
  - intros Hl. rewrite (update_by_id_fixed _ _ _ l Hi Hl). by destruct st.
Qed.

Section Witnesses.
  (** The create request of spec section 8. *)
Definition spec_line_data : json :=
    JObj [("name", JStr "Line A"); ("product", JStr "X"); ("output_rate", JInt 100);
          ("output_unit", JStr "units"); ("status", JStr "active");
          ("efficiency", JFloat 90.0); ("today_produced", JInt 0);
          ("target_production", JInt 1000)].

Definition spec_line_fields : line_fields :=
    mk_line_fields (JStr "Line A") (JStr "X") 100 (JStr "units") (JStr "active") 90.0 0 1000.

Lemma production_create_then_staff_denied_witness :
    empty_store.(production_lines) = [] /\
    read_new_line spec_line_data = Ok (spec_line_fields, JArr []) /\
    let st1 := snd (run_view (add_production_view spec_line_data)
                      (Some (user_of_role "admin" RAdmin)) empty_store) in
    ids st1.(production_lines) = [1] /\
    run_view (add_production_view spec_line_data) (Some (user_of_role "staff" RStaff)) st1 =
      (permission_denied, st1) /\
    length st1.(production_lines) = 1%nat.
  Proof.
    split; [reflexivity|]. split; [reflexivity|].
    apply (production_create_then_staff_denied _ _ _ _ spec_line_fields (JArr [])); reflexivity.
  Defined.

Lemma update_production_keeps_materials_witness :
    let st := initial_store "t-2h" "t-1h" "t-1d" in
    production_check (user_of_role "production" RProduction).(role) = true /\
    find_by_id 3 st.(production_lines) = Some (nth 2 Production.initial (new_line 0 spec_line_fields (JArr []))) /\
    read_line_fields spec_line_data = Ok spec_line_fields /\
    let st' := snd (run_view (update_production_view 3 spec_line_data)
                      (Some (user_of_role "production" RProduction)) st) in
    find_by_id 3 st'.(production_lines) =
      Some (apply_line_fields spec_line_fields (nth 2 Production.initial (new_line 0 spec_line_fields (JArr [])))) /\
    (apply_line_fields spec_line_fields (nth 2 Production.initial (new_line 0 spec_line_fields (JArr [])))).(Production.materials) =
      (nth 2 Production.initial (new_line 0 spec_line_fields (JArr []))).(Production.materials) /\
    (apply_line_fields spec_line_fields (nth 2 Production.initial (new_line 0 spec_line_fields (JArr [])))).(Production.id) = 3 /\
    ids st'.(production_lines) = ids st.(production_lines).
  Proof.
    intros st. split; [reflexivity|]. split; [reflexivity|]. split; [reflexivity|].
    apply update_production_keeps_materials; reflexivity.
  Defined.
  (** The fixture's third line, whose efficiency is the [int] [0]. *)
Definition cream_line : Production.line :=
    nth 2 Production.initial (new_line 0 spec_line_fields (JArr [])).

Lemma update_production_roundtrip_witness :
    let st := initial_store "t-2h" "t-1h" "t-1d" in
    production_check (user_of_role "production" RProduction).(role) = true /\
    find_by_id 3 st.(production_lines) = Some cream_line /\
    py_float (pynum_to_json cream_line.(Production.efficiency)) = Ok 0%float /\
    fst (run_view (update_production_view 3 (Production.to_json cream_line))
           (Some (user_of_role "production" RProduction)) st) =
      jsonify (JObj [("success", JBool true);
                     ("line", Production.to_json (apply_line_fields (line_fields_of cream_line 0%float) cream_line))]) /\
    (snd (run_view (update_production_view 3 (Production.to_json cream_line))
            (Some (user_of_role "production" RProduction)) st) = st <->
     cream_line.(Production.efficiency) = PFloat 0%float).
  Proof.
    intros st. split; [reflexivity|]. split; [reflexivity|]. split; [vm_compute; reflexivity|].
    apply update_production_roundtrip; [reflexivity | reflexivity | vm_compute; reflexivity].
  Defined.
End Witnesses.
