(* ===== verification/SalesApi.v ===== *)
(** * The sales-order handlers (src/main.py lines 486-540)

    [get_sales], [add_sales] and [update_sales] under [login_required];
    the two writers test [session['user']['role'] not in ['admin', 'sales']].
    The create reads ['products'] with [data.get('products', [])]
    between ['client'] and ['total_amount']; the update does not read
    it.  The dashboard's revenue (in [Status.v]) sums the
    ['total_amount'] of these orders. *)

From Stdlib Require Import ZArith String List Floats Lia.
From stdpp Require Import base list strings.
From S2P Require Import Prelude Json Coerce Records Store Status Web Auth InventoryApi.
Import ListNotations.
Local Open Scope string_scope.
Local Open Scope Z_scope.
Local Open Scope py_scope.

Record order_fields := mk_order_fields {
  o_order_number : json;
  o_client : json;
  o_total_amount : float;
  o_order_date : json;
  o_due_date : json;
  o_payment_status : json;
  o_delivery_status : json
}.

(** The values after ['client'] (lines 507-511 and 533-537). *)
Definition read_order_rest (data : json) (order_number client : json) : res order_fields :=
  total_amount ← getitem data "total_amount" ≫= py_float;
  order_date ← getitem data "order_date";
  due_date ← getitem data "due_date";
  payment_status ← getitem data "payment_status";
  delivery_status ← getitem data "delivery_status";
  mret (mk_order_fields order_number client total_amount order_date due_date
          payment_status delivery_status).

(** Lines 530-538: the update's dict literal. *)
Definition read_order_fields (data : json) : res order_fields :=
  order_number ← getitem data "order_number";
  client ← getitem data "client";
  read_order_rest data order_number client.

(** Lines 502-512: the create's dict literal, with the products. *)
Definition read_new_order (data : json) : res (order_fields * json) :=
  order_number ← getitem data "order_number";
  client ← getitem data "client";
  products ← dict_get data "products" (JArr []);
  f ← read_order_rest data order_number client;
  mret (f, products).

Definition new_order (new_id : Z) (f : order_fields) (products : json) : Sales.order :=
  Sales.mk_order new_id f.(o_order_number) f.(o_client) products f.(o_total_amount)
    f.(o_order_date) f.(o_due_date) f.(o_payment_status) f.(o_delivery_status).

(** [order.update(...)]: ['id'] and ['products'] stay. *)
Definition apply_order_fields (f : order_fields) (o : Sales.order) : Sales.order :=
  Sales.mk_order o.(Sales.id) f.(o_order_number) f.(o_client) o.(Sales.products)
    f.(o_total_amount) f.(o_order_date) f.(o_due_date) f.(o_payment_status)
    f.(o_delivery_status).

(** The fields [read_order_fields] reads back from the JSON of an
    order: everything but ['id'] and ['products']. *)
Definition order_fields_of (o : Sales.order) : order_fields :=
  mk_order_fields o.(Sales.order_number) o.(Sales.client) o.(Sales.total_amount)
    o.(Sales.order_date) o.(Sales.due_date) o.(Sales.payment_status) o.(Sales.delivery_status).

Definition sales_check (s : string) : bool := py_in_str s ["admin"; "sales"].

(** Lines 486-490. *)
Definition get_sales (u : session_user) : PyM Store response :=
  let* st := py_get in
  mret (jsonify (JArr (map Sales.to_json st.(sales_orders)))).

(** Lines 492-515. *)
Definition add_sales (data : json) (u : session_user) : PyM Store response :=
  if negb (py_in_str u.(role) ["admin"; "sales"]) then mret permission_denied else
  let* st := py_get in
  let new_id := next_id st.(sales_orders) in
  let* fp := py_lift (read_new_order data) in
  let order := new_order new_id fp.1 fp.2 in
  let* _ := py_put (set_sales_orders (st.(sales_orders) ++ [order]) st) in
  mret (jsonify (JObj [("success", JBool true); ("order", Sales.to_json order)])).

(** Lines 517-540. *)
Definition update_sales (order_id : Z) (data : json) (u : session_user) : PyM Store response :=
  if negb (py_in_str u.(role) ["admin"; "sales"]) then mret permission_denied else
  let* st := py_get in
  match find_by_id order_id st.(sales_orders) with
  | None => mret (JsonResp (error_json "Order not found") 404)
  | Some order =>
      let* f := py_lift (read_order_fields data) in
      let* _ := py_put (set_sales_orders
                          (update_by_id order_id (apply_order_fields f) st.(sales_orders)) st) in
      mret (jsonify (JObj [("success", JBool true);
                           ("order", Sales.to_json (apply_order_fields f order))]))
  end.

Definition get_sales_view : view := login_required get_sales.
Definition add_sales_view (data : json) : view := login_required (add_sales data).
Definition update_sales_view (order_id : Z) (data : json) : view :=
  login_required (update_sales order_id data).

(** ** Branches *)

Lemma add_sales_ok data u st f p :
  sales_check u.(role) = true -> read_new_order data = Ok (f, p) ->
  add_sales data u st =
  (Ok (jsonify (JObj [("success", JBool true);
                      ("order", Sales.to_json (new_order (next_id st.(sales_orders)) f p))])),
   set_sales_orders (st.(sales_orders) ++ [new_order (next_id st.(sales_orders)) f p]) st).
Proof. intros Hu Hf. unfold add_sales. unfold sales_check in Hu. rewrite Hu. py_simpl. by rewrite Hf. Qed.

Lemma add_sales_raise data u st e :
  sales_check u.(role) = true -> read_new_order data = Raise e ->
  add_sales data u st = (Raise e, st).
Proof. intros Hu Hf. unfold add_sales. unfold sales_check in Hu. rewrite Hu. py_simpl. by rewrite Hf. Qed.

Lemma update_sales_found order_id data u st order f :
  sales_check u.(role) = true -> find_by_id order_id st.(sales_orders) = Some order ->
  read_order_fields data = Ok f ->
  update_sales order_id data u st =
  (Ok (jsonify (JObj [("success", JBool true);
                      ("order", Sales.to_json (apply_order_fields f order))])),
   set_sales_orders (update_by_id order_id (apply_order_fields f) st.(sales_orders)) st).
Proof.
  intros Hu Hi Hf. unfold update_sales. unfold sales_check in Hu. rewrite Hu.
  py_simpl. by rewrite Hi, Hf.
Qed.

Lemma update_sales_other order_id data u st :
  sales_check u.(role) = true ->
  (find_by_id order_id st.(sales_orders) = None ->
   update_sales order_id data u st = (Ok (JsonResp (error_json "Order not found") 404), st)) /\
  (forall order e, find_by_id order_id st.(sales_orders) = Some order ->
   read_order_fields data = Raise e -> update_sales order_id data u st = (Raise e, st)).
Proof.
  intros Hu. unfold update_sales. unfold sales_check in Hu. rewrite Hu.
  py_simpl. split; [by intros -> | intros order e -> Hf; by rewrite Hf].
Qed.

Lemma sales_check_allowed op r :
  In op [Create; Update] -> sales_check (role_name r) = allowed r SalesRes op.
Proof. intros Hop. destruct r; simpl in Hop; intuition subst; done. Qed.

#[export] Instance get_sales_gated : Gated get_sales_view SalesRes Read.
Proof. apply (gated_of _ _ _ (fun _ => true)); [intros r; by destruct r | intros; discriminate | by intros]. Qed.

#[export] Instance add_sales_gated data : Gated (add_sales_view data) SalesRes Create.
Proof.
  apply (gated_of _ _ _ sales_check); [intros; apply sales_check_allowed; simpl; tauto|..].
  - intros u st Hu. eexists. unfold add_sales. unfold sales_check in Hu. by rewrite Hu.
  - intros u st Hu. unfold run_view, login_required. destruct (read_new_order data) as [[f p]|e] eqn:Hf;
      [rewrite (add_sales_ok _ _ _ _ _ Hu Hf) | rewrite (add_sales_raise _ _ _ _ Hu Hf)];
      discriminate.
Qed.

#[export] Instance update_sales_gated order_id data :
  Gated (update_sales_view order_id data) SalesRes Update.
Proof.
  apply (gated_of _ _ _ sales_check); [intros; apply sales_check_allowed; simpl; tauto|..].
  - intros u st Hu. eexists. unfold update_sales. unfold sales_check in Hu. by rewrite Hu.
  - intros u st Hu. destruct (update_sales_other order_id data u st Hu) as [Hn Hr].
    unfold run_view, login_required. destruct (find_by_id order_id (sales_orders st)) eqn:Hi;
      [|by rewrite Hn].
    destruct (read_order_fields data) eqn:Hf;
      [by rewrite (update_sales_found _ _ _ _ _ _ Hu Hi Hf) | by rewrite (Hr _ _ eq_refl eq_refl)].
Qed.

(** ** Properties *)

(** C12: the dashboard recomputes the revenue from the live store:
    after a sales or admin user creates an order, the revenue is
    [sum()] of the stored amounts with the new amount last, whatever
    the interpreter; up to CPython 3.11 this is the previous revenue
    plus the new amount (a float addition, the first one converting
    Python's initial [0]).  From 3.12 [sum()] is compensated and the
    revenue is not a function of the previous one. *)
Theorem add_sales_updates_revenue `{I : Interpreter} data u st f p :
  sales_check u.(role) = true -> read_new_order data = Ok (f, p) ->
  let rev := (calculate_dashboard_stats (snd (run_view (add_sales_view data) (Some u) st))).(total_revenue) in
  rev = py_sum_float (map Sales.total_amount st.(sales_orders) ++ [f.(o_total_amount)]) /\
  ((python_minor < 12)%nat ->
   rev = match (calculate_dashboard_stats st).(total_revenue) with
         | PInt _ => PFloat (PrimFloat.add 0%float f.(o_total_amount))
         | PFloat s => PFloat (PrimFloat.add s f.(o_total_amount))
         end).
Proof.
  intros Hu Hf rev. subst rev. unfold run_view, add_sales_view, login_required.
  rewrite (add_sales_ok _ _ _ _ _ Hu Hf). simpl. rewrite map_app.
  split; [done|]. apply py_sum_float_snoc.
Qed.

Lemma read_order_fields_of o : read_order_fields (Sales.to_json o) = Ok (order_fields_of o).
Proof. reflexivity. Qed.

Lemma apply_order_fields_of o : apply_order_fields (order_fields_of o) o = o.
Proof. by destruct o. Qed.

(** C21: a PUT whose body is the JSON the listing gave for an order
    succeeds and leaves the store exactly as it was. *)
Theorem update_sales_roundtrip u k st o :
  sales_check u.(role) = true -> find_by_id k st.(sales_orders) = Some o ->
  run_view (update_sales_view k (Sales.to_json o)) (Some u) st =
  (jsonify (JObj [("success", JBool true); ("order", Sales.to_json o)]), st).
Proof.
  intros Hu Hi. unfold update_sales_view. rewrite run_view_login_required.
  rewrite (update_sales_found _ _ _ _ _ _ Hu Hi (read_order_fields_of o)).
  rewrite apply_order_fields_of, (update_by_id_fixed _ _ _ o Hi); [|apply apply_order_fields_of].
  by destruct st.
Qed.

Section Witnesses.
  Local Set Warnings "-inexact-float".

Definition sample_order_data : json :=
    JObj [("order_number", JStr "ORD-2025-004"); ("client", JStr "Spa"); ("total_amount", JStr "1500.5");
          ("order_date", JStr "2025-11-01"); ("due_date", JStr "2025-11-15");
          ("payment_status", JStr "Pending"); ("delivery_status", JStr "Processing")].

Definition sample_order_fields : order_fields :=
    mk_order_fields (JStr "ORD-2025-004") (JStr "Spa") 1500.5 (JStr "2025-11-01")
      (JStr "2025-11-15") (JStr "Pending") (JStr "Processing").

Lemma add_sales_updates_revenue_witness :
    sales_check (user_of_role "sales" RSales).(role) = true /\
    read_new_order sample_order_data = Ok (sample_order_fields, JArr []) /\
    let rev := (@calculate_dashboard_stats cpython311
                  (snd (run_view (add_sales_view sample_order_data)
                          (Some (user_of_role "sales" RSales)) sample_store))).(total_revenue) in
    rev = @py_sum_float cpython311 (map Sales.total_amount sample_store.(sales_orders) ++
                                    [sample_order_fields.(o_total_amount)]) /\
    ((@python_minor cpython311 < 12)%nat ->
     rev = match (@calculate_dashboard_stats cpython311 sample_store).(total_revenue) with
           | PInt _ => PFloat (PrimFloat.add 0%float sample_order_fields.(o_total_amount))
           | PFloat s => PFloat (PrimFloat.add s sample_order_fields.(o_total_amount))
           end).
  Proof.
    split; [reflexivity|]. split; [reflexivity|].
    apply (@add_sales_updates_revenue cpython311 _ _ _ _ (JArr [])); reflexivity.
  Defined.
  (** The fixture's second order. *)
Definition spa_order : Sales.order :=
    nth 1 Sales.initial (new_order 0 sample_order_fields (JArr [])).

Lemma update_sales_roundtrip_witness :
    sales_check (user_of_role "sales" RSales).(role) = true /\
    find_by_id 2 sample_store.(sales_orders) = Some spa_order /\
    run_view (update_sales_view 2 (Sales.to_json spa_order)) (Some (user_of_role "sales" RSales))
      sample_store =
    (jsonify (JObj [("success", JBool true); ("order", Sales.to_json spa_order)]), sample_store).
  Proof. split; [reflexivity|]. split; [reflexivity|]. apply update_sales_roundtrip; reflexivity. Defined.
End Witnesses.
