(* ===== verification/AlertsApi.v ===== *)
(** * The alert handlers (src/main.py lines 546-566)

    [get_alerts] and [resolve_alert] under [login_required], both
    testing [session['user']['role'] != 'admin'].  Resolving writes
    ['status'] = ['Resolved'] into the first alert with the id, whatever
    its status was, so it is idempotent. *)

From Stdlib Require Import ZArith String List Floats Lia.
From stdpp Require Import base list strings.
From S2P Require Import Prelude Json Records Store Web Auth InventoryApi.
Import ListNotations.
Local Open Scope string_scope.
Local Open Scope Z_scope.
Local Open Scope py_scope.

Definition admin_access_required : response :=
  JsonResp (error_json "Admin access required") 403.

(** [alert['status'] = 'Resolved'] (line 563). *)
Definition set_resolved (a : Alerts.alert) : Alerts.alert :=
  Alerts.mk_alert a.(Alerts.id) a.(Alerts.title) a.(Alerts.description) a.(Alerts.severity)
    a.(Alerts.category) a.(Alerts.location) a.(Alerts.timestamp) "Resolved".

(** Lines 546-552. *)
Definition get_alerts (u : session_user) : PyM Store response :=
  if negb (String.eqb u.(role) "admin") then mret admin_access_required else
  let* st := py_get in
  mret (jsonify (JArr (map Alerts.to_json st.(alerts)))).

(** Lines 554-566. *)
Definition resolve_alert (alert_id : Z) (u : session_user) : PyM Store response :=
  if negb (String.eqb u.(role) "admin") then mret admin_access_required else
  let* st := py_get in
  match find_by_id alert_id st.(alerts) with
  | Some a =>
      let* _ := py_put (set_alerts (update_by_id alert_id set_resolved st.(alerts)) st) in
      mret (jsonify (JObj [("success", JBool true); ("alert", Alerts.to_json (set_resolved a))]))
  | None => mret (JsonResp (error_json "Alert not found") 404)
  end.

Definition get_alerts_view : view := login_required get_alerts.
Definition resolve_alert_view (alert_id : Z) : view := login_required (resolve_alert alert_id).

(** ** Branches *)

Lemma resolve_alert_found alert_id u st a :
  u.(role) = "admin" -> find_by_id alert_id st.(alerts) = Some a ->
  resolve_alert alert_id u st =
  (Ok (jsonify (JObj [("success", JBool true); ("alert", Alerts.to_json (set_resolved a))])),
   set_alerts (update_by_id alert_id set_resolved st.(alerts)) st).
Proof. intros Hu Ha. unfold resolve_alert. rewrite Hu. py_simpl. by rewrite Ha. Qed.

Lemma resolve_alert_not_found alert_id u st :
  u.(role) = "admin" -> find_by_id alert_id st.(alerts) = None ->
  resolve_alert alert_id u st = (Ok (JsonResp (error_json "Alert not found") 404), st).
Proof. intros Hu Ha. unfold resolve_alert. rewrite Hu. py_simpl. by rewrite Ha. Qed.

Definition alerts_check (s : string) : bool := String.eqb s "admin".

Lemma alerts_check_allowed op r :
  In op [Read; Resolve] -> alerts_check (role_name r) = allowed r AlertsRes op.
Proof. intros Hop. destruct r; simpl in Hop; intuition subst; done. Qed.

Lemma alerts_check_true s : alerts_check s = true -> s = "admin".
Proof. apply String.eqb_eq. Qed.

#[export] Instance get_alerts_gated : Gated get_alerts_view AlertsRes Read.
Proof.
  apply (gated_of _ _ _ alerts_check); [intros; apply alerts_check_allowed; simpl; tauto|..].
  - intros u st Hu. eexists. unfold get_alerts. unfold alerts_check in Hu. by rewrite Hu.
  - intros u st Hu%alerts_check_true. unfold run_view, login_required, get_alerts.
    rewrite Hu. discriminate.
Qed.

#[export] Instance resolve_alert_gated alert_id : Gated (resolve_alert_view alert_id) AlertsRes Resolve.
Proof.
  apply (gated_of _ _ _ alerts_check); [intros; apply alerts_check_allowed; simpl; tauto|..].
  - intros u st Hu. eexists. unfold resolve_alert. unfold alerts_check in Hu. by rewrite Hu.
  - intros u st Hu%alerts_check_true. unfold run_view, login_required.
    destruct (find_by_id alert_id (alerts st)) eqn:Ha;
      [by rewrite (resolve_alert_found _ _ _ _ Hu Ha) | by rewrite (resolve_alert_not_found _ _ _ Hu Ha)].
Qed.

(** ** Properties *)

Lemma set_resolved_id a : get_id (set_resolved a) = get_id a.
Proof. reflexivity. Qed.

Lemma run_resolve_found alert_id u st a :
  u.(role) = "admin" -> find_by_id alert_id st.(alerts) = Some a ->
  run_view (resolve_alert_view alert_id) (Some u) st =
  (jsonify (JObj [("success", JBool true); ("alert", Alerts.to_json (set_resolved a))]),
   set_alerts (update_by_id alert_id set_resolved st.(alerts)) st).
Proof. intros Hu Ha. unfold run_view, resolve_alert_view, login_required. by rewrite (resolve_alert_found _ _ _ _ Hu Ha). Qed.

(** C10: an admin resolving the same existing alert
    twice succeeds both times (HTTP 200) and the alert is then
    [Resolved]; the second call finds it already resolved and answers
    the same record. *)
Theorem resolve_alert_twice alert_id u st a :
  u.(role) = "admin" -> find_by_id alert_id st.(alerts) = Some a ->
  let (r1, st1) := run_view (resolve_alert_view alert_id) (Some u) st in
  let (r2, st2) := run_view (resolve_alert_view alert_id) (Some u) st1 in
  status_code r1 = 200 /\ status_code r2 = 200 /\ r1 = r2 /\
  find_by_id alert_id st2.(alerts) = Some (set_resolved a) /\
  (set_resolved a).(Alerts.status) = "Resolved".
Proof.
  intros Hu Ha. rewrite (run_resolve_found _ _ _ _ Hu Ha).
  destruct (find_by_id_Some _ _ _ Ha) as [_ Hid].
  assert (H1 : find_by_id alert_id (update_by_id alert_id set_resolved st.(alerts)) = Some (set_resolved a))
    by (apply find_update_by_id; [done | by rewrite set_resolved_id]).
  rewrite (run_resolve_found _ _ (set_alerts _ st) _ Hu H1). simpl.
  split; [done|]. split; [done|]. split; [done|]. split; [|done].
  by rewrite (find_update_by_id _ set_resolved _ _ H1).
Qed.

Definition no_alert : Alerts.alert := Alerts.mk_alert 0 "" "" "" "" "" "" "".
(** The third fixture alert, already [Resolved] at start-up. *)
Definition shipment_alert : Alerts.alert := nth 2 (Alerts.initial "t-2h" "t-1h" "t-1d") no_alert.

Lemma resolve_alert_twice_witness :
  let st := initial_store "t-2h" "t-1h" "t-1d" in
  (user_of_role "admin" RAdmin).(role) = "admin" /\
  find_by_id 3 st.(alerts) = Some shipment_alert /\
  let (r1, st1) := run_view (resolve_alert_view 3) (Some (user_of_role "admin" RAdmin)) st in
  let (r2, st2) := run_view (resolve_alert_view 3) (Some (user_of_role "admin" RAdmin)) st1 in
  status_code r1 = 200 /\ status_code r2 = 200 /\ r1 = r2 /\
  find_by_id 3 st2.(alerts) = Some (set_resolved shipment_alert) /\
  (set_resolved shipment_alert).(Alerts.status) = "Resolved".
Proof.
  intros st. split; [reflexivity|]. split; [reflexivity|].
  apply resolve_alert_twice; reflexivity.
Defined.
