(* ===== verification/App.v ===== *)
(** * The application: pages, routes and one client's requests

    The page views of src/main.py lines 306-340, the routing table of
    the [@app.route] decorators (each URL with its methods, and the
    [<int:...>] converter, which only matches non-negative integers, as
    an [N]), and [handle], which runs one request on the world: the
    store shared by all clients and the session of the client making
    the request.  [step] is the transition relation of a client issuing
    a request; [reachable] closes it from the state the process starts
    in.  [browse] is the browser that follows the redirects of the page
    views through [route_of]. *)

From Stdlib Require Import ZArith NArith String List Floats Lia.
From stdpp Require Import base list strings.
From S2P Require Import Prelude Json Records Store Status Web Auth InventoryApi ProductionApi SalesApi AlertsApi.
Import ListNotations.
Local Open Scope string_scope.
Local Open Scope Z_scope.
Local Open Scope py_scope.

Definition page_context (u : session_user) : list (string * json) :=
  [("user", session_user_to_json u)].

Section Interp.
  Context `{I : Interpreter}.

(** Lines 306-314: only an admin sees the dashboard. *)
Definition dashboard (u : session_user) : PyM Store response :=
  if negb (String.eqb u.(role) "admin") then mret (RedirectResp (url_for "inventory_page")) else
  let* st := py_get in
  mret (TemplateResp "dashboard.html"
          (page_context u ++ [("stats", stats_to_json (calculate_dashboard_stats st))])).

(** Lines 316-332: the three pages every user sees. *)
Definition render_page (template : string) (u : session_user) : PyM Store response :=
  mret (TemplateResp template (page_context u)).

(** Lines 334-340. *)
Definition alerts_page (u : session_user) : PyM Store response :=
  if negb (String.eqb u.(role) "admin") then mret (RedirectResp (url_for "dashboard"))
  else mret (TemplateResp "alerts.html" (page_context u)).

(** One HTTP request, by the route it matches. *)
Inductive request :=
| IndexReq
| LoginReq (is_post : bool) (data : json)
| LogoutReq
| DashboardReq
| InventoryPageReq
| ProductionPageReq
| SalesPageReq
| AlertsPageReq
| GetInventoryReq
| AddInventoryReq (data : json)
| UpdateInventoryReq (item_id : N) (data : json)
| DeleteInventoryReq (item_id : N)
| GetProductionReq
| AddProductionReq (data : json)
| UpdateProductionReq (line_id : N) (data : json)
| GetSalesReq
| AddSalesReq (data : json)
| UpdateSalesReq (order_id : N) (data : json)
| GetAlertsReq
| ResolveAlertReq (alert_id : N).

(** The store, shared by every client, and this client's session. *)
Record World := mk_world {
  w_store : Store;
  w_session : Session
}.

(** The view a request of the store routes to. *)
Definition store_view (req : request) : option view :=
  match req with
  | DashboardReq => Some (login_required dashboard)
  | InventoryPageReq => Some (login_required (render_page "inventory.html"))
  | ProductionPageReq => Some (login_required (render_page "production.html"))
  | SalesPageReq => Some (login_required (render_page "sales.html"))
  | AlertsPageReq => Some (login_required alerts_page)
  | GetInventoryReq => Some get_inventory_view
  | AddInventoryReq data => Some (add_inventory_view data)
  | UpdateInventoryReq k data => Some (update_inventory_view (Z.of_N k) data)
  | DeleteInventoryReq k => Some (delete_inventory_view (Z.of_N k))
  | GetProductionReq => Some get_production_view
  | AddProductionReq data => Some (add_production_view data)
  | UpdateProductionReq k data => Some (update_production_view (Z.of_N k) data)
  | GetSalesReq => Some get_sales_view
  | AddSalesReq data => Some (add_sales_view data)
  | UpdateSalesReq k data => Some (update_sales_view (Z.of_N k) data)
  | GetAlertsReq => Some get_alerts_view
  | ResolveAlertReq k => Some (resolve_alert_view (Z.of_N k))
  | IndexReq | LoginReq _ _ | LogoutReq => None
  end.

(** The views of the session. *)
Definition session_view (req : request) : PyM Session response :=
  match req with
  | LoginReq is_post data => login is_post data
  | LogoutReq => logout
  | _ => index
  end.

Definition run_session (m : PyM Session response) (sess : Session) : response * Session :=
  match m sess with
  | (Ok r, sess') => (r, sess')
  | (Raise _, sess') => (ServerError, sess')
  end.

(** Flask dispatches the request to its view and answers. *)
Definition handle (req : request) (w : World) : response * World :=
  match store_view req with
  | Some v => let '(r, st') := run_view v w.(w_session) w.(w_store) in
              (r, mk_world st' w.(w_session))
  | None => let '(r, sess') := run_session (session_view req) w.(w_session) in
            (r, mk_world w.(w_store) sess')
  end.

Inductive step : World -> request -> response -> World -> Prop :=
| step_handle w req : step w req (fst (handle req w)) (snd (handle req w)).

(** The process starts with the fixture data and a client without a
    session; the three timestamps are those computed at import. *)
Definition initial_world (t2h t1h t1d : string) : World :=
  mk_world (initial_store t2h t1h t1d) None.

Inductive reachable (t2h t1h t1d : string) : World -> Prop :=
| reach_init : reachable t2h t1h t1d (initial_world t2h t1h t1d)
| reach_step w req r w' :
    reachable t2h t1h t1d w -> step w req r w' -> reachable t2h t1h t1d w'.

(** The requests a client issues one after the other. *)
Fixpoint run_requests (reqs : list request) (w : World) : list response * World :=
  match reqs with
  | [] => ([], w)
  | req :: reqs' =>
      let '(r, w1) := handle req w in
      let '(rs, w2) := run_requests reqs' w1 in
      (r :: rs, w2)
  end.

Lemma run_requests_reachable t2h t1h t1d reqs w :
  reachable t2h t1h t1d w -> reachable t2h t1h t1d (snd (run_requests reqs w)).
Proof.
  revert w. induction reqs as [|req reqs IH]; intros w Hw; simpl; [done|].
  destruct (handle req w) as [r w1] eqn:Hh. destruct (run_requests reqs w1) as [rs w2] eqn:Hr.
  simpl. change w2 with (snd (rs, w2)). rewrite <- Hr. apply IH.
  eapply reach_step; [exact Hw|]. replace w1 with (snd (handle req w)) by (by rewrite Hh).
  replace r with (fst (handle req w)) by (by rewrite Hh). constructor.
Qed.

(** C17: without a session, every route but [/], [/login] and [/logout]
    redirects to the login page and changes nothing. *)
Theorem anonymous_redirected req st :
  store_view req <> None ->
  handle req (mk_world st None) = (RedirectResp "/login", mk_world st None).
Proof. destruct req; simpl; intros H; (done || by destruct H). Qed.




(** ** Following redirects

    A browser that receives [redirect(url)] requests [url] with [GET];
    [route_of] is the part of the routing table of the [@app.route]
    decorators that the redirects of the program reach. *)
Definition route_of (loc : string) : option request :=
  if String.eqb loc "/login" then Some (LoginReq false JNull)
  else if String.eqb loc "/dashboard" then Some DashboardReq
  else if String.eqb loc "/inventory" then Some InventoryPageReq
  else if String.eqb loc "/" then Some IndexReq
  else None.

(** At most [fuel] redirects are followed. *)
Fixpoint browse (fuel : nat) (req : request) (w : World) : response * World :=
  let '(r, w') := handle req w in
  match fuel, r with
  | S f, RedirectResp loc =>
      match route_of loc with Some req' => browse f req' w' | None => (r, w') end
  | _, _ => (r, w')
  end.

Definition page_requests : list request :=
  [IndexReq; DashboardReq; InventoryPageReq; ProductionPageReq; SalesPageReq; AlertsPageReq].

(** One hop of [browse]: run the views symbolically. *)
Ltac hop := cbn; unfold index, run_session, run_view, login_required, dashboard, alerts_page,
  render_page; py_unfold; cbn.

(** C30: every page of the application, requested with any session or
    none, ends on a rendered template after at most three redirects and
    changes neither the store nor the session; a user whose role is not
    admin who opens [/dashboard] or [/alerts] lands on [inventory.html]
    (the alerts page redirects to the dashboard, which redirects to the
    inventory page). *)
Theorem pages_settle req st sess :
  In req page_requests ->
  (exists t ctx, browse 3 req (mk_world st sess) = (TemplateResp t ctx, mk_world st sess)) /\
  (forall u, sess = Some u -> String.eqb u.(role) "admin" = false ->
   In req [DashboardReq; AlertsPageReq] ->
   browse 3 req (mk_world st sess) =
     (TemplateResp "inventory.html" (page_context u), mk_world st sess)).
Proof.
  intros Hreq. split.
  - destruct sess as [u|]; [destruct (String.eqb (role u) "admin") eqn:Hu|]; simpl in Hreq;
      repeat destruct Hreq as [<-|Hreq]; try done; do 3 (hop; rewrite ?Hu); eexists _, _; reflexivity.
  - intros u -> Hu Hin. simpl in Hin.
    destruct Hin as [<-|[<-|[]]]; do 3 (hop; rewrite ?Hu); reflexivity.
Qed.

End Interp.

(** ** Witnesses, on CPython 3.12 *)

#[local] Existing Instance cpython312.

Lemma anonymous_redirected_witness :
    store_view GetSalesReq <> None /\
    handle GetSalesReq (mk_world sample_store None) = (RedirectResp "/login", mk_world sample_store None).
Proof. split; [discriminate|]. apply anonymous_redirected. discriminate. Defined.

Lemma pages_settle_witness :
  In AlertsPageReq page_requests /\
  (exists t ctx, browse 3 AlertsPageReq (mk_world sample_store (Some (user_of_role "staff" RStaff))) =
                 (TemplateResp t ctx, mk_world sample_store (Some (user_of_role "staff" RStaff)))) /\
  (forall u, Some (user_of_role "staff" RStaff) = Some u -> String.eqb u.(role) "admin" = false ->
   In AlertsPageReq [DashboardReq; AlertsPageReq] ->
   browse 3 AlertsPageReq (mk_world sample_store (Some (user_of_role "staff" RStaff))) =
     (TemplateResp "inventory.html" (page_context u), mk_world sample_store (Some (user_of_role "staff" RStaff)))).
Proof. split; [simpl; tauto|]. apply pages_settle. simpl; tauto. Defined.
