(* ===== verification/Invariants.v ===== *)
(** * Invariants of every reachable state

    How a view may change the store is stated once, as the class
    [StoreSafe]: each list is left as it was, extended by one record
    numbered [next_id], updated by id with a function that keeps ids,
    or (inventory only) filtered by id; the alerts only have records set
    to [Resolved].  Every view of the application is an instance.  From
    the class alone follow the invariants of every reachable world:
    ids unique and positive in the four collections, alert statuses in
    [{Active, Resolved}], a session whose role is an account's role,
    and the one-way Active-to-Resolved edge of alerts. *)

From Stdlib Require Import ZArith NArith String List Floats Lia.
From stdpp Require Import base list strings.
From S2P Require Import Prelude Json Records Store Status Web Auth InventoryApi ProductionApi SalesApi AlertsApi App.
Import ListNotations.
Local Open Scope string_scope.
Local Open Scope Z_scope.
Local Open Scope py_scope.

Section Change.
  Context {A : Type} `{HasId A}.

Inductive list_change (l : list A) : list A -> Prop :=
  | lc_same : list_change l l
  | lc_append x : get_id x = next_id l -> list_change l (l ++ [x])
  | lc_update k f : (forall x, get_id (f x) = get_id x) -> list_change l (update_by_id k f l)
  | lc_remove k : list_change l (remove_by_id k l).

  (** Ids are unique and at least 1. *)
Definition ids_ok (l : list A) : Prop :=
    ids_unique l /\ Forall (fun x => 1 <= get_id x) l.

Lemma first_ids_ok (l : list A) n : ids l = first_ids n -> ids_ok l.
  Proof.
    unfold ids_ok, ids_unique, first_ids. intros Hl. split.
    - rewrite Hl. apply (NoDup_fmap_2 Z.of_nat), NoDup_seq.
    - apply List.Forall_forall. intros x Hx.
      assert (Hin : In (get_id x) (map Z.of_nat (seq 1 n))) by (rewrite <- Hl; by apply in_map).
      apply in_map_iff in Hin as [m [<- Hm]]. apply in_seq in Hm. lia.
  Qed.

Lemma list_change_ids_ok l l' : list_change l l' -> ids_ok l -> ids_ok l'.
  Proof.
    intros Hc [Hu Hp]. destruct Hc as [|x Hx|k f Hf|k]; split; eauto with py.
    - apply Forall_app. split; [done|]. constructor; [|constructor].
      rewrite Hx. apply next_id_ge_1. eapply Forall_impl; [exact Hp|]. simpl; lia.
    - apply update_first_Forall; [done|]. intros x _ Hx. by rewrite Hf.
    - apply List.Forall_forall. intros x Hx. apply remove_by_id_In in Hx.
      rewrite List.Forall_forall in Hp. auto.
  Qed.
End Change.

Definition alerts_change (l l' : list Alerts.alert) : Prop :=
  l' = l \/ exists k, l' = update_by_id k set_resolved l.

Definition store_change (st st' : Store) : Prop :=
  list_change st.(inventory) st'.(inventory) /\
  list_change st.(production_lines) st'.(production_lines) /\
  list_change st.(sales_orders) st'.(sales_orders) /\
  alerts_change st.(alerts) st'.(alerts).

Lemma store_change_refl st : store_change st st.
Proof. split; [constructor|split; [constructor|split; [constructor|by left]]]. Qed.

Lemma store_change_inventory st l :
  list_change st.(inventory) l -> store_change st (set_inventory l st).
Proof. intros H. repeat split; simpl; try constructor; try done; by left. Qed.

Lemma store_change_production st l :
  list_change st.(production_lines) l -> store_change st (set_production_lines l st).
Proof. intros H. repeat split; simpl; try constructor; try done; by left. Qed.

Lemma store_change_sales st l :
  list_change st.(sales_orders) l -> store_change st (set_sales_orders l st).
Proof. intros H. repeat split; simpl; try constructor; try done; by left. Qed.

Lemma store_change_alerts st k :
  store_change st (set_alerts (update_by_id k set_resolved st.(alerts)) st).
Proof. split; [constructor|split; [constructor|split; [constructor|right; by exists k]]]. Qed.

#[export] Hint Resolve store_change_refl store_change_inventory store_change_production
  store_change_sales store_change_alerts : py.
#[export] Hint Constructors list_change : py.

(** What a view may do to the store. *)
Class StoreSafe (v : view) : Prop :=
  store_safe : forall sess st, store_change st (snd (run_view v sess st)).

(** Split a view on its session, its role test and its branches, and
    close each branch with the [store_change] lemmas. *)
Ltac store_safe_tac :=
  intros [u|] st; [|apply store_change_refl];
  unfold run_view, login_required;
  repeat match goal with
         | |- context [if ?b then _ else _] => destruct b eqn:?
         | |- context [match ?x with Some _ => _ | None => _ end] => destruct x eqn:?
         | |- context [match ?x with Ok _ => _ | Raise _ => _ end] => destruct x eqn:?
         end; simpl; eauto with py.

#[export] Instance add_inventory_safe data : StoreSafe (add_inventory_view data).
Proof.
  unfold add_inventory_view, add_inventory. store_safe_tac.
  py_simpl. destruct (read_inventory_fields data); simpl; eauto with py.
Qed.

Ltac fields_tac r := py_simpl; destruct r; simpl; eauto with py.

#[export] Instance get_inventory_safe : StoreSafe get_inventory_view.
Proof. unfold get_inventory_view, get_inventory. store_safe_tac. Qed.

#[export] Instance update_inventory_safe k data : StoreSafe (update_inventory_view k data).
Proof.
  unfold update_inventory_view, update_inventory. store_safe_tac; py_simpl;
    destruct (find_by_id k _); simpl; [|eauto with py].
  destruct (read_inventory_fields data); simpl; [|eauto with py].
  apply store_change_inventory. by constructor.
Qed.

#[export] Instance delete_inventory_safe k : StoreSafe (delete_inventory_view k).
Proof. unfold delete_inventory_view, delete_inventory. store_safe_tac. Qed.

#[export] Instance get_production_safe : StoreSafe get_production_view.
Proof. unfold get_production_view, get_production. store_safe_tac. Qed.

#[export] Instance add_production_safe data : StoreSafe (add_production_view data).
Proof. unfold add_production_view, add_production. store_safe_tac. fields_tac (read_new_line data). Qed.

#[export] Instance update_production_safe k data : StoreSafe (update_production_view k data).
Proof.
  unfold update_production_view, update_production. store_safe_tac; py_simpl;
    destruct (find_by_id k _); simpl; [|eauto with py].
  destruct (read_line_fields data); simpl; [|eauto with py].
  apply store_change_production. by constructor.
Qed.

#[export] Instance get_sales_safe : StoreSafe get_sales_view.
Proof. unfold get_sales_view, get_sales. store_safe_tac. Qed.

#[export] Instance add_sales_safe data : StoreSafe (add_sales_view data).
Proof. unfold add_sales_view, add_sales. store_safe_tac. fields_tac (read_new_order data). Qed.

#[export] Instance update_sales_safe k data : StoreSafe (update_sales_view k data).
Proof.
  unfold update_sales_view, update_sales. store_safe_tac; py_simpl;
    destruct (find_by_id k _); simpl; [|eauto with py].
  destruct (read_order_fields data); simpl; [|eauto with py].
  apply store_change_sales. by constructor.
Qed.

#[export] Instance get_alerts_safe : StoreSafe get_alerts_view.
Proof. unfold get_alerts_view, get_alerts. store_safe_tac. Qed.

#[export] Instance resolve_alert_safe k : StoreSafe (resolve_alert_view k).
Proof.
  unfold resolve_alert_view, resolve_alert. store_safe_tac; py_simpl;
    destruct (find_by_id k _); simpl; eauto with py.
Qed.

Section Interp.
  Context `{I : Interpreter}.

#[export] Instance dashboard_safe : StoreSafe (login_required dashboard).
Proof. unfold dashboard. store_safe_tac. Qed.

#[export] Instance render_page_safe t : StoreSafe (login_required (render_page t)).
Proof. unfold render_page. store_safe_tac. Qed.

#[export] Instance alerts_page_safe : StoreSafe (login_required alerts_page).
Proof. unfold alerts_page. store_safe_tac. Qed.

Lemma store_view_safe req v : store_view req = Some v -> StoreSafe v.
Proof. destruct req; simpl; intros [= <-]; typeclasses eauto. Qed.

(** ** The invariant of reachable worlds *)

Definition alert_status_ok (a : Alerts.alert) : Prop :=
  a.(Alerts.status) = "Active" \/ a.(Alerts.status) = "Resolved".

Definition session_ok (s : Session) : Prop :=
  match s with None => True | Some u => exists r, u.(role) = role_name r end.

Record world_inv (w : World) : Prop := {
  inv_inventory : ids_ok w.(w_store).(inventory);
  inv_production : ids_ok w.(w_store).(production_lines);
  inv_sales : ids_ok w.(w_store).(sales_orders);
  inv_alert_ids : ids w.(w_store).(alerts) = [1; 2; 3];
  inv_alert_status : Forall alert_status_ok w.(w_store).(alerts);
  inv_session : session_ok w.(w_session)
}.

Lemma alerts_change_inv l l' :
  alerts_change l l' -> ids l = [1; 2; 3] -> Forall alert_status_ok l ->
  ids l' = [1; 2; 3] /\ Forall alert_status_ok l'.
Proof.
  intros [->|[k ->]] Hi Hs; [done|]. split.
  - rewrite update_by_id_ids; [done | intros; apply set_resolved_id].
  - apply update_first_Forall; [done|]. intros x _ _. by right.
Qed.

Lemma store_change_inv st st' sess :
  store_change st st' -> world_inv (mk_world st sess) -> world_inv (mk_world st' sess).
Proof.
  intros (Hi & Hp & Hs & Ha) [Ii Ip Is Iai Ias Ise]; simpl in *.
  destruct (alerts_change_inv _ _ Ha Iai Ias).
  split; simpl; eauto using list_change_ids_ok.
Qed.

Lemma session_view_ok req sess r sess' :
  session_ok sess -> run_session (session_view req) sess = (r, sess') -> session_ok sess'.
Proof.
  unfold run_session. intros Hs.
  destruct (session_view req sess) as [res s1] eqn:Hv.
  assert (Hs1 : session_ok s1).
  { destruct req; simpl in Hv;
      try (unfold index in Hv; py_simpl; destruct sess; injection Hv as _ <-; done).
    unfold login in Hv. destruct is_post; [|py_simpl; by injection Hv as _ <-].
    destruct (login_post_session _ _ _ _ Hv) as [->|[u [Hu ->]]]; [done|].
    simpl. by apply USERS_roles. }
  by destruct res; intros [= _ <-].
Qed.

Lemma handle_inv req w : world_inv w -> world_inv (snd (handle req w)).
Proof.
  intros Hw. unfold handle. destruct (store_view req) as [v|] eqn:Hv.
  - pose proof (store_view_safe _ _ Hv) as Hsafe.
    specialize (Hsafe (w_session w) (w_store w)).
    destruct (run_view v (w_session w) (w_store w)) as [r st'] eqn:Hr. simpl in *.
    apply (store_change_inv (w_store w)); [done|]. by destruct w.
  - destruct (run_session (session_view req) (w_session w)) as [r s'] eqn:Hr.
    destruct Hw as [Ii Ip Is Iai Ias Ise]. split; simpl; try done.
    eapply session_view_ok; [exact Ise | exact Hr].
Qed.

Lemma initial_world_inv t2h t1h t1d : world_inv (initial_world t2h t1h t1d).
Proof.
  split; simpl; [apply (first_ids_ok _ 5) | apply (first_ids_ok _ 3) | apply (first_ids_ok _ 3)
                | | repeat constructor; unfold alert_status_ok; simpl; auto | ]; done.
Qed.

(** C1: in every world a client can reach from start-up, the ids of
    each of the four collections are unique and at least 1, the alerts
    are still the three of start-up and each is Active or Resolved, and
    the session, if any, carries one of the four account roles. *)
Theorem reachable_world_inv t2h t1h t1d w :
  reachable t2h t1h t1d w -> world_inv w.
Proof.
  induction 1 as [|w req r w' _ IH Hstep]; [apply initial_world_inv|].
  inversion Hstep; subst. by apply handle_inv.
Qed.

(** ** Alerts: Active to Resolved only *)

Lemma alerts_change_resolved l l' k a :
  alerts_change l l' -> find_by_id k l = Some a -> a.(Alerts.status) = "Resolved" ->
  exists a', find_by_id k l' = Some a' /\ a'.(Alerts.status) = "Resolved".
Proof.
  intros [->|[k' ->]] Ha Hr; [by exists a|].
  destruct (Z.eq_dec k' k) as [<-|Hne].
  - exists (set_resolved a). split; [|done].
    apply find_update_by_id; [done|]. rewrite set_resolved_id. by apply find_by_id_Some in Ha as [_ ->].
  - exists a. split; [|done]. rewrite find_update_by_id_other; [done | done | apply set_resolved_id].
Qed.

Lemma handle_alerts_change req w : alerts_change w.(w_store).(alerts) (snd (handle req w)).(w_store).(alerts).
Proof.
  unfold handle. destruct (store_view req) as [v|] eqn:Hv.
  - pose proof (store_view_safe _ _ Hv (w_session w) (w_store w)) as (_ & _ & _ & Ha).
    destruct (run_view v _ _); exact Ha.
  - destruct (run_session _ _). by left.
Qed.

(** The alert numbered [k] is Resolved. *)
Definition resolved_in (l : list Alerts.alert) (k : Z) : Prop :=
  exists a, find_by_id k l = Some a /\ a.(Alerts.status) = "Resolved".

(** C9: an alert that is Resolved stays Resolved, whatever request any
    client issues: the only edge of the alert state machine is
    Active to Resolved. *)
Theorem step_keeps_resolved w req r w' k :
  step w req r w' -> resolved_in w.(w_store).(alerts) k -> resolved_in w'.(w_store).(alerts) k.
Proof.
  intros Hs [a [Ha Hr]]. inversion Hs; subst.
  eapply alerts_change_resolved; [apply handle_alerts_change | exact Ha | exact Hr].
Qed.

(** ** The Permission Gate at the level of routes *)

(** The resource and operation of the table a route exercises, for the
    routes of the JSON API. *)
Definition route_gate (req : request) : option (Resource * Op) :=
  match req with
  | GetInventoryReq => Some (InventoryRes, Read)
  | AddInventoryReq _ => Some (InventoryRes, Create)
  | UpdateInventoryReq _ _ => Some (InventoryRes, Update)
  | DeleteInventoryReq _ => Some (InventoryRes, Delete)
  | GetProductionReq => Some (ProductionRes, Read)
  | AddProductionReq _ => Some (ProductionRes, Create)
  | UpdateProductionReq _ _ => Some (ProductionRes, Update)
  | GetSalesReq => Some (SalesRes, Read)
  | AddSalesReq _ => Some (SalesRes, Create)
  | UpdateSalesReq _ _ => Some (SalesRes, Update)
  | GetAlertsReq => Some (AlertsRes, Read)
  | ResolveAlertReq _ => Some (AlertsRes, Resolve)
  | _ => None
  end.

Lemma route_gate_gated req rs op :
  route_gate req = Some (rs, op) -> exists v, store_view req = Some v /\ Gated v rs op.
Proof. destruct req; simpl; intros Heq; try discriminate; injection Heq as <- <-; eexists; split; try reflexivity; typeclasses eauto. Qed.

(** C2: for every route of the JSON API, a session whose role the
    table of spec section 4.3 denies gets a 403 and changes nothing;
    one it allows never gets a 403. *)
Theorem handle_respects_gate req rs op r name st :
  route_gate req = Some (rs, op) ->
  let w := mk_world st (Some (user_of_role name r)) in
  (allowed r rs op = false -> exists body, handle req w = (JsonResp body 403, w)) /\
  (allowed r rs op = true -> status_code (fst (handle req w)) <> 403).
Proof.
  intros Hg w. destruct (route_gate_gated _ _ _ Hg) as [v [Hv Hgated]].
  unfold handle. rewrite Hv. simpl. split.
  - intros Hd. destruct (gated_deny r name st Hd) as [body Hb]. exists body.
    unfold run_view. by rewrite Hb.
  - intros Ha. pose proof (gated_allow r name st Ha) as Hn.
    destruct (run_view v _ st) as [resp st'] eqn:Hr. simpl in *. done.
Qed.

End Interp.

Section Witnesses.
  #[local] Existing Instance cpython312.

Lemma reachable_world_inv_witness :
    reachable "a" "b" "c" (initial_world "a" "b" "c") /\ world_inv (initial_world "a" "b" "c").
  Proof. split; [constructor|]. apply (reachable_world_inv "a" "b" "c"). constructor. Defined.

Lemma step_keeps_resolved_witness :
    let w := initial_world "a" "b" "c" in
    step w GetAlertsReq (fst (handle GetAlertsReq w)) (snd (handle GetAlertsReq w)) /\
    resolved_in w.(w_store).(alerts) 3 /\
    resolved_in (snd (handle GetAlertsReq w)).(w_store).(alerts) 3.
  Proof.
    intros w. assert (H3 : resolved_in w.(w_store).(alerts) 3) by (eexists; split; reflexivity).
    split; [constructor|]. split; [exact H3|].
    eapply step_keeps_resolved; [constructor | exact H3].
  Defined.

Lemma handle_respects_gate_witness :
    route_gate (DeleteInventoryReq 2) = Some (InventoryRes, Delete) /\
    let w := mk_world sample_store (Some (user_of_role "sales" RSales)) in
    (allowed RSales InventoryRes Delete = false ->
     exists body, handle (DeleteInventoryReq 2) w = (JsonResp body 403, w)) /\
    (allowed RSales InventoryRes Delete = true ->
     status_code (fst (handle (DeleteInventoryReq 2) w)) <> 403).
  Proof. split; [reflexivity|]. apply handle_respects_gate. reflexivity. Defined.

End Witnesses.
