(* ===== verification/Responses.v ===== *)
(** * The shapes of the responses

    The front end of the application reads the answers of [handle] by
    their status: a 200 carries the JSON of the operation, a 302 sends
    the browser to the login page, the dashboard or the inventory page,
    a 401 is the failed login of src/main.py line 292, a 403 or a 404 is
    a JSON object [{"error": message}], a page is one of the six
    templates, and a 500 is Flask's answer to an exception.
    [response_typed] decides this shape; the class [ResponseTyped] says
    that a view only answers responses of that shape, and every view of
    the application is an instance (the same case analysis as
    [Invariants.StoreSafe]).  The theorem covers the requests whose body
    Flask has decoded: a body that is not JSON is answered with Flask's
    own 400 by [request.get_json()] before any line of a view runs, which
    the model of [Web.v] does not represent. *)

From Stdlib Require Import ZArith String List.
From stdpp Require Import base list strings.
From S2P Require Import Prelude Json Records Store Status Web Auth InventoryApi ProductionApi SalesApi AlertsApi App.
Import ListNotations.
Local Open Scope string_scope.
Local Open Scope Z_scope.

(** [{"error": message}] (lines 362, 394, 434, 460, 496, 522, 551, 565). *)
Definition is_error_body (b : json) : bool :=
  match b with JObj [(k, JStr _)] => String.eqb k "error" | _ => false end.

(** [{'success': False, 'message': 'Invalid credentials'}] (line 292). *)
Definition is_login_failure (b : json) : bool :=
  match b with
  | JObj [(k1, JBool false); (k2, JStr _)] => String.eqb k1 "success" && String.eqb k2 "message"
  | _ => false
  end.

Definition response_typed (r : response) : bool :=
  match r with
  | JsonResp b c =>
      (c =? 200) || ((c =? 403) || (c =? 404)) && is_error_body b || (c =? 401) && is_login_failure b
  | RedirectResp loc => py_in_str loc ["/login"; "/dashboard"; "/inventory"]
  | TemplateResp t _ =>
      py_in_str t ["login.html"; "dashboard.html"; "inventory.html"; "production.html";
                   "sales.html"; "alerts.html"]
  | ServerError => true
  end.

Class ResponseTyped (v : view) : Prop :=
  response_typed_ok : forall sess st, response_typed (fst (run_view v sess st)) = true.

(** Split a view on its session and on every branch of its body. *)
Ltac typed_tac :=
  intros [u|] st; unfold run_view, login_required; [|reflexivity];
  py_unfold; repeat (case_match; simpl in *; simplify_eq); reflexivity.

#[export] Instance get_inventory_typed : ResponseTyped get_inventory_view.
Proof. unfold get_inventory_view, get_inventory. typed_tac. Qed.

#[export] Instance add_inventory_typed d : ResponseTyped (add_inventory_view d).
Proof. unfold add_inventory_view, add_inventory. typed_tac. Qed.

#[export] Instance update_inventory_typed k d : ResponseTyped (update_inventory_view k d).
Proof. unfold update_inventory_view, update_inventory. typed_tac. Qed.

#[export] Instance delete_inventory_typed k : ResponseTyped (delete_inventory_view k).
Proof. unfold delete_inventory_view, delete_inventory. typed_tac. Qed.

#[export] Instance get_production_typed : ResponseTyped get_production_view.
Proof. unfold get_production_view, get_production. typed_tac. Qed.

#[export] Instance add_production_typed d : ResponseTyped (add_production_view d).
Proof. unfold add_production_view, add_production. typed_tac. Qed.

#[export] Instance update_production_typed k d : ResponseTyped (update_production_view k d).
Proof. unfold update_production_view, update_production. typed_tac. Qed.

#[export] Instance get_sales_typed : ResponseTyped get_sales_view.
Proof. unfold get_sales_view, get_sales. typed_tac. Qed.

#[export] Instance add_sales_typed d : ResponseTyped (add_sales_view d).
Proof. unfold add_sales_view, add_sales. typed_tac. Qed.

#[export] Instance update_sales_typed k d : ResponseTyped (update_sales_view k d).
Proof. unfold update_sales_view, update_sales. typed_tac. Qed.

#[export] Instance get_alerts_typed : ResponseTyped get_alerts_view.
Proof. unfold get_alerts_view, get_alerts. typed_tac. Qed.

#[export] Instance resolve_alert_typed k : ResponseTyped (resolve_alert_view k).
Proof. unfold resolve_alert_view, resolve_alert. typed_tac. Qed.

Section Interp.
  Context `{I : Interpreter}.

#[export] Instance dashboard_typed : ResponseTyped (login_required dashboard).
Proof. unfold dashboard. typed_tac. Qed.

#[export] Instance render_page_typed t :
  py_in_str t ["inventory.html"; "production.html"; "sales.html"] = true ->
  ResponseTyped (login_required (render_page t)).
Proof.
  intros Ht [u|] st; [|reflexivity]. unfold run_view, login_required, render_page. simpl.
  apply py_in_str_spec in Ht. simpl in Ht. by intuition subst.
Qed.

#[export] Instance alerts_page_typed : ResponseTyped (login_required alerts_page).
Proof. unfold alerts_page. typed_tac. Qed.

Lemma store_view_typed req v : store_view req = Some v -> ResponseTyped v.
Proof.
  destruct req; simpl; intros [= <-]; try typeclasses eauto;
    apply render_page_typed; reflexivity.
Qed.

Lemma session_view_typed req sess : response_typed (fst (run_session (session_view req) sess)) = true.
Proof.
  unfold run_session. destruct req; simpl; unfold login, login_post, logout, index;
    py_unfold; repeat (case_match; simpl in *; simplify_eq); reflexivity.
Qed.

(** C28: every request whose body Flask has decoded is answered with a
    response of one of the shapes above, whatever the store, the session
    and the body: in particular a denial or a missing record is a 403 or
    a 404 whose body is [{"error": message}], and a missing or malformed
    field is a 500, not the 400 with [{kind, message}] of spec section
    6 (Flask's own 400 for a body that is not JSON at all happens before
    any view runs, and is outside [handle]). *)
Theorem handle_response_typed req w :
  response_typed (fst (handle req w)) = true.
Proof.
  unfold handle. destruct (store_view req) as [v|] eqn:Hv.
  - pose proof (store_view_typed _ _ Hv w.(w_session) w.(w_store)) as H.
    destruct (run_view v _ _); exact H.
  - pose proof (session_view_typed req w.(w_session)) as H.
    destruct (run_session _ _); exact H.
Qed.

End Interp.
