(* ===== verification/Clients.v ===== *)
(** * Several clients over one store

    The Flask process keeps one store (the four module-level lists) and
    one session per browser, carried by its signed cookie.  [Server]
    holds the store and the sessions of all clients as a stdpp [gmap]
    from a client number to its session (a client the map does not list
    has sent no cookie yet: no session).  [serve c req] runs the request
    of client [c] with [App.handle] on the store and [c]'s session and
    writes back the store and that session only.  Requests are served
    one after the other, in any interleaving of the clients
    ([sstep], [sreachable]); the threads of the development server are
    the subject of [Threads.v].

    The routing of a request to a session by its cookie is Flask's, not
    code of src/main.py: [serve] is this file's assumption about the
    framework, stated once.  The theorem of the file is about the
    application's views under it: from any server, whatever the other
    clients did, a client can log in as admin and resolve all three
    alerts with four requests. *)

From Stdlib Require Import ZArith NArith String List Lia.
From stdpp Require Import base list gmap strings.
From S2P Require Import Prelude Json Records Store Web Auth AlertsApi App Invariants.
Import ListNotations.
Local Open Scope string_scope.
Local Open Scope Z_scope.

Record Server := mk_server {
  srv_store : Store;
  srv_sessions : gmap nat Session
}.

(** The session client [c]'s cookie carries. *)
Definition session_of (c : nat) (srv : Server) : Session :=
  match srv.(srv_sessions) !! c with Some s => s | None => None end.

(** The world of [App.v] as client [c] sees it. *)
Definition world_of (c : nat) (srv : Server) : World :=
  mk_world srv.(srv_store) (session_of c srv).

Section Interp.
  Context `{I : Interpreter}.

(** Flask answers client [c]: the view runs on the shared store and
    [c]'s session, and the response's cookie carries [c]'s new session. *)
Definition serve (c : nat) (req : request) (srv : Server) : response * Server :=
  let '(r, w') := handle req (world_of c srv) in
  (r, mk_server w'.(w_store) (<[c := w'.(w_session)]> srv.(srv_sessions))).

Inductive sstep : Server -> nat -> request -> response -> Server -> Prop :=
| sstep_serve srv c req : sstep srv c req (fst (serve c req srv)) (snd (serve c req srv)).

Definition initial_server (t2h t1h t1d : string) : Server :=
  mk_server (initial_store t2h t1h t1d) ∅.

Inductive sreachable (t2h t1h t1d : string) : Server -> Prop :=
| sreach_init : sreachable t2h t1h t1d (initial_server t2h t1h t1d)
| sreach_step srv c req r srv' :
    sreachable t2h t1h t1d srv -> sstep srv c req r srv' -> sreachable t2h t1h t1d srv'.

(** The requests one client issues in a row. *)
Fixpoint serve_all (c : nat) (reqs : list request) (srv : Server) : Server :=
  match reqs with
  | [] => srv
  | req :: reqs' => serve_all c reqs' (snd (serve c req srv))
  end.

(** The body of a login form with the admin account's credentials. *)
Definition admin_login : request :=
  LoginReq true (JObj [("username", JStr "admin"); ("password", JStr "admin123")]).

Definition resolve_all_requests : list request :=
  [admin_login; ResolveAlertReq 1; ResolveAlertReq 2; ResolveAlertReq 3].

(** ** Serving one client *)

Lemma serve_eq c req srv :
  serve c req srv =
  (fst (handle req (world_of c srv)),
   mk_server (snd (handle req (world_of c srv))).(w_store)
     (<[c := (snd (handle req (world_of c srv))).(w_session)]> srv.(srv_sessions))).
Proof. unfold serve. by destruct (handle req (world_of c srv)). Qed.

Lemma serve_all_reachable t2h t1h t1d c reqs srv :
  sreachable t2h t1h t1d srv -> sreachable t2h t1h t1d (serve_all c reqs srv).
Proof.
  revert srv. induction reqs as [|req reqs IH]; intros srv Hs; simpl; [done|].
  apply IH. eapply sreach_step; [exact Hs | constructor].
Qed.

 (** ** Resolving the three alerts *)

(** The admin login of any client succeeds and writes the admin user
    into that client's session only; the store is untouched. *)
Lemma serve_admin_login c srv :
  snd (serve c admin_login srv) =
  mk_server srv.(srv_store) (<[c := Some (mk_session_user "admin" "admin")]> srv.(srv_sessions)).
Proof. reflexivity. Qed.

Lemma serve_resolve c k srv a :
  session_of c srv = Some (mk_session_user "admin" "admin") ->
  find_by_id (Z.of_N k) srv.(srv_store).(alerts) = Some a ->
  snd (serve c (ResolveAlertReq k) srv) =
  mk_server (set_alerts (update_by_id (Z.of_N k) set_resolved srv.(srv_store).(alerts)) srv.(srv_store))
    (<[c := Some (mk_session_user "admin" "admin")]> srv.(srv_sessions)).
Proof.
  intros Hs Ha. rewrite serve_eq. unfold handle, world_of. rewrite Hs. simpl.
  by rewrite (run_resolve_found _ (mk_session_user "admin" "admin") _ a eq_refl Ha).
Qed.

Lemma find_by_id_ids k (l : list Alerts.alert) :
  In k (ids l) -> exists a, find_by_id k l = Some a.
Proof.
  intros Hk. destruct (find_by_id k l) as [a|] eqn:Hf; [by exists a|].
  by apply find_by_id_None in Hf.
Qed.

(** One resolve by the admin client: the alert becomes [Resolved], the
    ids stay the three of start-up, Resolved alerts stay Resolved, and
    the admin stays logged in. *)
Lemma resolve_step c k srv :
  session_of c srv = Some (mk_session_user "admin" "admin") ->
  ids srv.(srv_store).(alerts) = [1; 2; 3] -> In (Z.of_N k) [1; 2; 3] ->
  let srv' := snd (serve c (ResolveAlertReq k) srv) in
  session_of c srv' = Some (mk_session_user "admin" "admin") /\
  ids srv'.(srv_store).(alerts) = [1; 2; 3] /\
  resolved_in srv'.(srv_store).(alerts) (Z.of_N k) /\
  (forall k', resolved_in srv.(srv_store).(alerts) k' -> resolved_in srv'.(srv_store).(alerts) k').
Proof.
  intros Hs Hids Hk srv'. rewrite <- Hids in Hk.
  destruct (find_by_id_ids _ _ Hk) as [a Ha]. subst srv'. rewrite (serve_resolve _ _ _ a Hs Ha).
  unfold session_of. simpl. rewrite lookup_insert_eq. split; [done|].
  split; [rewrite update_by_id_ids; [done | apply set_resolved_id]|]. split.
  - exists (set_resolved a). split; [|done]. apply find_update_by_id; [done|].
    rewrite set_resolved_id. by apply find_by_id_Some in Ha as [_ ->].
  - intros k' [b [Hb Hr]]. eapply alerts_change_resolved; [right; by exists (Z.of_N k) | exact Hb | exact Hr].
Qed.

(** With the three alert ids, every alert is the one its id finds. *)
Lemma all_resolved_ids (l : list Alerts.alert) :
  ids l = [1; 2; 3] -> resolved_in l 1 -> resolved_in l 2 -> resolved_in l 3 ->
  Forall (fun a => a.(Alerts.status) = "Resolved") l.
Proof.
  intros Hids H1 H2 H3. apply List.Forall_forall. intros a Ha.
  assert (Hin : In (get_id a) [1; 2; 3]) by (rewrite <- Hids; by apply in_map).
  assert (Hf : find_by_id (get_id a) l = Some a).
  { apply find_by_id_unique; [|done]. unfold ids_unique. rewrite Hids.
    repeat constructor; rewrite list_elem_of_In; simpl; lia. }
  simpl in Hin. destruct Hin as [Hk|[Hk|[Hk|[]]]]; rewrite <- Hk in *;
    [destruct H1 as [b [Hb Hr]] | destruct H2 as [b [Hb Hr]] | destruct H3 as [b [Hb Hr]]];
    rewrite Hf in Hb; by injection Hb as ->.
Qed.

(** ** Properties *)

(** C25: whatever the clients did before, any client can bring every
    alert to [Resolved] with four requests (the admin login and one
    resolve per alert), given the three alert ids that every reachable
    server has; the server reached is reachable. *)
Theorem admin_resolves_all t2h t1h t1d c srv :
  ids srv.(srv_store).(alerts) = [1; 2; 3] ->
  let srv' := serve_all c resolve_all_requests srv in
  (sreachable t2h t1h t1d srv -> sreachable t2h t1h t1d srv') /\
  Forall (fun a => a.(Alerts.status) = "Resolved") srv'.(srv_store).(alerts).
Proof.
  intros Hids srv'. split; [apply serve_all_reachable|]. subst srv'.
  unfold resolve_all_requests. cbn [serve_all]. rewrite serve_admin_login.
  set (s0 := mk_server _ _).
  assert (Hs0 : session_of c s0 = Some (mk_session_user "admin" "admin"))
    by (unfold session_of; simpl; by rewrite lookup_insert_eq).
  destruct (resolve_step c 1 s0 Hs0 Hids) as (Hs1 & Hi1 & R1 & _); [simpl; tauto|].
  destruct (resolve_step c 2 _ Hs1 Hi1) as (Hs2 & Hi2 & R2 & M2); [simpl; tauto|].
  destruct (resolve_step c 3 _ Hs2 Hi2) as (_ & Hi3 & R3 & M3); [simpl; tauto|].
  apply all_resolved_ids; auto.
Qed.

End Interp.

Section Witnesses.
  #[local] Existing Instance cpython312.

Lemma admin_resolves_all_witness :
    ids (initial_server "a" "b" "c").(srv_store).(alerts) = [1; 2; 3] /\
    let srv' := serve_all 4 resolve_all_requests (initial_server "a" "b" "c") in
    (sreachable "a" "b" "c" (initial_server "a" "b" "c") -> sreachable "a" "b" "c" srv') /\
    Forall (fun a => a.(Alerts.status) = "Resolved") srv'.(srv_store).(alerts).
  Proof. split; [reflexivity|]. apply admin_resolves_all. reflexivity. Defined.
End Witnesses.
