(* ===== verification/Threads.v ===== *)
(** * Requests served by threads

    [app.run(debug=True, ...)] (src/main.py line 587) starts Werkzeug's
    development server, which since Flask 1.0 serves each request in a
    thread of its own.  The handlers take no lock, so CPython may switch
    threads between the point where a handler reads a global list and
    the point where it writes it.  This file models the two handlers of
    the inventory and the two other creates, whose read and write are
    apart:
    - [add_inventory] reads [inventory] for [max(ids) + 1] at line 365
      and appends the new record at line 379; [add_production] and
      [add_sales] do the same at lines 438 and 453, 500 and 514;
    - [delete_inventory] builds the filtered list at line 417 and then
      rebinds the global [inventory] to it.
    A [thread] is a request in flight, stopped at one of these points;
    [thread_step] runs it to the next one; a configuration is the store
    with the list of threads, and a schedule lists which thread runs at
    each step.  The list comprehension and each [append] are taken as
    atomic (the second is under the GIL; the first only reads).

    Which of these interleavings a real interpreter can produce depends
    on its version.  Between the read of a create and its append the
    handler runs many bytecodes and calls ([request.get_json()],
    [float()]), where every CPython may switch threads, so the races of
    the creates are realizable everywhere.  The delete's comprehension
    and the store of its result into the global are adjacent: CPython
    3.8-3.10, which may hand the GIL over before that store, and the
    free-threaded builds of 3.13 and later can interleave a create there;
    the default (GIL) build of 3.11 and later checks for a switch only at
    calls and backward jumps, none of which lies between the end of the
    comprehension and the store, so there the delete race of this file is
    not realizable.

    A lemma checks that a thread run alone computes exactly the handler
    of [InventoryApi.v] (so the serial model of [App.v] is the special
    case of schedules that never interleave two requests).  The theorems:
    two concurrent
    creates can both take the same id, breaking the id invariant, in
    each of the three collections; and
    a delete concurrent with a create can drop the created record after
    its creator was told it was stored. *)

From Stdlib Require Import ZArith String List Floats Lia.
From stdpp Require Import base list strings.
From S2P Require Import Prelude Json Records Store Web Auth InventoryApi ProductionApi SalesApi.
Import ListNotations.
Local Open Scope string_scope.
Local Open Scope Z_scope.

Inductive thread :=
| TAddInventory (data : json) (u : session_user)   (** started, line 361 next *)
| TAddCommit (new_id : Z) (f : inv_fields)         (** line 379 next *)
| TDeleteInventory (item_id : Z) (u : session_user)(** started, line 415 next *)
| TDeleteCommit (l : list Inventory.item)          (** the rebinding of line 417 next *)
| TAddProduction (data : json) (u : session_user)  (** started, line 434 next *)
| TAddLineCommit (new_id : Z) (f : line_fields) (materials : json)  (** line 453 next *)
| TAddSales (data : json) (u : session_user)       (** started, line 496 next *)
| TAddOrderCommit (new_id : Z) (f : order_fields) (products : json) (** line 514 next *)
| TDone (r : response).                            (** answered *)

(** Lines 361-377: the role test, [new_id] from the current store and
    the fields of the body; an exception ends the request with a 500. *)
Definition add_thread_start (data : json) (u : session_user) (st : Store) : thread :=
  if negb (py_in_str u.(role) ["admin"]) then TDone permission_denied else
  match read_inventory_fields data with
  | Ok f => TAddCommit (next_id st.(inventory)) f
  | Raise _ => TDone ServerError
  end.

(** Lines 379-380: append to the store as it is now. *)
Definition add_thread_commit (new_id : Z) (f : inv_fields) (st : Store) : thread * Store :=
  (TDone (jsonify (JObj [("success", JBool true);
                         ("item", Inventory.to_json (new_inventory_item new_id f))])),
   set_inventory (st.(inventory) ++ [new_inventory_item new_id f]) st).

(** Lines 413-417: the role test and the comprehension over the
    current store. *)
Definition delete_thread_start (item_id : Z) (u : session_user) (st : Store) : thread :=
  if negb (py_in_str u.(role) ["admin"]) then TDone permission_denied
  else TDeleteCommit (remove_by_id item_id st.(inventory)).

(** Lines 417-418: [inventory = ...] rebinds the global. *)
Definition delete_thread_commit (l : list Inventory.item) (st : Store) : thread * Store :=
  (TDone (jsonify (JObj [("success", JBool true)])), set_inventory l st).

(** Lines 434-451: the role test, [new_id] and the fields. *)
Definition production_thread_start (data : json) (u : session_user) (st : Store) : thread :=
  if negb (py_in_str u.(role) ["admin"; "production"]) then TDone permission_denied else
  match read_new_line data with
  | Ok (f, m) => TAddLineCommit (next_id st.(production_lines)) f m
  | Raise _ => TDone ServerError
  end.

(** Lines 453-454. *)
Definition production_thread_commit (new_id : Z) (f : line_fields) (m : json) (st : Store)
  : thread * Store :=
  (TDone (jsonify (JObj [("success", JBool true); ("line", Production.to_json (new_line new_id f m))])),
   set_production_lines (st.(production_lines) ++ [new_line new_id f m]) st).

(** Lines 496-512. *)
Definition sales_thread_start (data : json) (u : session_user) (st : Store) : thread :=
  if negb (py_in_str u.(role) ["admin"; "sales"]) then TDone permission_denied else
  match read_new_order data with
  | Ok (f, p) => TAddOrderCommit (next_id st.(sales_orders)) f p
  | Raise _ => TDone ServerError
  end.

(** Lines 514-515. *)
Definition sales_thread_commit (new_id : Z) (f : order_fields) (p : json) (st : Store)
  : thread * Store :=
  (TDone (jsonify (JObj [("success", JBool true); ("order", Sales.to_json (new_order new_id f p))])),
   set_sales_orders (st.(sales_orders) ++ [new_order new_id f p]) st).

Definition thread_step (t : thread) (st : Store) : thread * Store :=
  match t with
  | TAddInventory data u => (add_thread_start data u st, st)
  | TAddCommit k f => add_thread_commit k f st
  | TDeleteInventory k u => (delete_thread_start k u st, st)
  | TDeleteCommit l => delete_thread_commit l st
  | TAddProduction data u => (production_thread_start data u st, st)
  | TAddLineCommit k f m => production_thread_commit k f m st
  | TAddSales data u => (sales_thread_start data u st, st)
  | TAddOrderCommit k f p => sales_thread_commit k f p st
  | TDone r => (TDone r, st)
  end.

Definition tconfig : Type := Store * list thread.

(** Thread [i] runs one step; a schedule naming no thread does nothing. *)
Definition step_thread (i : nat) (c : tconfig) : tconfig :=
  match c.2 !! i with
  | Some t => let '(t', st') := thread_step t c.1 in (st', <[i := t']> c.2)
  | None => c
  end.

Fixpoint run_schedule (sched : list nat) (c : tconfig) : tconfig :=
  match sched with
  | [] => c
  | i :: sched' => run_schedule sched' (step_thread i c)
  end.

(** A thread that has not answered yet. *)
Definition in_flight (t : thread) : bool := match t with TDone _ => false | _ => true end.

(** ** Properties *)

Section Races.
  Context {A : Type} `{HasId A}.

  (** Two records appended with the same id break the uniqueness of ids,
      whatever came before them. *)
Lemma append_same_id_not_unique (l : list A) x1 x2 :
    get_id x1 = get_id x2 -> ~ ids_unique (l ++ [x1; x2]).
  Proof.
    unfold ids_unique, ids. rewrite map_app. cbn. intros Heq Hnd.
    apply NoDup_app in Hnd as (_ & _ & Hnd). apply NoDup_cons in Hnd as [Hn _].
    apply Hn. rewrite Heq. left.
  Qed.
End Races.

Lemma thread_step_done r st : thread_step (TDone r) st = (TDone r, st).
Proof. reflexivity. Qed.

(** A thread that runs alone computes the handler: two steps of
    an inventory create or delete, of a production-line create or of a
    sales-order create give the response and the store of [run_view] on
    the atomic handler.  The serial model is the case of schedules that
    never interleave. *)
Lemma thread_alone_equiv data k u st :
  run_schedule [0; 0]%nat (st, [TAddInventory data u]) =
    (snd (run_view (add_inventory_view data) (Some u) st),
     [TDone (fst (run_view (add_inventory_view data) (Some u) st))]) /\
  run_schedule [0; 0]%nat (st, [TDeleteInventory k u]) =
    (snd (run_view (delete_inventory_view k) (Some u) st),
     [TDone (fst (run_view (delete_inventory_view k) (Some u) st))]) /\
  run_schedule [0; 0]%nat (st, [TAddProduction data u]) =
    (snd (run_view (add_production_view data) (Some u) st),
     [TDone (fst (run_view (add_production_view data) (Some u) st))]) /\
  run_schedule [0; 0]%nat (st, [TAddSales data u]) =
    (snd (run_view (add_sales_view data) (Some u) st),
     [TDone (fst (run_view (add_sales_view data) (Some u) st))]).
Proof.
  cbn. unfold run_view, add_inventory_view, delete_inventory_view, add_production_view,
    add_sales_view, login_required, add_inventory, delete_inventory, add_production, add_sales,
    add_thread_start, delete_thread_start, production_thread_start, sales_thread_start.
  split; [|split; [|split]].
  - destruct (negb (py_in_str (role u) ["admin"])); cbn; [done|].
    py_simpl. by destruct (read_inventory_fields data).
  - by destruct (negb (py_in_str (role u) ["admin"])).
  - destruct (negb (py_in_str (role u) ["admin"; "production"])); cbn; [done|].
    py_simpl. by destruct (read_new_line data) as [[]|].
  - destruct (negb (py_in_str (role u) ["admin"; "sales"])); cbn; [done|].
    py_simpl. by destruct (read_new_order data) as [[]|].
Qed.

(** C26: two admin creates whose bodies are well formed, interleaved so
    that both read [inventory] before either appends, both answer 200
    and leave two records with the same id [next_id]: the id invariant
    of [Invariants.world_inv] does not hold of the threaded server. *)
Theorem concurrent_creates_same_id d1 d2 f1 f2 u1 u2 st :
  u1.(role) = "admin" -> u2.(role) = "admin" ->
  read_inventory_fields d1 = Ok f1 -> read_inventory_fields d2 = Ok f2 ->
  let c := run_schedule [0; 1; 0; 1]%nat (st, [TAddInventory d1 u1; TAddInventory d2 u2]) in
  c.1.(inventory) = (st.(inventory) ++ [new_inventory_item (next_id st.(inventory)) f1;
                                        new_inventory_item (next_id st.(inventory)) f2])%list /\
  Forall (fun t => in_flight t = false) c.2 /\
  ~ ids_unique c.1.(inventory).
Proof.
  intros H1 H2 Hf1 Hf2 c. subst c. cbn.
  unfold add_thread_start. rewrite H1, H2. cbn. rewrite Hf1, Hf2. cbn.
  rewrite <- app_assoc. split; [done|]. split; [repeat constructor|].
  by apply append_same_id_not_unique.
Qed.

(** C29: the production-line and sales-order creates race the same way:
    two creates by roles that may create, interleaved so that both read
    the list before either appends, store two records with the same id
    [next_id] in [production_lines] and in [sales_orders]. *)
Theorem concurrent_line_order_same_id dl1 dl2 fl1 fl2 m1 m2 do1 do2 fo1 fo2 p1 p2 ul us st :
  production_check ul.(role) = true -> sales_check us.(role) = true ->
  read_new_line dl1 = Ok (fl1, m1) -> read_new_line dl2 = Ok (fl2, m2) ->
  read_new_order do1 = Ok (fo1, p1) -> read_new_order do2 = Ok (fo2, p2) ->
  let cl := run_schedule [0; 1; 0; 1]%nat (st, [TAddProduction dl1 ul; TAddProduction dl2 ul]) in
  let co := run_schedule [0; 1; 0; 1]%nat (st, [TAddSales do1 us; TAddSales do2 us]) in
  cl.1.(production_lines) = (st.(production_lines) ++
    [new_line (next_id st.(production_lines)) fl1 m1; new_line (next_id st.(production_lines)) fl2 m2])%list /\
  ~ ids_unique cl.1.(production_lines) /\
  co.1.(sales_orders) = (st.(sales_orders) ++
    [new_order (next_id st.(sales_orders)) fo1 p1; new_order (next_id st.(sales_orders)) fo2 p2])%list /\
  ~ ids_unique co.1.(sales_orders).
Proof.
  intros Hl Hs Hl1 Hl2 Ho1 Ho2 cl co. subst cl co. unfold production_check, sales_check in *. cbn.
  unfold production_thread_start, sales_thread_start. rewrite Hl, Hs. cbn.
  rewrite Hl1, Hl2, Ho1, Ho2. cbn. rewrite <- !app_assoc.
  split; [done|]. split; [by apply append_same_id_not_unique|].
  split; [done|]. by apply append_same_id_not_unique.
Qed.

(** C27: a delete whose comprehension runs before a concurrent create
    appends, and which rebinds [inventory] after it, drops the created
    record: the create answered 200 with the record, which is then in
    no listing.  The interleaving is one CPython 3.8-3.10 and the
    free-threaded builds can produce (see the header). *)
Theorem delete_loses_concurrent_create k d f ua ud st :
  ua.(role) = "admin" -> ud.(role) = "admin" -> read_inventory_fields d = Ok f ->
  let c := run_schedule [1; 0; 0; 1]%nat (st, [TAddInventory d ua; TDeleteInventory k ud]) in
  c.2 = [TDone (jsonify (JObj [("success", JBool true);
                               ("item", Inventory.to_json (new_inventory_item (next_id st.(inventory)) f))]));
         TDone (jsonify (JObj [("success", JBool true)]))] /\
  c.1.(inventory) = remove_by_id k st.(inventory) /\
  ~ In (new_inventory_item (next_id st.(inventory)) f) c.1.(inventory).
Proof.
  intros Ha Hd Hf c. subst c. cbn.
  unfold add_thread_start, delete_thread_start. rewrite Ha, Hd. cbn. rewrite Hf. cbn.
  split; [done|]. split; [done|]. intros Hin%remove_by_id_In.
  pose proof (next_id_fresh _ _ Hin) as Hlt. rewrite new_inventory_item_id in Hlt. lia.
Qed.

Section Witnesses.
  Local Set Warnings "-inexact-float".

Lemma concurrent_creates_same_id_witness :
    admin_user.(role) = "admin" /\ read_inventory_fields sample_inv_data = Ok sample_inv_fields /\
    let c := run_schedule [0; 1; 0; 1]%nat
               (sample_store, [TAddInventory sample_inv_data admin_user;
                               TAddInventory sample_inv_data admin_user]) in
    c.1.(inventory) = (sample_store.(inventory) ++
                      [new_inventory_item (next_id sample_store.(inventory)) sample_inv_fields;
                       new_inventory_item (next_id sample_store.(inventory)) sample_inv_fields])%list /\
    Forall (fun t => in_flight t = false) c.2 /\
    ~ ids_unique c.1.(inventory).
  Proof.
    split; [reflexivity|]. split; [reflexivity|].
    apply concurrent_creates_same_id; reflexivity.
  Defined.

Lemma delete_loses_concurrent_create_witness :
    admin_user.(role) = "admin" /\ read_inventory_fields sample_inv_data = Ok sample_inv_fields /\
    let c := run_schedule [1; 0; 0; 1]%nat
               (sample_store, [TAddInventory sample_inv_data admin_user;
                               TDeleteInventory 2 admin_user]) in
    c.2 = [TDone (jsonify (JObj [("success", JBool true);
                                 ("item", Inventory.to_json
                                            (new_inventory_item (next_id sample_store.(inventory))
                                               sample_inv_fields))]));
           TDone (jsonify (JObj [("success", JBool true)]))] /\
    c.1.(inventory) = remove_by_id 2 sample_store.(inventory) /\
    ~ In (new_inventory_item (next_id sample_store.(inventory)) sample_inv_fields) c.1.(inventory).
  Proof.
    split; [reflexivity|]. split; [reflexivity|].
    apply delete_loses_concurrent_create; reflexivity.
  Defined.
Lemma concurrent_line_order_same_id_witness :
    production_check (user_of_role "production" RProduction).(role) = true /\
    sales_check (user_of_role "sales" RSales).(role) = true /\
    read_new_line spec_line_data = Ok (spec_line_fields, JArr []) /\
    read_new_order sample_order_data = Ok (sample_order_fields, JArr []) /\
    let cl := run_schedule [0; 1; 0; 1]%nat
                (sample_store, [TAddProduction spec_line_data (user_of_role "production" RProduction);
                                TAddProduction spec_line_data (user_of_role "production" RProduction)]) in
    let co := run_schedule [0; 1; 0; 1]%nat
                (sample_store, [TAddSales sample_order_data (user_of_role "sales" RSales);
                                TAddSales sample_order_data (user_of_role "sales" RSales)]) in
    cl.1.(production_lines) = (sample_store.(production_lines) ++
      [new_line (next_id sample_store.(production_lines)) spec_line_fields (JArr []);
       new_line (next_id sample_store.(production_lines)) spec_line_fields (JArr [])])%list /\
    ~ ids_unique cl.1.(production_lines) /\
    co.1.(sales_orders) = (sample_store.(sales_orders) ++
      [new_order (next_id sample_store.(sales_orders)) sample_order_fields (JArr []);
       new_order (next_id sample_store.(sales_orders)) sample_order_fields (JArr [])])%list /\
    ~ ids_unique co.1.(sales_orders).
  Proof.
    do 4 (split; [reflexivity|]).
    apply concurrent_line_order_same_id; reflexivity.
  Defined.
End Witnesses.
